(** * ThreatHawk detection pipeline: scorer, analyzer, collectors, engine

    A shallow embedding of the Python sources

      - [src/analyzers/threat_scorer.py]   (scorer and severity bands)
      - [src/analyzers/event_analyzer.py]  (analyzer and alert creation)
      - [src/collectors/*.py]              (network, file, system collectors)
      - [src/core/engine.py]               (collector loops, start and stop)

    Python floats are IEEE binary64 values, so they are modelled by Rocq's
    primitive [float]; the literals [0.8], [0.15], ... denote the same
    doubles as in Python.  Python dicts with string keys are [gmap string _].
    Exceptions are explicit ([result]); the database, the identifier
    generator, the clock and the logger are threaded as a [World]. *)

From Stdlib Require Import ZArith List Bool Lia Floats Ascii String.
From stdpp Require Import base option list gmap strings pretty functions.

Set Warnings "-inexact-float".
Local Open Scope Z_scope.

(** ** Python floats *)

Module PyFloat.

(** [a < b], [a > b], [a >= b] on floats. *)
Definition lt (a b : float) : bool := PrimFloat.ltb a b.
Definition gt (a b : float) : bool := PrimFloat.ltb b a.
Definition ge (a b : float) : bool := PrimFloat.leb b a.
Definition le (a b : float) : bool := PrimFloat.leb a b.

(** The builtin [min(a, b)]: the first argument is kept unless the second
    compares strictly smaller. *)
Definition min (a b : float) : float := if lt b a then b else a.

(** The builtin [max(a, b)]: the first argument is kept unless the second
    compares strictly greater. *)
Definition max (a b : float) : float := if gt b a then b else a.

(** Nearest integer to [a / d], ties to the even integer
    ([0 <= a], [0 < d]). *)
Definition round_half_even_div (a d : Z) : Z :=
  let q := a / d in
  let r := a mod d in
  if 2 * r <? d then q
  else if d <? 2 * r then q + 1
  else if Z.even q then q else q + 1.

(** The double nearest to the rational [p / q] (ties to even), for
    [0 < p], [0 < q] and a quotient in the range of normal doubles: the
    quotient is scaled to a 53-bit significand [m] with exponent [e]. *)
Definition nearest (p q : Z) : float :=
  let e0 := Z.log2 p - Z.log2 q - 53 in
  let num e := if 0 <=? e then p else p * 2 ^ (- e) in
  let den e := if 0 <=? e then q * 2 ^ e else q in
  let e := if 2 ^ 53 <=? num e0 / den e0 then e0 + 1 else e0 in
  let m := round_half_even_div (num e) (den e) in
  Z.ldexp (PrimFloat.of_uint63 (Uint63.of_Z m)) e.

(** The double written [n / 100] in decimal, e.g. [hundredths 95] is the
    literal [0.95]. *)
Definition hundredths (n : Z) : float :=
  if n =? 0 then 0%float
  else if 0 <? n then nearest n 100
  else PrimFloat.opp (nearest (- n) 100).

(** [round(x, 2)].  CPython rounds the exact binary value of [x] to two
    decimals correctly (ties to even) and returns the nearest double;
    zeros, infinities and NaN round to themselves. *)
Definition round2 (x : float) : float :=
  match Prim2SF x with
  | S754_finite s m e =>
      let n :=
        if 0 <=? e then 100 * Z.pos m * 2 ^ e
        else round_half_even_div (100 * Z.pos m) (2 ^ (- e)) in
      if n =? 0 then (if s then (-0)%float else 0%float)
      else hundredths (if s then - n else n)
  | _ => x
  end.

(** [float(z)] for a Python int: correctly rounded, [None] where CPython
    raises OverflowError. *)
Definition of_int (z : Z) : option float :=
  if 2 ^ 1024 - 2 ^ 970 <=? Z.abs z then None
  else if z =? 0 then Some 0%float
  else if 0 <? z then Some (nearest z 1)
  else Some (PrimFloat.opp (nearest (- z) 1)).

(** A float that has at most two decimals: the double nearest to some
    integer number of hundredths. *)
Definition two_decimals (x : float) : Prop := ∃ n : Z, x = hundredths n.

End PyFloat.

(** ** Python strings (8-bit characters, ASCII case folding) *)

Definition lower_ascii (c : ascii) : ascii :=
  let n := N_of_ascii c in
  if ((65 <=? n) && (n <=? 90))%N then ascii_of_N (n + 32) else c.

(** [s.lower()] *)
Fixpoint str_lower (s : string) : string :=
  match s with
  | EmptyString => EmptyString
  | String c s' => String (lower_ascii c) (str_lower s')
  end.

(** [s.upper()] *)
Definition upper_ascii (c : ascii) : ascii :=
  let n := N_of_ascii c in
  if ((97 <=? n) && (n <=? 122))%N then ascii_of_N (n - 32) else c.

Fixpoint str_upper (s : string) : string :=
  match s with
  | EmptyString => EmptyString
  | String c s' => String (upper_ascii c) (str_upper s')
  end.

(** [text.startswith(k)] *)
Fixpoint str_startswith (k text : string) : bool :=
  match k, text with
  | EmptyString, _ => true
  | String a k', String b t' => if Ascii.eqb a b then str_startswith k' t' else false
  | String _ _, EmptyString => false
  end.

(** [k in text] for two strings *)
Fixpoint str_in (k text : string) : bool :=
  str_startswith k text ||
  match text with
  | EmptyString => false
  | String _ t' => str_in k t'
  end.

(** ** Python values, dicts and exceptions *)

Inductive atom : Type :=
  | ANone
  | ABool (b : bool)
  | AInt (z : Z)
  | AFloat (f : float)
  | AStr (s : string).

(** A value stored in an event: a scalar or a flat dict of scalars (the
    [raw_data] payloads of the collectors). *)
Inductive pyval : Type :=
  | Atom (a : atom)
  | Dict (d : gmap string atom).

Coercion Atom : atom >-> pyval.

Abbreviation pydict := (gmap string pyval).

Inductive exn : Type :=
  | AttributeError
  | TypeError
  | OverflowError
  | RuntimeError
  | SQLAlchemyError.

Inductive result (A : Type) : Type :=
  | Ok (a : A)
  | Raise (e : exn).
Arguments Ok {A} a.
Arguments Raise {A} e.

#[global] Instance result_ret : MRet result := λ A a, Ok a.
#[global] Instance result_bind : MBind result := λ A B f m,
  match m with
  | Ok a => f a
  | Raise e => Raise e
  end.

(** [d.get(k, default)] *)
Definition dict_get (d : pydict) (k : string) (dflt : pyval) : pyval :=
  default dflt (d !! k).

(** [d.get(k)] *)
Definition dict_get_none (d : pydict) (k : string) : pyval :=
  dict_get d k ANone.

(** ** Constants ([src/core/constants.py]) *)

Inductive Severity : Type := INFO | LOW | MEDIUM | HIGH | CRITICAL.

Definition Severity_value (s : Severity) : string :=
  match s with
  | INFO => "info"
  | LOW => "low"
  | MEDIUM => "medium"
  | HIGH => "high"
  | CRITICAL => "critical"
  end.

Inductive EventType : Type :=
  | SUSPICIOUS_PROCESS
  | NETWORK_ANOMALY
  | FILE_CHANGE
  | HIGH_RESOURCE
  | PORT_SCAN
  | BRUTE_FORCE
  | USB_DEVICE.

Definition EventType_value (t : EventType) : string :=
  match t with
  | SUSPICIOUS_PROCESS => "suspicious_process"
  | NETWORK_ANOMALY => "network_anomaly"
  | FILE_CHANGE => "file_change"
  | HIGH_RESOURCE => "high_resource"
  | PORT_SCAN => "port_scan"
  | BRUTE_FORCE => "brute_force"
  | USB_DEVICE => "usb_device"
  end.

Definition SUSPICIOUS_PORTS : gset Z :=
  list_to_set [4444; 5555; 6666; 1337; 31337; 12345; 9999].

Definition SUSPICIOUS_EXTENSIONS : gset string :=
  list_to_set [".exe"; ".bat"; ".ps1"; ".vbs"; ".dll"; ".scr"]%string.

(** ** Threat scorer ([src/analyzers/threat_scorer.py]) *)

Definition EVENT_BASE_SCORES : gmap string float :=
  list_to_map
    [ (EventType_value SUSPICIOUS_PROCESS, 0.8%float);
      (EventType_value NETWORK_ANOMALY, 0.6%float);
      (EventType_value FILE_CHANGE, 0.5%float);
      (EventType_value HIGH_RESOURCE, 0.3%float);
      (EventType_value PORT_SCAN, 0.7%float);
      (EventType_value BRUTE_FORCE, 0.8%float);
      (EventType_value USB_DEVICE, 0.4%float) ].

(** [EVENT_BASE_SCORES.get(event_type, 0.3)]: a dict is not hashable, any
    other non-string key is simply absent. *)
Definition base_score (event_type : pyval) : result float :=
  match event_type with
  | Atom (AStr s) => Ok (default 0.3%float (EVENT_BASE_SCORES !! s))
  | Atom _ => Ok 0.3%float
  | Dict _ => Raise TypeError
  end.

(** Factor 1: [if existing_score > 0: score = (score + existing_score) / 2] *)
Definition average_existing (score : float) (existing : pyval) : result float :=
  match existing with
  | Atom (AFloat f) =>
      if PyFloat.gt f 0 then Ok ((score + f) / 2)%float else Ok score
  | Atom (AInt z) =>
      if 0 <? z then
        match PyFloat.of_int z with
        | Some f => Ok ((score + f) / 2)%float
        | None => Raise OverflowError
        end
      else Ok score
  | Atom (ABool b) =>
      if b then Ok ((score + 1) / 2)%float else Ok score
  | Atom ANone | Atom (AStr _) | Dict _ => Raise TypeError
  end.

(** [v.lower()] on a value fetched from the event *)
Definition py_lower (v : pyval) : result string :=
  match v with
  | Atom (AStr s) => Ok (str_lower s)
  | _ => Raise AttributeError
  end.

Definition critical_keywords : list string :=
  [ "mimikatz"; "keylogger"; "malware"; "backdoor"; "trojan"; "ransomware" ]%string.

(** Factor 2: the [for keyword in ...: if keyword in text: ...; break] loop *)
Fixpoint keyword_loop (keywords : list string) (text : string) (score : float) : float :=
  match keywords with
  | [] => score
  | keyword :: rest =>
      if str_in keyword text then PyFloat.min (score + 0.15)%float 1%float
      else keyword_loop rest text score
  end.

(** [total_connections > 50] *)
Definition over_50 (total_connections : atom) : result bool :=
  match total_connections with
  | AInt z => Ok (50 <? z)
  | AFloat f => Ok (PyFloat.gt f 50)
  | ABool _ => Ok false
  | ANone | AStr _ => Raise TypeError
  end.

(** Factor 3: the [isinstance(raw_data, dict)] block *)
Definition connection_bonus (score : float) (raw_data : pyval) : result float :=
  match raw_data with
  | Dict d =>
      b ← over_50 (default (AInt 0) (d !! "total_connections"));
      if b : bool then Ok (PyFloat.min (score + 0.1)%float 1%float) else Ok score
  | Atom _ => Ok score
  end.

(** [max(0.0, min(1.0, round(score, 2)))] *)
Definition clamp_round (score : float) : float :=
  PyFloat.max 0%float (PyFloat.min 1%float (PyFloat.round2 score)).

Definition calculate_threat_score (event : pydict) : result float :=
  let event_type := dict_get event "event_type" (AStr "") in
  score ← base_score event_type;
  let existing_score := dict_get event "threat_score" (AFloat 0) in
  score ← average_existing score existing_score;
  title ← py_lower (dict_get event "title" (AStr ""));
  description ← py_lower (dict_get event "description" (AStr ""));
  let text := (title +:+ " " +:+ description)%string in
  let score := keyword_loop critical_keywords text score in
  let raw_data := dict_get event "raw_data" (Dict ∅) in
  score ← connection_bonus score raw_data;
  Ok (clamp_round score).

Definition get_severity_from_score (score : float) : Severity :=
  if PyFloat.ge score 0.7 then CRITICAL
  else if PyFloat.ge score 0.5 then HIGH
  else if PyFloat.ge score 0.3 then MEDIUM
  else LOW.

(** ** The world around the pipeline

    The database manager ([src/database/connection.py]), the two tables the
    analyzer writes ([src/database/models.py]), the UUID generator, the clock
    and the log. *)

Record SecurityEvent : Type := {
  se_id : pyval;
  se_event_type : pyval;
  se_severity : pyval;
  se_title : pyval;
  se_description : pyval;
  se_source : pyval;
  se_source_ip : pyval;
  se_destination_ip : pyval;
  se_process_name : pyval;
  se_process_id : pyval;
  se_file_path : pyval;
  se_threat_score : pyval;
  se_raw_data : pyval;
}.

Record Alert : Type := {
  al_id : pyval;
  al_event_id : pyval;
  al_severity : pyval;
  al_title : pyval;
  al_description : pyval;
  al_status : pyval;
  al_threat_score : pyval;
}.

Inductive Row : Type :=
  | EventRow (r : SecurityEvent)
  | AlertRow (r : Alert).

(** [session_factory] tells whether [_session_factory] is set; the rows of
    the two tables are kept oldest first.  A commit can fail for reasons
    outside the program: [commit_faults] scripts the outcome of the coming
    commits ([true]: the commit raises), an exhausted script means success. *)
Record DatabaseManager : Type := {
  session_factory : bool;
  disposed : bool;
  commit_faults : list bool;
  security_events : list SecurityEvent;
  alerts : list Alert;
}.

Inductive LogRecord : Type :=
  | LogEventAnalyzed (title : pyval) (score : float) (severity : string)
  | LogAlertsCreated (n_alerts n_events : nat)
  | LogFailedSaveEvent (e : exn)
  | LogAlertCreated (title : pyval) (severity : string)
  | LogFailedCreateAlert (e : exn)
  | LogCollectorError (name : string) (e : exn)
  | LogWarning (msg : string)
  | LogInfo (msg : string).

(** A persistence call issued by the analyzer, with the dict it was given. *)
Inductive SinkCall : Type :=
  | SaveEventCall (event : pydict)
  | CreateAlertCall (event : pydict).

(** [calls] is a ghost trace of the persistence calls, oldest first. *)
Record World : Type := {
  db : DatabaseManager;
  uuid_seed : nat;
  clock : nat;
  log : list LogRecord;
  calls : list SinkCall;
}.

Definition with_db (d : DatabaseManager) (w : World) : World :=
  {| db := d; uuid_seed := uuid_seed w; clock := clock w; log := log w; calls := calls w |}.

Definition logger (r : LogRecord) (w : World) : World :=
  {| db := db w; uuid_seed := uuid_seed w; clock := clock w;
     log := log w ++ [r]; calls := calls w |}.

Definition record_call (c : SinkCall) (w : World) : World :=
  {| db := db w; uuid_seed := uuid_seed w; clock := clock w;
     log := log w; calls := calls w ++ [c] |}.

(** The [n]-th identifier drawn from [uuid.uuid4()]. *)
Definition uuid4 (n : nat) : string := "uuid-" +:+ pretty n.

(** [generate_id()] *)
Definition generate_id (w : World) : string * World :=
  (uuid4 (uuid_seed w),
   {| db := db w; uuid_seed := S (uuid_seed w); clock := clock w;
      log := log w; calls := calls w |}).

(** [now_utc().isoformat()] *)
Definition now_isoformat (w : World) : string := "T+" +:+ pretty (clock w).

(** [db_manager.get_session()] *)
Definition get_session (d : DatabaseManager) : result unit :=
  if session_factory d then Ok tt else Raise RuntimeError.

Definition insert_row (r : Row) (d : DatabaseManager) (faults : list bool) : DatabaseManager :=
  match r with
  | EventRow e =>
      {| session_factory := session_factory d; disposed := disposed d;
         commit_faults := faults;
         security_events := security_events d ++ [e]; alerts := alerts d |}
  | AlertRow a =>
      {| session_factory := session_factory d; disposed := disposed d;
         commit_faults := faults;
         security_events := security_events d; alerts := alerts d ++ [a] |}
  end.

(** [session.add(row); await session.commit(); await session.close()] *)
Definition add_commit (r : Row) (d : DatabaseManager) : result unit * DatabaseManager :=
  match commit_faults d with
  | true :: faults =>
      (Raise SQLAlchemyError,
       {| session_factory := session_factory d; disposed := disposed d;
          commit_faults := faults;
          security_events := security_events d; alerts := alerts d |})
  | false :: faults => (Ok tt, insert_row r d faults)
  | [] => (Ok tt, insert_row r d [])
  end.

(** [db_manager.shutdown()]: an engine that exists is disposed, the session
    factory stays in place. *)
Definition shutdown (d : DatabaseManager) : DatabaseManager :=
  {| session_factory := session_factory d;
     disposed := session_factory d || disposed d;
     commit_faults := commit_faults d;
     security_events := security_events d; alerts := alerts d |}.

(** ** Event analyzer ([src/analyzers/event_analyzer.py]) *)

Definition ALERT_THRESHOLD : float := 0.5%float.

(** The [SecurityEvent(...)] row built in [_save_event]; [fresh] is the
    value of the eagerly evaluated default [generate_id()]. *)
Definition event_row (event : pydict) (fresh : string) : SecurityEvent :=
  {| se_id := dict_get event "id" (AStr fresh);
     se_event_type := dict_get event "event_type" (AStr "unknown");
     se_severity := dict_get event "severity" (AStr "low");
     se_title := dict_get event "title" (AStr "Unknown Event");
     se_description := dict_get_none event "description";
     se_source := dict_get event "source" (AStr "unknown");
     se_source_ip := dict_get_none event "source_ip";
     se_destination_ip := dict_get_none event "destination_ip";
     se_process_name := dict_get_none event "process_name";
     se_process_id := dict_get_none event "process_id";
     se_file_path := dict_get_none event "file_path";
     se_threat_score := dict_get event "threat_score" (AFloat 0);
     se_raw_data := dict_get_none event "raw_data" |}.

(** [_save_event]: every exception of the body is caught and logged. *)
Definition _save_event (event : pydict) (w : World) : World :=
  let w := record_call (SaveEventCall event) w in
  match get_session (db w) with
  | Raise e => logger (LogFailedSaveEvent e) w
  | Ok _ =>
      let '(fresh, w) := generate_id w in
      let db_event := event_row event fresh in
      match add_commit (EventRow db_event) (db w) with
      | (Ok _, d) => with_db d w
      | (Raise e, d) => logger (LogFailedSaveEvent e) (with_db d w)
      end
  end.

(** The [alert_data] dict of [_create_alert]. *)
Definition alert_dict (event : pydict) (id created_at : string) : pydict :=
  list_to_map
    [ ("id"%string, Atom (AStr id));
      ("event_id"%string, dict_get event "id" (AStr ""));
      ("severity"%string, dict_get event "severity" (AStr "medium"));
      ("title"%string, dict_get event "title" (AStr "Security Alert"));
      ("description"%string, dict_get_none event "description");
      ("status"%string, Atom (AStr "new"));
      ("threat_score"%string, dict_get event "threat_score" (AFloat 0));
      ("created_at"%string, Atom (AStr created_at)) ].

(** The [Alert(...)] row built from [alert_data]. *)
Definition alert_row (alert_data : pydict) : Alert :=
  {| al_id := dict_get_none alert_data "id";
     al_event_id := dict_get_none alert_data "event_id";
     al_severity := dict_get_none alert_data "severity";
     al_title := dict_get_none alert_data "title";
     al_description := dict_get_none alert_data "description";
     al_status := dict_get_none alert_data "status";
     al_threat_score := dict_get_none alert_data "threat_score" |}.

(** [v.upper()] *)
Definition py_upper (v : pyval) : result string :=
  match v with
  | Atom (AStr s) => Ok (str_upper s)
  | _ => Raise AttributeError
  end.

(** [_create_alert]: the dict is built first, the database write sits in a
    [try] whose handler only logs, and the dict is returned either way. *)
Definition _create_alert (event : pydict) (w : World) : pydict * World :=
  let w := record_call (CreateAlertCall event) w in
  let '(id, w) := generate_id w in
  let alert_data := alert_dict event id (now_isoformat w) in
  let w :=
    match get_session (db w) with
    | Raise e => logger (LogFailedCreateAlert e) w
    | Ok _ =>
        match add_commit (AlertRow (alert_row alert_data)) (db w) with
        | (Raise e, d) => logger (LogFailedCreateAlert e) (with_db d w)
        | (Ok _, d) =>
            let w := with_db d w in
            match py_upper (dict_get_none alert_data "severity") with
            | Ok sev => logger (LogAlertCreated (dict_get_none alert_data "title") sev) w
            | Raise e => logger (LogFailedCreateAlert e) w
            end
        end
    end in
  (alert_data, w).

(** The in-place update [event["threat_score"] = score;
    event["severity"] = severity] of [analyze_event]. *)
Definition scored (event : pydict) (score : float) : pydict :=
  <["severity" := Atom (AStr (Severity_value (get_severity_from_score score)))]>
    (<["threat_score" := Atom (AFloat score)]> event).

(** [analyze_event]: returns the alert dict or [None]; an exception of the
    scorer propagates before anything is saved. *)
Definition analyze_event (event : pydict) (w : World) : result (option pydict) * World :=
  match calculate_threat_score event with
  | Raise e => (Raise e, w)
  | Ok score =>
      let severity := Severity_value (get_severity_from_score score) in
      let event := scored event score in
      let w := logger (LogEventAnalyzed (dict_get event "title" (AStr "Unknown")) score severity) w in
      let w := _save_event event w in
      if PyFloat.ge score ALERT_THRESHOLD then
        let '(alert, w) := _create_alert event w in (Ok (Some alert), w)
      else (Ok None, w)
  end.

(** The [for event in events] loop of [analyze_batch]; an alert dict is never
    empty, so [if alert:] holds for every alert returned. *)
Fixpoint analyze_loop (events : list pydict) (alerts : list pydict) (w : World)
  : result (list pydict) * World :=
  match events with
  | [] => (Ok alerts, w)
  | event :: rest =>
      match analyze_event event w with
      | (Raise e, w) => (Raise e, w)
      | (Ok (Some alert), w) => analyze_loop rest (alerts ++ [alert]) w
      | (Ok None, w) => analyze_loop rest alerts w
      end
  end.

Definition analyze_batch (events : list pydict) (w : World) : result (list pydict) * World :=
  match analyze_loop events [] w with
  | (Raise e, w) => (Raise e, w)
  | (Ok alerts, w) =>
      match alerts with
      | [] => (Ok alerts, w)
      | _ :: _ => (Ok alerts, logger (LogAlertsCreated (length alerts) (length events)) w)
      end
  end.

(** ** Network collector ([src/collectors/network_collector.py]) *)

Module NetworkCollector.

(** psutil's [addr(ip, port)] and [sconn]; an absent address is the empty
    tuple in psutil, [None] here. *)
Record addr : Type := { ip : string; port : Z }.

Record sconn : Type := {
  status : string;
  laddr : option addr;
  raddr : option addr;
  pid : option Z;
}.

Definition get_name : string := "Network".

Definition opt_int (o : option Z) : atom :=
  match o with Some z => AInt z | None => ANone end.

(** [f"{a.ip}:{a.port}"] *)
Definition endpoint (a : addr) : string := ip a +:+ ":" +:+ pretty (port a).

Definition remote_finding (conn : sconn) (r : addr) (id created_at : string) : pydict :=
  list_to_map
    [ ("id"%string, Atom (AStr id));
      ("event_type"%string, Atom (AStr (EventType_value NETWORK_ANOMALY)));
      ("severity"%string, Atom (AStr (Severity_value HIGH)));
      ("title"%string, Atom (AStr ("Connection to suspicious port " +:+ pretty (port r))));
      ("description"%string, Atom (AStr ("Outgoing connection to " +:+ endpoint r)));
      ("source"%string, Atom (AStr get_name));
      ("source_ip"%string,
        Atom (match laddr conn with Some l => AStr (ip l) | None => ANone end));
      ("destination_ip"%string, Atom (AStr (ip r)));
      ("process_id"%string, Atom (opt_int (pid conn)));
      ("threat_score"%string, Atom (AFloat 0.8));
      ("created_at"%string, Atom (AStr created_at));
      ("raw_data"%string,
        Dict (list_to_map
          [ ("local"%string,
              match laddr conn with Some l => AStr (endpoint l) | None => ANone end);
            ("remote"%string, AStr (endpoint r));
            ("status"%string, AStr (status conn));
            ("pid"%string, opt_int (pid conn)) ])) ].

Definition local_finding (conn : sconn) (l : addr) (id created_at : string) : pydict :=
  list_to_map
    [ ("id"%string, Atom (AStr id));
      ("event_type"%string, Atom (AStr (EventType_value NETWORK_ANOMALY)));
      ("severity"%string, Atom (AStr (Severity_value CRITICAL)));
      ("title"%string, Atom (AStr ("Suspicious port " +:+ pretty (port l) +:+ " is active")));
      ("description"%string,
        Atom (AStr ("Local machine listening on suspicious port " +:+ pretty (port l))));
      ("source"%string, Atom (AStr get_name));
      ("source_ip"%string, Atom (AStr (ip l)));
      ("threat_score"%string, Atom (AFloat 0.85));
      ("created_at"%string, Atom (AStr created_at));
      ("raw_data"%string,
        Dict (list_to_map
          [ ("local"%string, AStr (endpoint l));
            ("status"%string, AStr (status conn));
            ("pid"%string, opt_int (pid conn)) ])) ].

(** The local-port half of [_check_suspicious_port]. *)
Definition check_local (conn : sconn) (w : World) : option pydict * World :=
  match laddr conn with
  | Some l =>
      if decide (port l ∈ SUSPICIOUS_PORTS) then
        let '(id, w) := generate_id w in
        (Some (local_finding conn l id (now_isoformat w)), w)
      else (None, w)
  | None => (None, w)
  end.

(** [_check_suspicious_port]: the remote port is looked at first and a hit
    returns at once; the local port is only reached otherwise. *)
Definition _check_suspicious_port (conn : sconn) (w : World) : option pydict * World :=
  match raddr conn with
  | Some r =>
      if decide (port r ∈ SUSPICIOUS_PORTS) then
        let w := logger (LogWarning ("SUSPICIOUS PORT: " +:+ endpoint r)) w in
        let '(id, w) := generate_id w in
        (Some (remote_finding conn r id (now_isoformat w)), w)
      else check_local conn w
  | None => check_local conn w
  end.

Definition scan_finding (unique total : nat) (id created_at : string) : pydict :=
  list_to_map
    [ ("id"%string, Atom (AStr id));
      ("event_type"%string, Atom (AStr (EventType_value PORT_SCAN)));
      ("severity"%string, Atom (AStr (Severity_value HIGH)));
      ("title"%string,
        Atom (AStr ("Possible port scan detected (" +:+ pretty unique +:+ " ports)")));
      ("description"%string,
        Atom (AStr ("System connecting to " +:+ pretty unique +:+ " unique ports")));
      ("source"%string, Atom (AStr get_name));
      ("threat_score"%string, Atom (AFloat 0.7));
      ("created_at"%string, Atom (AStr created_at));
      ("raw_data"%string,
        Dict (list_to_map
          [ ("unique_ports"%string, AInt (Z.of_nat unique));
            ("total_connections"%string, AInt (Z.of_nat total)) ])) ].

(** [_check_port_scan] *)
Definition _check_port_scan (remote_ports : list Z) (w : World) : option pydict * World :=
  if (length remote_ports <? 20)%nat then (None, w)
  else
    let unique_ports : gset Z := list_to_set remote_ports in
    if (20 <=? size unique_ports)%nat then
      let w := logger (LogWarning
        ("POSSIBLE PORT SCAN: " +:+ pretty (size unique_ports) +:+ " unique ports")) w in
      let '(id, w) := generate_id w in
      (Some (scan_finding (size unique_ports) (length remote_ports) id (now_isoformat w)), w)
    else (None, w).

(** The [for conn in connections] loop of [collect], with its two
    accumulators. *)
Fixpoint collect_loop (connections : list sconn) (events : list pydict)
    (remote_ports : list Z) (w : World) : list pydict * list Z * World :=
  match connections with
  | [] => (events, remote_ports, w)
  | conn :: rest =>
      if negb (String.eqb (status conn) "ESTABLISHED") then
        collect_loop rest events remote_ports w
      else
        let '(suspicious_event, w) := _check_suspicious_port conn w in
        let events :=
          match suspicious_event with
          | Some ev => events ++ [ev]
          | None => events
          end in
        let remote_ports :=
          match raddr conn with
          | Some r => remote_ports ++ [port r]
          | None => remote_ports
          end in
        collect_loop rest events remote_ports w
  end.

(** [collect]; [connections = None] stands for [psutil.AccessDenied]. *)
Definition collect (connections : option (list sconn)) (w : World) : list pydict * World :=
  match connections with
  | None =>
      ([], logger (LogWarning "Need admin access for full network monitoring") w)
  | Some connections =>
      let '(events, remote_ports, w) := collect_loop connections [] [] w in
      let '(scan_event, w) := _check_port_scan remote_ports w in
      match scan_event with
      | Some ev => (events ++ [ev], w)
      | None => (events, w)
      end
  end.

End NetworkCollector.

(** ** File collector ([src/collectors/file_collector.py]) *)

Module FileCollector.

(** What one poll sees of a directory entry: the pathlib views of the path,
    its size, and its SHA-256 digest ([None] when [calculate_file_hash]
    raises). *)
Record entry : Type := {
  path : string;
  name : string;
  suffix : string;
  parent : string;
  is_file : bool;
  st_size : Z;
  sha256 : option string;
}.

(** A watched directory in one poll; [listing = None] stands for a
    PermissionError of [iterdir]. *)
Record watched : Type := {
  watch_path : string;
  exists_ : bool;
  listing : option (list entry);
}.

Definition get_name : string := "File".

Definition new_file_finding (f : entry) (extension id created_at : string) : pydict :=
  list_to_map
    [ ("id"%string, Atom (AStr id));
      ("event_type"%string, Atom (AStr (EventType_value FILE_CHANGE)));
      ("severity"%string, Atom (AStr (Severity_value HIGH)));
      ("title"%string, Atom (AStr ("Suspicious file found: " +:+ name f)));
      ("description"%string,
        Atom (AStr ("File with suspicious extension '" +:+ extension +:+ "' found at "
                    +:+ path f)));
      ("source"%string, Atom (AStr get_name));
      ("file_path"%string, Atom (AStr (path f)));
      ("threat_score"%string, Atom (AFloat 0.7));
      ("created_at"%string, Atom (AStr created_at));
      ("raw_data"%string,
        Dict (list_to_map
          [ ("filename"%string, AStr (name f));
            ("extension"%string, AStr extension);
            ("size_bytes"%string, AInt (st_size f));
            ("directory"%string, AStr (parent f)) ])) ].

Definition modified_finding (f : entry) (old_hash current_hash id created_at : string)
  : pydict :=
  list_to_map
    [ ("id"%string, Atom (AStr id));
      ("event_type"%string, Atom (AStr (EventType_value FILE_CHANGE)));
      ("severity"%string, Atom (AStr (Severity_value MEDIUM)));
      ("title"%string, Atom (AStr ("File modified: " +:+ name f)));
      ("description"%string, Atom (AStr ("File hash changed for " +:+ path f)));
      ("source"%string, Atom (AStr get_name));
      ("file_path"%string, Atom (AStr (path f)));
      ("threat_score"%string, Atom (AFloat 0.5));
      ("created_at"%string, Atom (AStr created_at));
      ("raw_data"%string,
        Dict (list_to_map
          [ ("filename"%string, AStr (name f));
            ("old_hash"%string, AStr old_hash);
            ("new_hash"%string, AStr current_hash) ])) ].

(** [_check_extension]; the collector's [known_files] is passed and
    returned. *)
Definition _check_extension (f : entry) (known_files : gmap string string) (w : World)
  : option pydict * gmap string string * World :=
  let extension := str_lower (suffix f) in
  if decide (extension ∈ SUSPICIOUS_EXTENSIONS) then
    let file_key := path f in
    match known_files !! file_key with
    | Some _ => (None, known_files, w)
    | None =>
        let w := logger (LogWarning ("SUSPICIOUS FILE: " +:+ name f)) w in
        let known_files := <[file_key := default "unknown"%string (sha256 f)]> known_files in
        let '(id, w) := generate_id w in
        (Some (new_file_finding f extension id (now_isoformat w)), known_files, w)
    end
  else (None, known_files, w).

(** [_check_file_change] *)
Definition _check_file_change (f : entry) (known_files : gmap string string) (w : World)
  : option pydict * gmap string string * World :=
  let file_key := path f in
  match known_files !! file_key with
  | None => (None, known_files, w)
  | Some old_hash =>
      match sha256 f with
      | None => (None, known_files, w)
      | Some current_hash =>
          if negb (String.eqb current_hash old_hash) then
            let w := logger (LogWarning ("FILE MODIFIED: " +:+ name f)) w in
            let known_files := <[file_key := current_hash]> known_files in
            let '(id, w) := generate_id w in
            (Some (modified_finding f old_hash current_hash id (now_isoformat w)),
             known_files, w)
          else (None, known_files, w)
      end
  end.

Definition append_found (events : list pydict) (found : option pydict) : list pydict :=
  match found with
  | Some ev => events ++ [ev]
  | None => events
  end.

(** The [for file_path in path.iterdir()] loop. *)
Fixpoint scan_entries (entries : list entry) (events : list pydict)
    (known_files : gmap string string) (w : World)
  : list pydict * gmap string string * World :=
  match entries with
  | [] => (events, known_files, w)
  | f :: rest =>
      if negb (is_file f) then scan_entries rest events known_files w
      else
        let '(ext_event, known_files, w) := _check_extension f known_files w in
        let events := append_found events ext_event in
        let '(change_event, known_files, w) := _check_file_change f known_files w in
        let events := append_found events change_event in
        scan_entries rest events known_files w
  end.

(** The [for watch_path in self.watch_paths] loop. *)
Fixpoint scan_paths (dirs : list watched) (events : list pydict)
    (known_files : gmap string string) (w : World)
  : list pydict * gmap string string * World :=
  match dirs with
  | [] => (events, known_files, w)
  | d :: rest =>
      if negb (exists_ d) then scan_paths rest events known_files w
      else
        match listing d with
        | None =>
            scan_paths rest events known_files
              (logger (LogWarning ("No permission to scan: " +:+ watch_path d)) w)
        | Some entries =>
            let '(events, known_files, w) := scan_entries entries events known_files w in
            scan_paths rest events known_files w
        end
  end.

(** [collect]: one poll over the watched directories. *)
Definition collect (dirs : list watched) (known_files : gmap string string) (w : World)
  : list pydict * gmap string string * World :=
  scan_paths dirs [] known_files w.

End FileCollector.

(** ** System collector ([src/collectors/system_collector.py]) *)

Module SystemCollector.

(** The psutil readings of one poll. *)
Record metrics : Type := {
  cpu_percent : float;
  memory_percent : float;
  disk_percent : float;
  bytes_sent : Z;
  bytes_recv : Z;
  pids : list Z;
}.

Definition get_name : string := "System".

Definition collect (m : metrics) (w : World) : list pydict * World :=
  let '(id, w) := generate_id w in
  let metric : pydict :=
    list_to_map
      [ ("id"%string, Atom (AStr id));
        ("cpu_percent"%string, Atom (AFloat (cpu_percent m)));
        ("memory_percent"%string, Atom (AFloat (memory_percent m)));
        ("disk_percent"%string, Atom (AFloat (disk_percent m)));
        ("network_bytes_sent"%string, Atom (AInt (bytes_sent m)));
        ("network_bytes_recv"%string, Atom (AInt (bytes_recv m)));
        ("active_processes"%string, Atom (AInt (Z.of_nat (length (pids m)))));
        ("created_at"%string, Atom (AStr (now_isoformat w))) ] in
  ([metric], logger (LogInfo "CPU | RAM | Disk") w).

End SystemCollector.

(** ** Engine ([src/core/engine.py]) *)

Module SentinelEngine.

Record engine : Type := {
  is_running : bool;
  total_events : nat;
  total_alerts : nat;
}.

(** The keys of [self.collectors]. *)
Inductive collector : Type := Process | Network | File | System.

#[global] Instance collector_eq_dec : EqDecision collector.
Proof. solve_decision. Defined.

Definition key (c : collector) : string :=
  match c with
  | Process => "process"
  | Network => "network"
  | File => "file"
  | System => "system"
  end.

Definition add_events (n : nat) (e : engine) : engine :=
  {| is_running := is_running e; total_events := total_events e + n;
     total_alerts := total_alerts e |}.

Definition add_alerts (n : nat) (e : engine) : engine :=
  {| is_running := is_running e; total_events := total_events e;
     total_alerts := total_alerts e + n |}.

Definition set_running (b : bool) (e : engine) : engine :=
  {| is_running := b; total_events := total_events e; total_alerts := total_alerts e |}.

(** [if events and name != "system"] *)
Definition routed (c : collector) (events : list pydict) : bool :=
  match events with
  | [] => false
  | _ :: _ => negb (String.eqb (key c) "system")
  end.

(** The [try] block of [_run_collector] run without interruption, given
    what [collector.collect()] returned or raised: one cycle of the loop,
    up to the sleep. *)
Definition cycle (c : collector) (collected : result (list pydict))
    (e : engine) (w : World) : engine * World :=
  match collected with
  | Raise x => (e, logger (LogCollectorError (key c) x) w)
  | Ok events =>
      if routed c events then
        let e := add_events (length events) e in
        match analyze_batch events w with
        | (Ok alerts, w) => (add_alerts (length alerts) e, w)
        | (Raise x, w) => (e, logger (LogCollectorError (key c) x) w)
        end
      else (e, w)
  end.

(** *** Interleaving of the collector tasks

    [start] runs the four loops as asyncio tasks on one event loop.  A task
    runs until it awaits something that suspends it: the commit of a
    session ([_save_event], [_create_alert]) or [asyncio.sleep].  A task is
    therefore always at one of the following points. *)
Inductive task : Type :=
  | Idle
      (** not yet started, or suspended in [asyncio.sleep]: the next thing
          it does is test [while self.is_running] *)
  | Saving (event : pydict) (score : float) (rest alerts : list pydict) (n_events : nat)
      (** suspended in the commit of [_save_event(event)] *)
  | Alerting (alert : pydict) (rest alerts : list pydict) (n_events : nat)
      (** suspended in the commit of [_create_alert] *)
  | Exited.
      (** the loop has ended *)

Inductive stop_phase : Type := NotCalled | InShutdown | Returned.

(** [polls] is a ghost counter of the calls of [collect()]. *)
Record state : Type := {
  eng : engine;
  world : World;
  tasks : collector → task;
  stop : stop_phase;
  polls : nat;
}.

Definition set_task (c : collector) (t : task) (s : state) (e : engine) (w : World) : state :=
  {| eng := e; world := w; tasks := <[c := t]> (tasks s); stop := stop s; polls := polls s |}.

(** Start on the next event of the batch ([analyze_event] up to the commit
    of [_save_event]), or finish the batch and go to sleep. *)
Definition next_event (c : collector) (rest alerts : list pydict) (n_events : nat)
    (s : state) : state :=
  match rest with
  | [] =>
      let w :=
        match alerts with
        | [] => world s
        | _ :: _ => logger (LogAlertsCreated (length alerts) n_events) (world s)
        end in
      set_task c Idle s (add_alerts (length alerts) (eng s)) w
  | event :: rest =>
      match calculate_threat_score event with
      | Raise x => set_task c Idle s (eng s) (logger (LogCollectorError (key c) x) (world s))
      | Ok score =>
          let severity := Severity_value (get_severity_from_score score) in
          let event := scored event score in
          let w := logger (LogEventAnalyzed (dict_get event "title" (AStr "Unknown"))
                             score severity) (world s) in
          let w := _save_event event w in
          set_task c (Saving event score rest alerts n_events) s (eng s) w
      end
  end.

(** The event loop resumes task [c] and runs it to its next suspension;
    [collected] is what [collect()] gives if the task gets to call it. *)
Definition resume (c : collector) (collected : result (list pydict)) (s : state)
  : option state :=
  match tasks s c with
  | Exited => None
  | Idle =>
      if is_running (eng s) then
        let s := {| eng := eng s; world := world s; tasks := tasks s;
                    stop := stop s; polls := S (polls s) |} in
        match collected with
        | Raise x =>
            Some (set_task c Idle s (eng s) (logger (LogCollectorError (key c) x) (world s)))
        | Ok events =>
            if routed c events then
              Some (next_event c events [] (length events)
                      (set_task c Idle s (add_events (length events) (eng s)) (world s)))
            else Some s
        end
      else Some (set_task c Exited s (eng s) (world s))
  | Saving event score rest alerts n_events =>
      if PyFloat.ge score ALERT_THRESHOLD then
        let '(alert, w) := _create_alert event (world s) in
        Some (set_task c (Alerting alert rest alerts n_events) s (eng s) w)
      else Some (next_event c rest alerts n_events s)
  | Alerting alert rest alerts n_events =>
      Some (next_event c rest (alerts ++ [alert]) n_events s)
  end.

Inductive label : Type :=
  | Resume (c : collector) (collected : result (list pydict))
  | StopCall
      (** [stop()] up to its [await db_manager.shutdown()] *)
  | StopReturn.
      (** the rest of [stop()] *)

Definition exec (l : label) (s : state) : option state :=
  match l with
  | Resume c collected => resume c collected s
  | StopCall =>
      match stop s with
      | NotCalled =>
          Some {| eng := set_running false (eng s);
                  world := logger (LogInfo "Stopping SentinelEye Agent...") (world s);
                  tasks := tasks s; stop := InShutdown; polls := polls s |}
      | _ => None
      end
  | StopReturn =>
      match stop s with
      | InShutdown =>
          Some {| eng := eng s;
                  world := logger (LogInfo "Shutdown complete.")
                             (with_db (shutdown (db (world s))) (world s));
                  tasks := tasks s; stop := Returned; polls := polls s |}
      | _ => None
      end
  end.

Definition step (s s' : state) : Prop := ∃ l, exec l s = Some s'.

Fixpoint run (schedule : list label) (s : state) : option state :=
  match schedule with
  | [] => Some s
  | l :: rest =>
      match exec l s with
      | Some s' => run rest s'
      | None => None
      end
  end.

(** The state right after [start()] has set the flag and created the four
    tasks. *)
Definition started (w : World) : state :=
  {| eng := {| is_running := true; total_events := 0; total_alerts := 0 |};
     world := w; tasks := λ _, Idle; stop := NotCalled; polls := 0 |}.

(** Persistence calls a task still has to issue to finish its cycle (an
    upper bound: an exception ends the cycle early). *)
Definition pending (t : task) : nat :=
  match t with
  | Saving _ score rest _ _ =>
      (if PyFloat.ge score ALERT_THRESHOLD then 1 else 0) + 2 * length rest
  | Alerting _ rest _ _ => 2 * length rest
  | Idle | Exited => 0
  end.

Definition pending_all (s : state) : nat :=
  pending (tasks s Process) + pending (tasks s Network)
  + pending (tasks s File) + pending (tasks s System).

End SentinelEngine.

(** ** Shapes of events used in the statements *)

Definition is_str (v : pyval) : bool :=
  match v with
  | Atom (AStr _) => true
  | _ => false
  end.

(** The prior scores that [existing_score > 0] and the averaging accept. *)
Definition prior_ok (v : pyval) : bool :=
  match v with
  | Atom (AFloat _) | Atom (ABool _) => true
  | Atom (AInt z) => (z <=? 0) || bool_decide (is_Some (PyFloat.of_int z))
  | _ => false
  end.

(** The [raw_data] values whose connection count, if any, is a number. *)
Definition evidence_ok (v : pyval) : bool :=
  match v with
  | Dict d =>
      match default (AInt 0) (d !! "total_connections") with
      | ANone | AStr _ => false
      | _ => true
      end
  | Atom _ => true
  end.

Definition hashable (v : pyval) : bool :=
  match v with
  | Dict _ => false
  | Atom _ => true
  end.

(** The events on which [calculate_threat_score] raises nothing: title and
    description are strings when present, the prior score is a number that
    converts to a float, the event type is hashable, and a connection count
    in [raw_data] is a number. *)
Definition scorable (event : pydict) : bool :=
  hashable (dict_get event "event_type" (AStr ""))
  && prior_ok (dict_get event "threat_score" (AFloat 0))
  && is_str (dict_get event "title" (AStr ""))
  && is_str (dict_get event "description" (AStr ""))
  && evidence_ok (dict_get event "raw_data" (Dict ∅)).

(** No score was put on the event before the scorer sees it. *)
Definition no_prior_score (event : pydict) : Prop :=
  event !! "threat_score" = None ∨ event !! "threat_score" = Some (Atom (AFloat 0)).

(** The evidence of the event carries no connection count. *)
Definition no_connection_count (event : pydict) : Prop :=
  match dict_get event "raw_data" (Dict ∅) with
  | Dict d => d !! "total_connections" = None
  | Atom _ => True
  end.

(** Some critical keyword occurs in [text]. *)
Definition has_critical_keyword (text : string) : bool :=
  existsb (λ k, str_in k text) critical_keywords.

(** ** Shapes of findings and polls used in the statements *)

Definition event_type_is (t : EventType) (ev : pydict) : bool :=
  match ev !! "event_type" with
  | Some (Atom (AStr s)) => String.eqb s (EventType_value t)
  | _ => false
  end.

Definition count_type (t : EventType) (events : list pydict) : nat :=
  length (List.filter (event_type_is t) events).

Module NetworkFacts.
Import NetworkCollector.

Definition established (conn : sconn) : bool := String.eqb (status conn) "ESTABLISHED".

Fixpoint remote_ports_of (connections : list sconn) : list Z :=
  match connections with
  | [] => []
  | conn :: rest =>
      if established conn then
        match raddr conn with
        | Some r => port r :: remote_ports_of rest
        | None => remote_ports_of rest
        end
      else remote_ports_of rest
  end.

Definition remote_suspicious (conn : sconn) : bool :=
  match raddr conn with
  | Some r => bool_decide (port r ∈ SUSPICIOUS_PORTS)
  | None => false
  end.

Definition local_suspicious (conn : sconn) : bool :=
  match laddr conn with
  | Some l => bool_decide (port l ∈ SUSPICIOUS_PORTS)
  | None => false
  end.

Definition both_ports_example : sconn :=
  {| status := "ESTABLISHED";
     laddr := Some {| ip := "10.0.0.5"; port := 4444 |};
     raddr := Some {| ip := "203.0.113.7"; port := 31337 |};
     pid := Some 4242 |}.
Definition nineteen_of_25 : list Z :=
  [1; 2; 3; 4; 5; 6; 7; 8; 9; 10; 11; 12; 13; 14; 15; 16; 17; 18; 19;
   19; 19; 19; 19; 19; 19].
Definition twenty_of_20 : list Z :=
  [1; 2; 3; 4; 5; 6; 7; 8; 9; 10; 11; 12; 13; 14; 15; 16; 17; 18; 19; 20].
End NetworkFacts.

Module FileFacts.
Import FileCollector.

Definition str_field_is (k v : string) (ev : pydict) : bool :=
  match ev !! k with
  | Some (Atom (AStr s)) => String.eqb s v
  | _ => false
  end.

Definition score_is (x : float) (ev : pydict) : bool :=
  match ev !! "threat_score" with
  | Some (Atom (AFloat f)) => PrimFloat.eqb f x
  | _ => false
  end.

(** A "new suspicious file" finding about path [p]: severity high, score 0.7. *)
Definition is_new_finding (p : string) (ev : pydict) : bool :=
  str_field_is "file_path" p ev && str_field_is "severity" "high" ev && score_is 0.7 ev.

(** A "modified" finding about path [p]: severity medium, score 0.5. *)
Definition is_modified_finding (p : string) (ev : pydict) : bool :=
  str_field_is "file_path" p ev && str_field_is "severity" "medium" ev && score_is 0.5 ev.

Definition count_new (p : string) (events : list pydict) : nat :=
  length (List.filter (is_new_finding p) events).

Definition count_modified (p : string) (events : list pydict) : nat :=
  length (List.filter (is_modified_finding p) events).

(** The entries one poll iterates over: the listings of the watched
    directories that exist and can be read, in order. *)
Definition scanned (dirs : list watched) : list entry :=
  flat_map (λ d, if exists_ d then default [] (listing d) else []) dirs.

(** In this poll the path [p] is met as a regular file with a suspicious
    extension, and hashing it gives [d] every time it is met. *)
Definition sees (dirs : list watched) (p : string) (d : option string) : Prop :=
  (∃ f, In f (scanned dirs) ∧ is_file f = true ∧ path f = p) ∧
  (∀ f, In f (scanned dirs) → is_file f = true → path f = p →
        sha256 f = d ∧ str_lower (suffix f) ∈ SUSPICIOUS_EXTENSIONS).

(** What the collector has reported about [p] and remembers of it. *)
Definition view (p : string) (events : list pydict) (known_files : gmap string string)
  : nat * nat * option string :=
  (count_new p events, count_modified p events, known_files !! p).

(** The effect of one directory entry on the view of [p]: the extension
    check, then the change check. *)
Definition track1 (p : string) (st : nat * nat * option string) (f : entry)
  : nat * nat * option string :=
  let '(n, m, h) := st in
  if is_file f && String.eqb (path f) p then
    let '(n, h) :=
      match h with
      | None =>
          if bool_decide (str_lower (suffix f) ∈ SUSPICIOUS_EXTENSIONS)
          then (S n, Some (default "unknown"%string (sha256 f)))
          else (n, None)
      | Some _ => (n, h)
      end in
    match h, sha256 f with
    | Some old, Some cur =>
        if String.eqb cur old then (n, m, h) else (n, S m, Some cur)
    | _, _ => (n, m, h)
    end
  else st.

Definition setup_exe (digest : option string) : entry :=
  {| path := "/home/u/Downloads/setup.exe"; name := "setup.exe"; suffix := ".EXE";
     parent := "/home/u/Downloads"; is_file := true; st_size := 1024; sha256 := digest |}.

Definition notes_txt : entry :=
  {| path := "/home/u/Downloads/notes.txt"; name := "notes.txt"; suffix := ".txt";
     parent := "/home/u/Downloads"; is_file := true; st_size := 12; sha256 := Some "00" |}.

(** A poll of a missing directory and of a download directory holding
    [notes.txt] and [setup.exe] with the given digest. *)
Definition downloads (digest : option string) : list watched :=
  [ {| watch_path := "C:/Temp"; exists_ := false; listing := None |};
    {| watch_path := "/home/u/Downloads"; exists_ := true;
       listing := Some [notes_txt; setup_exe digest] |} ].
End FileFacts.

(** ** Health of the sink *)

(** The next write reaches the table: a session can be had and the next
    commit is not scripted to fail. *)
Definition next_commit_ok (d : DatabaseManager) : bool :=
  session_factory d &&
  match commit_faults d with
  | true :: _ => false
  | _ => true
  end.

(** The write of the alert that follows the write of its event raises: no
    session can be had, or the second commit to come is scripted to fail. *)
Definition alert_write_fails (d : DatabaseManager) : Prop :=
  session_factory d = false ∨ ∃ b rest, commit_faults d = b :: true :: rest.

(** An initialized, empty database and an untouched environment. *)
Definition fresh_world : World :=
  {| db := {| session_factory := true; disposed := false; commit_faults := [];
              security_events := []; alerts := [] |};
     uuid_seed := 0; clock := 0; log := []; calls := [] |}.

(** The same with a database manager that was never initialized. *)
Definition offline_world : World :=
  {| db := {| session_factory := false; disposed := false; commit_faults := [];
              security_events := []; alerts := [] |};
     uuid_seed := 0; clock := 0; log := []; calls := [] |}.

(** ** Concrete events used as instances *)

(** A port-scan finding as the network collector builds it. *)
Definition port_scan_example : pydict :=
  NetworkCollector.scan_finding 25 30 (uuid4 0) "T+0".

(** A suspicious-process observation without a prior score, naming three
    critical keywords in its title and two more in its description. *)
Definition mimikatz_example : pydict :=
  list_to_map
    [ ("event_type"%string, Atom (AStr "suspicious_process"));
      ("title"%string, Atom (AStr "Mimikatz MALWARE trojan detected"));
      ("description"%string, Atom (AStr "ransomware with a backdoor")) ].

(** ** Measures and instances for the engine *)

Module EngineFacts.
Import SentinelEngine.


Definition idle_host : SystemCollector.metrics :=
  {| SystemCollector.cpu_percent := 3.5; SystemCollector.memory_percent := 41;
     SystemCollector.disk_percent := 60; SystemCollector.bytes_sent := 1000;
     SystemCollector.bytes_recv := 2000; SystemCollector.pids := [1%Z; 2%Z; 3%Z] |}.

(** The engine after the network task has collected one port-scan finding
    and is suspended in the commit of its save, and [stop()] has cleared
    the flag and is itself suspended in the shutdown of the database. *)
Definition stopping_example : state :=
  default (started fresh_world)
    (run [Resume Network (Ok [port_scan_example]); StopCall] (started fresh_world)).

Definition engine0 : engine :=
  {| is_running := true; total_events := 0; total_alerts := 0 |}.
(** What [_run_collector] does with the outcome of [analyze_batch]'s loop. *)
Definition finish (c : collector) (n_events : nat)
    (r : result (list pydict) * World) (e : engine) : engine * World :=
  match r with
  | (Ok alerts, w) =>
      (add_alerts (length alerts) e,
       match alerts with
       | [] => w
       | _ :: _ => logger (LogAlertsCreated (length alerts) n_events) w
       end)
  | (Raise x, w) => (e, logger (LogCollectorError (key c) x) w)
  end.
End EngineFacts.

(** ** Further constants, measures and instances *)

(** [SUSPICIOUS_PROCESSES] of [src/core/constants.py]. *)
Definition SUSPICIOUS_PROCESSES : gset string :=
  list_to_set [ "mimikatz"; "keylogger"; "pwdump"; "lazagne"; "meterpreter"; "netcat" ]%string.

(** The order of the severity levels. *)
Definition Severity_rank (s : Severity) : nat :=
  match s with
  | INFO => 0
  | LOW => 1
  | MEDIUM => 2
  | HIGH => 3
  | CRITICAL => 4
  end.

(** The observations for which [analyze_event] creates an alert. *)
Definition alertable (event : pydict) : bool :=
  match calculate_threat_score event with
  | Ok s => PyFloat.ge s ALERT_THRESHOLD
  | Raise _ => false
  end.

Definition is_save_call (c : SinkCall) : bool :=
  match c with
  | SaveEventCall _ => true
  | CreateAlertCall _ => false
  end.

(** Number of [_save_event] calls, number of [_create_alert] calls. *)
Definition saves (w : World) : nat := length (List.filter is_save_call (calls w)).
Definition alert_writes (w : World) : nat :=
  length (List.filter (λ c, negb (is_save_call c)) (calls w)).

(** The identifiers of the events the alerts point to. *)
Definition alert_event_ids (alerts : list pydict) : list (option pyval) :=
  map (λ a : pydict, a !! "event_id") alerts.

Definition event_ids (events : list pydict) : list (option pyval) :=
  map (λ ev : pydict, Some (dict_get ev "id" (AStr ""))) events.

(** A result with the freshly drawn identifiers of its alerts removed. *)
Definition strip_ids (r : result (list pydict)) : result (list pydict) :=
  match r with
  | Ok alerts => Ok (map (λ a : pydict, delete "id" a) alerts)
  | Raise x => Raise x
  end.

(** A USB-device observation: base score 0.4, below the alert threshold. *)
Definition usb_example : pydict :=
  list_to_map
    [ ("id"%string, Atom (AStr "usb-1"));
      ("event_type"%string, Atom (AStr "usb_device"));
      ("title"%string, Atom (AStr "USB device attached")) ].

(** An observation whose title is [None]: [None.lower()] raises. *)
Definition untitled_example : pydict :=
  list_to_map
    [ ("event_type"%string, Atom (AStr "file_change"));
      ("title"%string, Atom ANone) ].

Module NetworkCounts.
Import NetworkCollector NetworkFacts.

(** An established connection with a suspicious port at either end. *)
Definition flagged (conn : sconn) : bool :=
  established conn && (remote_suspicious conn || local_suspicious conn).

(** The port-scan test on the remote ports of a poll. *)
Definition scan_fires (connections : list sconn) : bool :=
  (20 <=? length (remote_ports_of connections))%nat
  && (20 <=? size (list_to_set (remote_ports_of connections) : gset Z))%nat.

End NetworkCounts.

(** Scorable and above the alert threshold. *)
Definition alerts_on (event : pydict) : Prop :=
  scorable event = true ∧ alertable event = true.

Module FileTracking.
Import FileCollector FileFacts.

(** The entry is a regular file at path [p]. *)
Definition at_path (p : string) (f : entry) : bool := is_file f && String.eqb (path f) p.

Definition suspicious (f : entry) : bool :=
  bool_decide (str_lower (suffix f) ∈ SUSPICIOUS_EXTENSIONS).

(** In this poll every reading of the path [p] gives the same digest and
    the same extension. *)
Definition steady (dirs : list watched) (p : string) : Prop :=
  ∃ d b, ∀ f, In f (scanned dirs) → at_path p f = true → sha256 f = d ∧ suspicious f = b.

(** What meeting a file with digest [d] (suspicious or not, [b]) does to the
    view of its path. *)
Definition settle (d : option string) (b : bool) (st : nat * nat * option string)
  : nat * nat * option string :=
  let '(n, m, h) := st in
  match h with
  | None => if b then (S n, m, Some (default "unknown"%string d)) else (n, m, None)
  | Some old =>
      match d with
      | Some cur => if String.eqb cur old then (n, m, h) else (n, S m, Some cur)
      | None => (n, m, h)
      end
  end.

End FileTracking.

Module EngineMeasures.
Import SentinelEngine.

(** Alerts a suspended task holds that are not yet in [total_alerts]. *)
Definition held (t : task) : nat :=
  match t with
  | Saving _ _ _ alerts _ => length alerts
  | Alerting _ _ alerts _ => S (length alerts)
  | Idle | Exited => 0
  end.

(** Saves a suspended task has issued whose alert is still undecided. *)
Definition unalerted (t : task) : nat :=
  match t with
  | Saving _ _ _ _ _ => 1
  | Alerting _ _ _ _ | Idle | Exited => 0
  end.

(** Events of the batch a suspended task has counted and not yet saved. *)
Definition unsaved (t : task) : nat :=
  match t with
  | Saving _ _ rest _ _ => length rest
  | Alerting _ rest _ _ => length rest
  | Idle | Exited => 0
  end.

Definition over_tasks (measure : task → nat) (s : state) : nat :=
  (measure (tasks s Process) + measure (tasks s Network) + measure (tasks s File) + measure (tasks s System))%nat.

(** Nothing stored, handed to the sink or logged is ever taken back. *)
Definition grows (w w' : World) : Prop :=
  security_events (db w) `prefix_of` security_events (db w') ∧
  alerts (db w) `prefix_of` alerts (db w') ∧
  calls w `prefix_of` calls w' ∧
  log w `prefix_of` log w'.

End EngineMeasures.

Definition is_failed_save (r : LogRecord) : bool :=
  match r with
  | LogFailedSaveEvent _ => true
  | _ => false
  end.

Definition is_failed_alert (r : LogRecord) : bool :=
  match r with
  | LogFailedCreateAlert _ => true
  | _ => false
  end.

(** Failures of [_save_event] and of [_create_alert] found in the log. *)
Definition failed_saves (w : World) : nat := length (List.filter is_failed_save (log w)).
Definition failed_alerts (w : World) : nat := length (List.filter is_failed_alert (log w)).

(** Writes of events and of alerts that are accounted for: a row in the
    table or a failure in the log. *)
Definition settled_saves (w : World) : nat :=
  (length (security_events (db w)) + failed_saves w)%nat.
Definition settled_alerts (w : World) : nat :=
  (length (alerts (db w)) + failed_alerts w)%nat.

(** ** Process collector ([src/collectors/process_collector.py]) *)

Module ProcessCollector.

(** [proc.info] for the attributes the collector asks [process_iter] for;
    psutil puts [None] where it has no access. *)
Record info : Type := {
  pid : Z;
  name : option string;
  cpu_percent : option float;
  memory_percent : option float;
  username : option string;
}.

Record collector : Type := {
  cpu_threshold : float;
  memory_threshold : float;
}.

(** [ProcessCollector(interval=10)], as the engine builds it. *)
Definition default_collector : collector :=
  {| cpu_threshold := 90; memory_threshold := 85 |}.

Definition get_name : string := "Process".

Definition opt_str (o : option string) : atom :=
  match o with Some s => AStr s | None => ANone end.

Definition opt_float (o : option float) : atom :=
  match o with Some f => AFloat f | None => ANone end.

(** The [info] dict itself, stored as [raw_data]. *)
Definition info_dict (i : info) : gmap string atom :=
  list_to_map
    [ ("pid"%string, AInt (pid i));
      ("name"%string, opt_str (name i));
      ("cpu_percent"%string, opt_float (cpu_percent i));
      ("memory_percent"%string, opt_float (memory_percent i));
      ("username"%string, opt_str (username i)) ].

(** [f"{info['name']}"] *)
Definition name_str (i : info) : string := default "None"%string (name i).

(** [info.get(k) or 0.0]: [None] and both zeros give [0.0]. *)
Definition or_zero (o : option float) : float :=
  match o with
  | Some f => if PrimFloat.eqb f 0 then 0%float else f
  | None => 0%float
  end.

Definition suspicious_finding (i : info) (suspicious id created_at : string) : pydict :=
  list_to_map
    [ ("id"%string, Atom (AStr id));
      ("event_type"%string, Atom (AStr (EventType_value SUSPICIOUS_PROCESS)));
      ("severity"%string, Atom (AStr (Severity_value CRITICAL)));
      ("title"%string, Atom (AStr ("Suspicious process detected: " +:+ name_str i)));
      ("description"%string,
        Atom (AStr ("Process '" +:+ name_str i +:+ "' matches known threat tool '"
                    +:+ suspicious +:+ "'")));
      ("source"%string, Atom (AStr get_name));
      ("process_name"%string, Atom (opt_str (name i)));
      ("process_id"%string, Atom (AInt (pid i)));
      ("threat_score"%string, Atom (AFloat 0.9));
      ("created_at"%string, Atom (AStr created_at));
      ("raw_data"%string, Dict (info_dict i)) ].

(** [cpu_text] is [f"{cpu}"]. *)
Definition cpu_finding (i : info) (cpu_text id created_at : string) : pydict :=
  list_to_map
    [ ("id"%string, Atom (AStr id));
      ("event_type"%string, Atom (AStr (EventType_value HIGH_RESOURCE)));
      ("severity"%string, Atom (AStr (Severity_value MEDIUM)));
      ("title"%string,
        Atom (AStr ("High CPU usage: " +:+ name_str i +:+ " (" +:+ cpu_text +:+ "%)")));
      ("description"%string,
        Atom (AStr ("Process '" +:+ name_str i +:+ "' using " +:+ cpu_text +:+ "% CPU")));
      ("source"%string, Atom (AStr get_name));
      ("process_name"%string, Atom (opt_str (name i)));
      ("process_id"%string, Atom (AInt (pid i)));
      ("threat_score"%string, Atom (AFloat 0.4));
      ("created_at"%string, Atom (AStr created_at));
      ("raw_data"%string, Dict (info_dict i)) ].

(** [memory_text] is [f"{memory:.1f}"]. *)
Definition memory_finding (i : info) (memory_text id created_at : string) : pydict :=
  list_to_map
    [ ("id"%string, Atom (AStr id));
      ("event_type"%string, Atom (AStr (EventType_value HIGH_RESOURCE)));
      ("severity"%string, Atom (AStr (Severity_value MEDIUM)));
      ("title"%string,
        Atom (AStr ("High memory usage: " +:+ name_str i +:+ " (" +:+ memory_text +:+ "%)")));
      ("description"%string,
        Atom (AStr ("Process '" +:+ name_str i +:+ "' using " +:+ memory_text
                    +:+ "% memory")));
      ("source"%string, Atom (AStr get_name));
      ("process_name"%string, Atom (opt_str (name i)));
      ("process_id"%string, Atom (AInt (pid i)));
      ("threat_score"%string, Atom (AFloat 0.3));
      ("created_at"%string, Atom (AStr created_at));
      ("raw_data"%string, Dict (info_dict i)) ].

(** The [for suspicious in SUSPICIOUS_PROCESSES: if suspicious in
    process_name: ... return] loop over the names in the order the set
    yields them. *)
Fixpoint first_match (names : list string) (process_name : string) : option string :=
  match names with
  | [] => None
  | suspicious :: rest =>
      if str_in suspicious process_name then Some suspicious
      else first_match rest process_name
  end.

Section Collector.

(** The collector, the order in which this run of the interpreter iterates
    over the set [SUSPICIOUS_PROCESSES], and the two float formats of the
    f-strings, [f"{x}"] and [f"{x:.1f}"]. *)
Variable self : collector.
Variable iteration : list string.
Variable float_str : float → string.
Variable float_1f : float → string.

Definition _check_suspicious_name (i : info) (w : World) : option pydict * World :=
  let process_name := str_lower (default ""%string (name i)) in
  match first_match iteration process_name with
  | Some suspicious =>
      let w := logger (LogWarning ("SUSPICIOUS PROCESS: " +:+ name_str i +:+ " (PID: "
                                   +:+ pretty (pid i) +:+ ")")) w in
      let '(id, w) := generate_id w in
      (Some (suspicious_finding i suspicious id (now_isoformat w)), w)
  | None => (None, w)
  end.

Definition _check_high_cpu (i : info) (w : World) : option pydict * World :=
  let cpu := or_zero (cpu_percent i) in
  if PyFloat.gt cpu (cpu_threshold self) then
    let '(id, w) := generate_id w in
    (Some (cpu_finding i (float_str cpu) id (now_isoformat w)), w)
  else (None, w).

Definition _check_high_memory (i : info) (w : World) : option pydict * World :=
  let memory := or_zero (memory_percent i) in
  if PyFloat.gt memory (memory_threshold self) then
    let '(id, w) := generate_id w in
    (Some (memory_finding i (float_1f memory) id (now_isoformat w)), w)
  else (None, w).

Definition append_found (events : list pydict) (found : option pydict) : list pydict :=
  match found with
  | Some ev => events ++ [ev]
  | None => events
  end.

(** The [for proc in psutil.process_iter(...)] loop.  [process_iter]
    fills [proc.info] itself, so nothing in the body raises
    [NoSuchProcess] or [AccessDenied]. *)
Fixpoint collect_loop (procs : list info) (events : list pydict) (w : World)
  : list pydict * World :=
  match procs with
  | [] => (events, w)
  | i :: rest =>
      let '(suspicious_event, w) := _check_suspicious_name i w in
      let events := append_found events suspicious_event in
      let '(cpu_event, w) := _check_high_cpu i w in
      let events := append_found events cpu_event in
      let '(memory_event, w) := _check_high_memory i w in
      let events := append_found events memory_event in
      collect_loop rest events w
  end.

Definition collect (procs : list info) (w : World) : list pydict * World :=
  collect_loop procs [] w.

End Collector.

End ProcessCollector.

Module ProcessFacts.
Import ProcessCollector.

(** The lower-cased name of the process contains a name of
    [SUSPICIOUS_PROCESSES]. *)
Definition name_flagged (i : info) : bool :=
  bool_decide (set_Exists (λ s, str_in s (str_lower (default ""%string (name i))) = true)
                 SUSPICIOUS_PROCESSES).

Definition cpu_high (self : collector) (i : info) : bool :=
  PyFloat.gt (or_zero (cpu_percent i)) (cpu_threshold self).

Definition memory_high (self : collector) (i : info) : bool :=
  PyFloat.gt (or_zero (memory_percent i)) (memory_threshold self).

(** Findings one process gives rise to. *)
Definition findings_of (self : collector) (i : info) : nat :=
  ((if name_flagged i then 1 else 0) + (if cpu_high self i then 1 else 0)
   + (if memory_high self i then 1 else 0))%nat.

(** The iteration order lists the names of the set. *)
Definition iterates (iteration : list string) : Prop :=
  ∀ s, s ∈ iteration ↔ s ∈ SUSPICIOUS_PROCESSES.

(** The text the scorer searches for keywords. *)
Definition text_of (ev : pydict) : string :=
  match dict_get ev "title" (AStr ""), dict_get ev "description" (AStr "") with
  | Atom (AStr t), Atom (AStr d) => str_lower t +:+ " " +:+ str_lower d
  | _, _ => ""
  end.

Definition severity_of (ev : pydict) : option Severity :=
  match calculate_threat_score ev with
  | Ok s => Some (get_severity_from_score s)
  | Raise _ => None
  end.

(** What the scorer makes of a finding of this collector. *)
Definition expected_severity (ev : pydict) : Severity :=
  if event_type_is SUSPICIOUS_PROCESS ev then CRITICAL
  else if FileFacts.score_is 0.4 ev && has_critical_keyword (text_of ev) then HIGH
  else MEDIUM.

Definition expected_alert (ev : pydict) : bool :=
  event_type_is SUSPICIOUS_PROCESS ev
  || (FileFacts.score_is 0.4 ev && has_critical_keyword (text_of ev)).

(** The reverse of the order of the source text. *)
Definition reverse_order : list string :=
  [ "netcat"; "meterpreter"; "lazagne"; "pwdump"; "keylogger"; "mimikatz" ]%string.

Definition source_order : list string :=
  [ "mimikatz"; "keylogger"; "pwdump"; "lazagne"; "meterpreter"; "netcat" ]%string.

Definition mimikatz_proc : info :=
  {| pid := 4321; name := Some "Mimikatz.exe"%string; cpu_percent := Some 97.5%float;
     memory_percent := Some 12.25%float; username := None |}.

Definition idle_proc : info :=
  {| pid := 1; name := Some "systemd"%string; cpu_percent := Some 0%float;
     memory_percent := None; username := Some "root"%string |}.

End ProcessFacts.

(** ** Manual scan ([run_single_scan] of [src/core/engine.py]) *)


Module ManualScan.

(** What one scan reads from the host. *)
Record readings : Type := {
  procs : list ProcessCollector.info;
  connections : option (list NetworkCollector.sconn);
  dirs : list FileCollector.watched;
}.

Section Scan.

Variable iteration : list string.
Variable float_str : float → string.
Variable float_1f : float → string.



End Scan.

(** The findings of the three collectors a scan polls, in order. *)
Definition found (iteration : list string) (float_str float_1f : float → string)
    (process : ProcessCollector.collector) (known_files : gmap string string)
    (r : readings) (w : World) : list pydict :=
  let p := ProcessCollector.collect process iteration float_str float_1f (procs r) w in
  let n := NetworkCollector.collect (connections r) p.2 in
  let f := FileCollector.collect (dirs r) known_files n.2 in
  p.1 ++ n.1 ++ f.1.1.

End ManualScan.

(** The collector left the database and the trace of persistence calls as
    they were. *)
Definition untouched (w w' : World) : Prop :=
  db w' = db w ∧ calls w' = calls w.


(** * Verification *)

(** ** Floats *)

Section FloatFacts.

Lemma ltb_leb (x y : float) : PrimFloat.ltb x y = true → PrimFloat.leb x y = true.
Proof.
  rewrite ltb_spec, leb_spec. unfold SFltb, SFleb.
  destruct (SFcompare _ _) as [[]|]; congruence.
Qed.



(** The three thresholds are nested: a score that reaches one reaches the
    lower ones. *)
Lemma bands_nested (s : float) :
  (PyFloat.ge s 0.7 = true → PyFloat.ge s 0.5 = true) ∧
  (PyFloat.ge s 0.5 = true → PyFloat.ge s 0.3 = true).
Proof.
  unfold PyFloat.ge. rewrite !leb_spec.
  set (c7 := Prim2SF 0.7). set (c5 := Prim2SF 0.5). set (c3 := Prim2SF 0.3).
  vm_compute in c7, c5, c3. subst c7 c5 c3.
  unfold SFleb, SFcompare.
  destruct (Prim2SF s) as [[]|[]| |[] m e]; try (split; intros H; exact H).
  rewrite !Pos.compare_cont_spec.
  destruct (Z.compare_spec (-53) e) as [He|He|He];
    destruct (Z.compare_spec (-54) e) as [He'|He'|He']; try (exfalso; lia).
  - split; [|reflexivity].
    destruct (Pos.compare_spec 6305039478318694 m) as [H7|H7|H7];
      destruct (Pos.compare_spec 4503599627370496 m) as [H5|H5|H5];
      cbn [Pos.switch_Eq]; intros H.
    all: try reflexivity.
    all: try discriminate H.
    + subst m. vm_compute in H5. discriminate H5.
    + pose proof (Pos.lt_trans _ _ _ H7 H5) as Hc. vm_compute in Hc. discriminate Hc.
  - split; reflexivity.
  - split; intros H; discriminate H.
  - split; intros H; discriminate H.
Qed.

(** A float strictly between the literals [0.0] and [1.0] is finite. *)
Lemma between_finite (x : float) :
  PrimFloat.ltb 0 x = true → PrimFloat.ltb x 1 = true →
  ∃ s m e, Prim2SF x = S754_finite s m e.
Proof.
  rewrite !ltb_spec. intros H0 H1.
  destruct (Prim2SF x) as [s|s| |s m e] eqn:E; eauto.
  - destruct s; vm_compute in H0; discriminate.
  - destruct s; [vm_compute in H0 | vm_compute in H1]; discriminate.
  - vm_compute in H0; discriminate.
Qed.

Lemma round2_two_decimals (x : float) :
  PrimFloat.ltb 0 (PyFloat.round2 x) = true →
  PrimFloat.ltb (PyFloat.round2 x) 1 = true →
  PyFloat.two_decimals (PyFloat.round2 x).
Proof.
  intros H0 H1. unfold PyFloat.round2 in *.
  destruct (Prim2SF x) as [s|s| |s m e] eqn:E.
  - destruct (between_finite x H0 H1) as (?&?&?&?); congruence.
  - destruct (between_finite x H0 H1) as (?&?&?&?); congruence.
  - destruct (between_finite x H0 H1) as (?&?&?&?); congruence.
  - cbv zeta in *.
    destruct (_ =? 0) eqn:Hn.
    + destruct s; vm_compute in H0; discriminate.
    + eexists. reflexivity.
Qed.

Lemma clamp_round_cases (x : float) :
  clamp_round x = 0%float ∨ clamp_round x = 1%float ∨
  (clamp_round x = PyFloat.round2 x ∧
   PrimFloat.ltb 0 (PyFloat.round2 x) = true ∧
   PrimFloat.ltb (PyFloat.round2 x) 1 = true).
Proof.
  unfold clamp_round, PyFloat.max, PyFloat.min, PyFloat.gt, PyFloat.lt.
  destruct (PrimFloat.ltb (PyFloat.round2 x) 1) eqn:H1.
  - destruct (PrimFloat.ltb 0 (PyFloat.round2 x)) eqn:H0; auto.
  - right; left. reflexivity.
Qed.

Lemma clamp_round_bounds (x : float) :
  PyFloat.le 0 (clamp_round x) = true ∧ PyFloat.le (clamp_round x) 1 = true.
Proof.
  unfold PyFloat.le.
  destruct (clamp_round_cases x) as [-> | [-> | (-> & H0 & H1)]].
  - split; reflexivity.
  - split; reflexivity.
  - split; [apply ltb_leb, H0 | apply ltb_leb, H1].
Qed.

Lemma clamp_round_two_decimals (x : float) : PyFloat.two_decimals (clamp_round x).
Proof.
  destruct (clamp_round_cases x) as [-> | [-> | (-> & H0 & H1)]].
  - exists 0. reflexivity.
  - exists 100. reflexivity.
  - apply round2_two_decimals; assumption.
Qed.

(** The float model agrees with CPython on these values. *)
Example round2_examples :
  PyFloat.round2 0.9500000000000001 = 0.95%float ∧
  PyFloat.round2 2.675 = 2.67%float ∧
  PyFloat.round2 0.825 = 0.82%float ∧
  PyFloat.round2 0.125 = 0.12%float ∧
  PyFloat.round2 0.375 = 0.38%float ∧
  PyFloat.round2 1.005 = 1%float ∧
  PyFloat.round2 (-0.001) = (-0)%float ∧
  PyFloat.round2 1e300 = 1e300%float ∧
  PyFloat.round2 123456789012.345 = 123456789012.35%float ∧
  PyFloat.round2 infinity = infinity.
Proof. vm_compute. repeat split. Qed.

Example hundredths_examples :
  PyFloat.hundredths 95 = 0.95%float ∧ PyFloat.hundredths 70 = 0.7%float ∧
  PyFloat.hundredths 100 = 1%float ∧ PyFloat.hundredths 1 = 0.01%float ∧
  PyFloat.hundredths 33 = (33 / 100)%float ∧
  PyFloat.of_int 9007199254740993 = Some 9007199254740992%float.
Proof. vm_compute. repeat split. Qed.

Example scorer_examples :
  (0.8 + 0.15)%float = 0.9500000000000001%float ∧
  calculate_threat_score mimikatz_example = Ok 0.95%float ∧
  calculate_threat_score port_scan_example = Ok 0.7%float ∧
  calculate_threat_score
    (list_to_map [ ("event_type"%string, Atom (AStr "high_resource"));
                   ("raw_data"%string,
                    Dict (list_to_map [("total_connections"%string, AInt 80)])) ])
    = Ok 0.4%float ∧
  calculate_threat_score (list_to_map [("title"%string, Atom ANone)])
    = Raise AttributeError.
Proof. vm_compute. repeat split. Qed.

End FloatFacts.

(** ** Strings *)

Section StringFacts.

Lemma str_startswith_app (k a b : string) :
  str_startswith k a = true → str_startswith k (a +:+ b) = true.
Proof.
  revert a. induction k as [|c k IH]; intros [|c' a]; simpl; try done.
  destruct (Ascii.eqb c c'); [apply IH | done].
Qed.

Lemma str_in_app_l (k a b : string) : str_in k a = true → str_in k (a +:+ b) = true.
Proof.
  induction a as [|c a IH]; simpl.
  - rewrite orb_false_r. destruct k; [|done]. intros _. by destruct b.
  - intros [H | H]%orb_true_iff; apply orb_true_iff.
    + left. apply (str_startswith_app k (String c a) b H).
    + right. auto.
Qed.

Lemma keyword_loop_spec (keywords : list string) (text : string) (score : float) :
  keyword_loop keywords text score =
  if existsb (λ k, str_in k text) keywords
  then PyFloat.min (score + 0.15)%float 1%float else score.
Proof.
  induction keywords as [|k rest IH]; simpl; [done|].
  destruct (str_in k text); simpl; [done | apply IH].
Qed.

End StringFacts.

(** ** Scorer *)

Section Scorer.

Lemma average_existing_ok (score : float) (v : pyval) :
  if prior_ok v then ∃ s, average_existing score v = Ok s
  else ∃ e, average_existing score v = Raise e.
Proof.
  destruct v as [[| [] |z|f|]|]; cbn; eauto.
  - destruct (Z.ltb_spec 0 z) as [Hz|Hz], (Z.leb_spec z 0) as [Hz'|Hz']; try lia; cbn; eauto.
    destruct (PyFloat.of_int z) eqn:E.
    + rewrite bool_decide_eq_true_2 by eauto. eauto.
    + rewrite bool_decide_eq_false_2 by (intros [? ?]; discriminate). eauto.
  - case_match; eauto.
Qed.

Lemma py_lower_ok (v : pyval) :
  if is_str v then ∃ s, py_lower v = Ok s else py_lower v = Raise AttributeError.
Proof. destruct v as [[]|]; cbn; eauto. Qed.

Lemma connection_bonus_ok (score : float) (v : pyval) :
  if evidence_ok v then ∃ s, connection_bonus score v = Ok s
  else connection_bonus score v = Raise TypeError.
Proof.
  destruct v as [a|d]; cbn; eauto.
  destruct (default (AInt 0) (d !! "total_connections")) as [| |z|f|]; cbn; eauto.
  - destruct (50 <? z); eauto.
  - case_match; eauto.
Qed.

(** The scorer returns a score exactly on the [scorable] events. *)
Lemma scorable_iff (event : pydict) :
  scorable event = true ↔ ∃ s, calculate_threat_score event = Ok s.
Proof.
  unfold scorable, calculate_threat_score.
  generalize (dict_get event "event_type" (AStr "")) as ty.
  generalize (dict_get event "threat_score" (AFloat 0)) as sc.
  generalize (dict_get event "title" (AStr "")) as ti.
  generalize (dict_get event "description" (AStr "")) as de.
  generalize (dict_get event "raw_data" (Dict ∅)) as rd.
  intros.
  assert (Hno : ∀ (e : exn), (false = true ↔ ∃ s : float, @Raise float e = Ok s))
    by (split; [discriminate | intros [? ?]; discriminate]).
  destruct ty as [ty|ty]; [|apply Hno].
  assert (∃ b, base_score ty = Ok b) as [b Hb] by (destruct ty as [| | | |?]; simpl; eauto).
  rewrite Hb. cbn [mbind result_bind hashable andb].
  pose proof (average_existing_ok b sc) as H2.
  destruct (prior_ok sc); [destruct H2 as [s2 ->] | destruct H2 as [e ->]; apply Hno].
  cbn [mbind result_bind andb].
  pose proof (py_lower_ok ti) as H3.
  destruct (is_str ti); [destruct H3 as [t ->] | rewrite H3; apply Hno].
  cbn [mbind result_bind andb].
  pose proof (py_lower_ok de) as H4.
  destruct (is_str de); [destruct H4 as [d ->] | rewrite H4; apply Hno].
  cbn [mbind result_bind andb].
  match goal with |- context [connection_bonus ?x rd] =>
    pose proof (connection_bonus_ok x rd) as H5 end.
  destruct (evidence_ok rd); [destruct H5 as [s5 ->] | rewrite H5; apply Hno].
  cbn [mbind result_bind]. split; eauto.
Qed.

(** Whatever the scorer returns went through the final clamp and round. *)
Lemma calculate_threat_score_clamped (event : pydict) (s : float) :
  calculate_threat_score event = Ok s → ∃ x, s = clamp_round x.
Proof.
  unfold calculate_threat_score. cbv zeta.
  destruct (base_score _) as [b|]; cbn [mbind result_bind]; [|intros [=]].
  destruct (average_existing _ _) as [a|]; cbn [mbind result_bind]; [|intros [=]].
  destruct (py_lower (dict_get event "title" _)) as [t|];
    cbn [mbind result_bind]; [|intros [=]].
  destruct (py_lower _) as [d|]; cbn [mbind result_bind]; [|intros [=]].
  destruct (connection_bonus _ _) as [c|]; cbn [mbind result_bind]; [|intros [=]].
  intros [= <-]. eauto.
Qed.

(** C2. The severity is a function of the score alone and the bands
    partition the scores: critical from 0.7, high from 0.5 up to 0.7,
    medium from 0.3 up to 0.5, low otherwise.  The severity written onto an
    event depends on the score only, and the six boundary values of the
    specification evaluate as stated. *)
Theorem severity_bands :
  (∀ s : float,
     (get_severity_from_score s = CRITICAL ↔ PyFloat.ge s 0.7 = true) ∧
     (get_severity_from_score s = HIGH ↔
        PyFloat.ge s 0.5 = true ∧ PyFloat.ge s 0.7 = false) ∧
     (get_severity_from_score s = MEDIUM ↔
        PyFloat.ge s 0.3 = true ∧ PyFloat.ge s 0.5 = false) ∧
     (get_severity_from_score s = LOW ↔ PyFloat.ge s 0.3 = false)) ∧
  (∀ (event1 event2 : pydict) (s : float),
     scored event1 s !! "severity" = scored event2 s !! "severity") ∧
  get_severity_from_score 0.69 = HIGH ∧
  get_severity_from_score 0.70 = CRITICAL ∧
  get_severity_from_score 0.49 = MEDIUM ∧
  get_severity_from_score 0.50 = HIGH ∧
  get_severity_from_score 0.29 = LOW ∧
  get_severity_from_score 0.30 = MEDIUM.
Proof.
  split; [|split].
  - intros s. destruct (bands_nested s) as [H75 H53].
    unfold get_severity_from_score.
    destruct (PyFloat.ge s 0.7) eqn:E7, (PyFloat.ge s 0.5) eqn:E5, (PyFloat.ge s 0.3) eqn:E3;
      try (specialize (H75 eq_refl)); try (specialize (H53 eq_refl)); try discriminate;
      repeat split; intros; try discriminate; try reflexivity;
      repeat match goal with H : _ ∧ _ |- _ => destruct H end; discriminate.
  - intros. unfold scored. by rewrite !lookup_insert_eq.
  - repeat split.
Qed.

(** C3. Every score the scorer returns lies between 0.0 and 1.0 and has
    at most two decimals. *)
Theorem calculate_threat_score_range (event : pydict) (s : float) :
  calculate_threat_score event = Ok s →
  PyFloat.le 0 s = true ∧ PyFloat.le s 1 = true ∧ PyFloat.two_decimals s.
Proof.
  intros [x ->]%calculate_threat_score_clamped.
  destruct (clamp_round_bounds x). auto using clamp_round_two_decimals.
Qed.

Lemma calculate_threat_score_range_witness :
  PyFloat.le 0 0.7 = true ∧ PyFloat.le 0.7 1 = true ∧ PyFloat.two_decimals 0.7.
Proof.
  apply (calculate_threat_score_range port_scan_example 0.7).
  vm_compute. reflexivity.
Defined.

(** C4. The keyword bonus is added once if any critical keyword occurs
    in the text and not at all otherwise, however many keywords occur.
    A suspicious-process observation whose title contains a critical
    keyword (in any case), with no prior score and no connection count in
    its evidence, scores 0.95, which is critical. *)
Theorem keyword_bonus_once (event : pydict) (title : string) :
  event !! "event_type" = Some (Atom (AStr "suspicious_process")) →
  event !! "title" = Some (Atom (AStr title)) →
  has_critical_keyword (str_lower title) = true →
  is_str (dict_get event "description" (AStr "")) = true →
  no_prior_score event →
  no_connection_count event →
  (∀ (text : string) (score : float),
     keyword_loop critical_keywords text score =
     if has_critical_keyword text
     then PyFloat.min (score + 0.15)%float 1%float else score) ∧
  calculate_threat_score event = Ok 0.95%float ∧
  get_severity_from_score 0.95 = CRITICAL.
Proof.
  intros Hty Hti Hkw Hde Hsc Hrd.
  split; [intros; apply keyword_loop_spec|].
  split; [|reflexivity].
  unfold calculate_threat_score, dict_get. cbv zeta.
  rewrite Hty, Hti. cbn [default from_option id base_score mbind result_bind].
  assert (default (Atom (AFloat 0)) (event !! "threat_score") = Atom (AFloat 0)) as ->
    by (destruct Hsc as [-> | ->]; reflexivity).
  change (EVENT_BASE_SCORES !! "suspicious_process") with (Some 0.8%float).
  cbn [default from_option id average_existing].
  change (PyFloat.gt 0 0) with false. cbv iota.
  cbn [mbind result_bind py_lower].
  unfold dict_get in Hde.
  destruct (default (Atom (AStr "")) (event !! "description")) as [[| | | |d]|];
    try discriminate.
  cbn [mbind result_bind py_lower].
  rewrite keyword_loop_spec.
  assert (existsb (λ k, str_in k (str_lower title +:+ " " +:+ str_lower d)) critical_keywords
          = true) as ->.
  { unfold has_critical_keyword in Hkw. apply existsb_exists in Hkw as (k & Hin & Hk).
    apply existsb_exists. exists k. split; [done|]. by apply str_in_app_l. }
  unfold no_connection_count, dict_get in Hrd.
  destruct (default (Dict ∅) (event !! "raw_data")) as [a|rd]; cbn [connection_bonus].
  - reflexivity.
  - rewrite Hrd. reflexivity.
Qed.

Lemma keyword_bonus_once_witness :
  (∀ (text : string) (score : float),
     keyword_loop critical_keywords text score =
     if has_critical_keyword text
     then PyFloat.min (score + 0.15)%float 1%float else score) ∧
  calculate_threat_score mimikatz_example = Ok 0.95%float ∧
  get_severity_from_score 0.95 = CRITICAL.
Proof.
  apply (keyword_bonus_once mimikatz_example "Mimikatz MALWARE trojan detected").
  - reflexivity.
  - reflexivity.
  - reflexivity.
  - reflexivity.
  - left. reflexivity.
  - vm_compute. reflexivity.
Defined.

End Scorer.

(** ** Analyzer *)

Section Analyzer.

(** Case analysis over what the sink does with a write: no session, a
    commit that goes through, a commit that raises. *)
Ltac sink_cases w :=
  unfold next_commit_ok, _save_event, _create_alert, get_session, add_commit in *; cbn;
  destruct (session_factory (db w)); cbn; [|done];
  destruct (commit_faults (db w)) as [|[] ?]; cbn; try done;
  try (destruct (py_upper _); done).

Lemma save_event_calls (event : pydict) (w : World) :
  calls (_save_event event w) = calls w ++ [SaveEventCall event].
Proof. sink_cases w. Qed.

Lemma save_event_alerts (event : pydict) (w : World) :
  alerts (db (_save_event event w)) = alerts (db w).
Proof. sink_cases w. Qed.

Lemma save_event_clock (event : pydict) (w : World) :
  clock (_save_event event w) = clock w.
Proof. sink_cases w. Qed.


Lemma create_alert_fst (event : pydict) (w : World) :
  fst (_create_alert event w) = alert_dict event (uuid4 (uuid_seed w)) (now_isoformat w).
Proof. reflexivity. Qed.

Lemma create_alert_calls (event : pydict) (w : World) :
  calls (snd (_create_alert event w)) = calls w ++ [CreateAlertCall event].
Proof. sink_cases w. Qed.


(** The findings of the network and file collectors are all scorable. *)
Lemma findings_scorable :
  (∀ conn r id ts, scorable (NetworkCollector.remote_finding conn r id ts) = true) ∧
  (∀ conn l id ts, scorable (NetworkCollector.local_finding conn l id ts) = true) ∧
  (∀ u t id ts, scorable (NetworkCollector.scan_finding u t id ts) = true) ∧
  (∀ f e id ts, scorable (FileCollector.new_file_finding f e id ts) = true) ∧
  (∀ f o c id ts, scorable (FileCollector.modified_finding f o c id ts) = true).
Proof. repeat split; intros; reflexivity. Qed.



Import SentinelEngine.

Lemma save_event_db (event : pydict) (w : World) :
  session_factory (db (_save_event event w)) = session_factory (db w) ∧
  commit_faults (db (_save_event event w)) =
    (if session_factory (db w) then tail (commit_faults (db w)) else commit_faults (db w)) ∧
  clock (_save_event event w) = clock w.
Proof.
  unfold _save_event, get_session, add_commit. cbn.
  destruct (session_factory (db w)) eqn:E; cbn; [|done].
  destruct (commit_faults (db w)) as [|[] ?]; cbn; done.
Qed.

Lemma create_alert_failure (event : pydict) (w : World) :
  session_factory (db w) = false ∨ (∃ rest, commit_faults (db w) = true :: rest) →
  ∃ x, alerts (db (snd (_create_alert event w))) = alerts (db w) ∧
       log (snd (_create_alert event w)) = log w ++ [LogFailedCreateAlert x].
Proof.
  unfold _create_alert, get_session, add_commit. cbn.
  intros [Hsf | [rest Hf]].
  - rewrite Hsf. cbn. eauto.
  - destruct (session_factory (db w)); cbn; [|eauto].
    rewrite Hf. cbn. eauto.
Qed.

Lemma analyze_event_alert (event : pydict) (w : World) (s : float) :
  calculate_threat_score event = Ok s →
  PyFloat.ge s 0.5 = true →
  analyze_event event w =
  let ev := scored event s in
  let w1 := _save_event ev
    (logger (LogEventAnalyzed (dict_get ev "title" (AStr "Unknown")) s
               (Severity_value (get_severity_from_score s))) w) in
  (Ok (Some (fst (_create_alert ev w1))), snd (_create_alert ev w1)).
Proof.
  intros Hs Hge. unfold analyze_event. rewrite Hs.
  change ALERT_THRESHOLD with 0.5%float. rewrite Hge. cbv zeta.
  by destruct (_create_alert _ _).
Qed.

Lemma cycle_single_alert (c : collector) (event alert : pydict) (e : engine) (w w' : World) :
  c ≠ System →
  analyze_event event w = (Ok (Some alert), w') →
  total_alerts (fst (cycle c (Ok [event]) e w)) = (total_alerts e + 1)%nat.
Proof.
  intros Hc Ha.
  assert (routed c [event] = true) as Hr by (by destruct c).
  unfold cycle, analyze_batch, analyze_loop. rewrite Hr, Ha. reflexivity.
Qed.

(** C10. When the score is at least 0.5 and the write of the alert
    raises, [analyze_event] still returns the alert dict it built: the
    alerts table is unchanged, the failure is the last thing logged, and
    the engine's cycle counts the alert. *)
Theorem alert_returned_when_write_fails
    (event : pydict) (w : World) (s : float) (c : collector) (e : engine) :
  calculate_threat_score event = Ok s →
  PyFloat.ge s 0.5 = true →
  alert_write_fails (db w) →
  c ≠ System →
  ∃ id x,
    fst (analyze_event event w)
      = Ok (Some (alert_dict (scored event s) id (now_isoformat w))) ∧
    alerts (db (snd (analyze_event event w))) = alerts (db w) ∧
    (∃ l, log (snd (analyze_event event w)) = l ++ [LogFailedCreateAlert x]) ∧
    total_alerts (fst (cycle c (Ok [event]) e w)) = (total_alerts e + 1)%nat.
Proof.
  intros Hs Hge Hfail Hc.
  pose proof (analyze_event_alert event w s Hs Hge) as Ha. cbv zeta in Ha.
  set (ev := scored event s) in *.
  set (w1 := _save_event ev _) in *.
  destruct (save_event_db ev
    (logger (LogEventAnalyzed (dict_get ev "title" (AStr "Unknown")) s
               (Severity_value (get_severity_from_score s))) w)) as (Hsf & Hcf & Hck).
  fold w1 in Hsf, Hcf, Hck. cbn in Hsf, Hcf, Hck.
  destruct (create_alert_failure ev w1) as (x & Hal & Hlog).
  { destruct Hfail as [H | (b & rest & H)]; [left; congruence|].
    destruct (session_factory (db w)); [right | left; congruence].
    rewrite Hcf, H. eauto. }
  exists (uuid4 (uuid_seed w1)), x.
  rewrite Ha. cbn [fst snd]. split; [|split; [|split]].
  - rewrite create_alert_fst. unfold now_isoformat. by rewrite Hck.
  - rewrite Hal. subst w1. by rewrite save_event_alerts.
  - eauto.
  - by eapply cycle_single_alert.
Qed.

Lemma alert_returned_when_write_fails_witness :
  ∃ id x,
    fst (analyze_event port_scan_example offline_world)
      = Ok (Some (alert_dict (scored port_scan_example 0.7) id
                    (now_isoformat offline_world))) ∧
    alerts (db (snd (analyze_event port_scan_example offline_world)))
      = alerts (db offline_world) ∧
    (∃ l, log (snd (analyze_event port_scan_example offline_world))
          = l ++ [LogFailedCreateAlert x]) ∧
    total_alerts (fst (SentinelEngine.cycle SentinelEngine.Network (Ok [port_scan_example])
                         {| SentinelEngine.is_running := true;
                            SentinelEngine.total_events := 0;
                            SentinelEngine.total_alerts := 0 |} offline_world))
      = (0 + 1)%nat.
Proof.
  apply (alert_returned_when_write_fails port_scan_example offline_world 0.7
           SentinelEngine.Network
           {| SentinelEngine.is_running := true; SentinelEngine.total_events := 0;
              SentinelEngine.total_alerts := 0 |}).
  - vm_compute. reflexivity.
  - reflexivity.
  - left. reflexivity.
  - discriminate.
Defined.

End Analyzer.

(** ** Network collector *)

Section Network.
Import NetworkCollector NetworkFacts.

Lemma remote_finding_type conn r id ts :
  remote_finding conn r id ts !! "event_type" = Some (Atom (AStr "network_anomaly")).
Proof. reflexivity. Qed.

Lemma local_finding_type conn l id ts :
  local_finding conn l id ts !! "event_type" = Some (Atom (AStr "network_anomaly")).
Proof. reflexivity. Qed.

Lemma scan_finding_type u t id ts :
  scan_finding u t id ts !! "event_type" = Some (Atom (AStr "port_scan")).
Proof. reflexivity. Qed.

Lemma check_suspicious_port_type conn w ev :
  fst (_check_suspicious_port conn w) = Some ev →
  ev !! "event_type" = Some (Atom (AStr "network_anomaly")).
Proof.
  unfold _check_suspicious_port, check_local.
  destruct (raddr conn) as [r|]; [destruct (decide _)|]; cbn.
  - intros [= <-]. apply remote_finding_type.
  - destruct (laddr conn) as [l|]; [destruct (decide _)|]; cbn; try done.
    intros [= <-]. apply local_finding_type.
  - destruct (laddr conn) as [l|]; [destruct (decide _)|]; cbn; try done.
    intros [= <-]. apply local_finding_type.
Qed.

Lemma count_type_snoc t events ev :
  count_type t (events ++ [ev]) =
  (count_type t events + if event_type_is t ev then 1 else 0)%nat.
Proof.
  unfold count_type. rewrite List.filter_app, length_app. f_equal.
  cbn. by destruct (event_type_is t ev).
Qed.

Lemma collect_loop_spec connections events ports w :
  (collect_loop connections events ports w).1.2 = ports ++ remote_ports_of connections ∧
  count_type PORT_SCAN (collect_loop connections events ports w).1.1
    = count_type PORT_SCAN events ∧
  (length (collect_loop connections events ports w).1.1
    ≤ length events + length (List.filter established connections))%nat.
Proof.
  revert events ports w.
  induction connections as [|conn rest IH]; intros events ports w; cbn [collect_loop].
  - cbn. rewrite app_nil_r. split; [done|]. split; [done|lia].
  - cbn [remote_ports_of List.filter].
    fold (established conn). destruct (established conn) eqn:Hest; cbn [negb].
    + destruct (_check_suspicious_port conn w) as [found w1] eqn:Hc.
      match goal with |- context [collect_loop rest ?e ?p w1] =>
        destruct (IH e p w1) as (H1 & H2 & H3) end.
      rewrite H1, H2. split; [|split].
      * destruct (raddr conn); [by rewrite <- app_assoc | done].
      * destruct found as [ev|]; [|done].
        rewrite count_type_snoc.
        assert (event_type_is PORT_SCAN ev = false) as ->; [|lia].
        unfold event_type_is.
        by rewrite (check_suspicious_port_type conn w ev) by (by rewrite Hc).
      * etrans; [exact H3|]. destruct found; rewrite ?length_app; cbn; lia.
    + apply IH.
Qed.

Lemma check_port_scan_found (remote_ports : list Z) (w : World) :
  fst (_check_port_scan remote_ports w) =
  if (20 <=? length remote_ports)%nat && (20 <=? size (list_to_set remote_ports : gset Z))%nat
  then Some (scan_finding (size (list_to_set remote_ports : gset Z)) (length remote_ports)
               (uuid4 (uuid_seed w)) (now_isoformat w))
  else None.
Proof.
  unfold _check_port_scan.
  destruct (Nat.ltb_spec (length remote_ports) 20), (Nat.leb_spec 20 (length remote_ports));
    try lia; cbn [andb fst]; [done|].
  destruct (20 <=? size _)%nat; reflexivity.
Qed.

(** C5. The port-scan check fires exactly when the list of remote ports
    has at least 20 entries and at least 20 distinct values; the finding
    then has score 0.7 and carries both counts; one poll reports one such
    finding when the check fires and none otherwise. *)
Theorem port_scan_iff (remote_ports : list Z) (connections : list sconn) (w : World) :
  let found := fst (_check_port_scan remote_ports w) in
  let unique := size (list_to_set remote_ports : gset Z) in
  (is_Some found ↔ (20 ≤ length remote_ports)%nat ∧ (20 ≤ unique)%nat) ∧
  (∀ ev, found = Some ev →
     ev !! "event_type" = Some (Atom (AStr "port_scan")) ∧
     ev !! "severity" = Some (Atom (AStr "high")) ∧
     ev !! "threat_score" = Some (Atom (AFloat 0.7)) ∧
     ev !! "raw_data" = Some (Dict (list_to_map
       [ ("unique_ports"%string, AInt (Z.of_nat unique));
         ("total_connections"%string, AInt (Z.of_nat (length remote_ports))) ]))) ∧
  count_type PORT_SCAN (fst (collect (Some connections) w)) =
    (if (20 <=? length (remote_ports_of connections))%nat
        && (20 <=? size (list_to_set (remote_ports_of connections) : gset Z))%nat
     then 1 else 0)%nat.
Proof.
  cbv zeta. rewrite check_port_scan_found. split; [|split].
  - destruct (Nat.leb_spec 20 (length remote_ports)),
      (Nat.leb_spec 20 (size (list_to_set remote_ports : gset Z))); cbn [andb];
      (split; [intros [? ?]; try done; lia | intros [? ?]; try lia; eauto]).
  - intros ev. destruct (_ && _); [|done]. intros [= <-]. repeat split.
  - unfold collect.
    destruct (collect_loop_spec connections [] [] w) as (H1 & H2 & _).
    destruct (collect_loop connections [] [] w) as [[events ports] w1].
    cbn [fst snd app] in H1, H2.
    subst ports.
    pose proof (check_port_scan_found (remote_ports_of connections) w1) as Hf.
    destruct (_check_port_scan _ w1) as [found w2]. cbn [fst] in Hf. subst found.
    destruct (_ && _); cbn [fst].
    + rewrite count_type_snoc, H2. reflexivity.
    + rewrite H2. reflexivity.
Qed.

(** C6, as the code has it.  A suspicious remote port gives a high
    finding with score 0.8; a suspicious local port gives a critical
    finding with score 0.85 only if the remote port gave none; otherwise
    there is no finding; and a poll holds at most one such finding per
    established connection. *)
Theorem suspicious_port_findings (conn : sconn) (connections : list sconn) (w : World) :
  let found := fst (_check_suspicious_port conn w) in
  (remote_suspicious conn = true →
     ∃ ev, found = Some ev ∧
           ev !! "severity" = Some (Atom (AStr "high")) ∧
           ev !! "threat_score" = Some (Atom (AFloat 0.8))) ∧
  (remote_suspicious conn = false → local_suspicious conn = true →
     ∃ ev, found = Some ev ∧
           ev !! "severity" = Some (Atom (AStr "critical")) ∧
           ev !! "threat_score" = Some (Atom (AFloat 0.85))) ∧
  (remote_suspicious conn = false → local_suspicious conn = false → found = None) ∧
  (count_type NETWORK_ANOMALY (fst (collect (Some connections) w))
     ≤ length (List.filter established connections))%nat.
Proof.
  cbv zeta. unfold remote_suspicious, local_suspicious, _check_suspicious_port, check_local.
  split; [|split; [|split]].
  - destruct (raddr conn) as [r|]; [|done]. intros Hr%bool_decide_eq_true.
    rewrite decide_True by done. cbn. eexists. repeat split.
  - intros Hr Hl.
    assert (∃ l, laddr conn = Some l ∧ port l ∈ SUSPICIOUS_PORTS) as (l & -> & Hin).
    { destruct (laddr conn) as [l|]; [|done]. apply bool_decide_eq_true in Hl. eauto. }
    destruct (raddr conn) as [r|].
    + apply bool_decide_eq_false in Hr. rewrite decide_False by done.
      rewrite decide_True by done. cbn. eexists. repeat split.
    + rewrite decide_True by done. cbn. eexists. repeat split.
  - intros Hr Hl.
    assert (fst (match laddr conn with
                 | Some l =>
                     if decide (port l ∈ SUSPICIOUS_PORTS)
                     then let '(id, w0) := generate_id w in
                          (Some (local_finding conn l id (now_isoformat w0)), w0)
                     else (None, w)
                 | None => (None, w)
                 end) = None) as Hloc.
    { destruct (laddr conn) as [l|]; [|done]. apply bool_decide_eq_false in Hl.
      by rewrite decide_False by done. }
    destruct (raddr conn) as [r|]; [|done].
    apply bool_decide_eq_false in Hr. by rewrite decide_False by done.
  - unfold collect.
    destruct (collect_loop_spec connections [] [] w) as (_ & _ & H3).
    destruct (collect_loop connections [] [] w) as [[events ports] w1].
    cbn [fst snd length] in H3.
    assert (count_type NETWORK_ANOMALY events ≤ length events)%nat as Hle
      by (unfold count_type; apply List.filter_length_le).
    pose proof (check_port_scan_found ports w1) as Hf.
    destruct (_check_port_scan ports w1) as [found w2]. cbn [fst] in Hf. subst found.
    destruct (_ && _); cbn [fst]; [|lia].
    rewrite count_type_snoc.
    replace (event_type_is NETWORK_ANOMALY _) with false by reflexivity. lia.
Qed.

(** C6 as stated fails: an established connection with both ports in the
    set yields one finding, the remote-port one, not two. *)
Lemma both_ports_one_finding :
  established both_ports_example = true ∧
  remote_suspicious both_ports_example = true ∧
  local_suspicious both_ports_example = true ∧
  (∃ ev, fst (collect (Some [both_ports_example]) fresh_world) = [ev] ∧
         ev !! "severity" = Some (Atom (AStr "high")) ∧
         ev !! "threat_score" = Some (Atom (AFloat 0.8))) ∧
  count_type NETWORK_ANOMALY (fst (collect (Some [both_ports_example]) fresh_world)) ≠ 2%nat.
Proof.
  split; [reflexivity|]. split; [by vm_compute|]. split; [by vm_compute|]. split.
  - eexists. split; [reflexivity|]. split; reflexivity.
  - assert (count_type NETWORK_ANOMALY
              (fst (collect (Some [both_ports_example]) fresh_world)) = 1%nat) as ->
      by (vm_compute; reflexivity).
    discriminate.
Qed.

Lemma port_scan_examples (w : World) :
  length nineteen_of_25 = 25%nat ∧
  size (list_to_set nineteen_of_25 : gset Z) = 19%nat ∧
  fst (_check_port_scan nineteen_of_25 w) = None ∧
  is_Some (fst (_check_port_scan twenty_of_20 w)).
Proof.
  rewrite !check_port_scan_found.
  assert (size (list_to_set nineteen_of_25 : gset Z) = 19%nat) as -> by (by vm_compute).
  assert (size (list_to_set twenty_of_20 : gset Z) = 20%nat) as -> by (by vm_compute).
  cbn. eauto.
Qed.
End Network.

(** ** File collector *)

Section Files.
Import FileCollector FileFacts.

Lemma count_new_snoc p events ev :
  count_new p (events ++ [ev]) = (count_new p events + if is_new_finding p ev then 1 else 0)%nat.
Proof.
  unfold count_new. rewrite List.filter_app, length_app. f_equal.
  cbn. by destruct (is_new_finding p ev).
Qed.

Lemma count_modified_snoc p events ev :
  count_modified p (events ++ [ev]) =
  (count_modified p events + if is_modified_finding p ev then 1 else 0)%nat.
Proof.
  unfold count_modified. rewrite List.filter_app, length_app. f_equal.
  cbn. by destruct (is_modified_finding p ev).
Qed.

Lemma new_finding_kind p f ext id ts :
  is_new_finding p (new_file_finding f ext id ts) = String.eqb (path f) p ∧
  is_modified_finding p (new_file_finding f ext id ts) = false.
Proof.
  unfold is_new_finding, is_modified_finding, str_field_is, score_is.
  change (new_file_finding f ext id ts !! "file_path") with (Some (Atom (AStr (path f)))).
  change (new_file_finding f ext id ts !! "severity") with (Some (Atom (AStr "high"))).
  change (new_file_finding f ext id ts !! "threat_score") with (Some (Atom (AFloat 0.7))).
  cbn. rewrite !andb_true_r, andb_false_r. done.
Qed.

Lemma modified_finding_kind p f old cur id ts :
  is_modified_finding p (modified_finding f old cur id ts) = String.eqb (path f) p ∧
  is_new_finding p (modified_finding f old cur id ts) = false.
Proof.
  unfold is_new_finding, is_modified_finding, str_field_is, score_is.
  change (modified_finding f old cur id ts !! "file_path") with (Some (Atom (AStr (path f)))).
  change (modified_finding f old cur id ts !! "severity") with (Some (Atom (AStr "medium"))).
  change (modified_finding f old cur id ts !! "threat_score") with (Some (Atom (AFloat 0.5))).
  cbn. rewrite !andb_true_r, andb_false_r. done.
Qed.

Ltac finding_kind p :=
  match goal with
  | |- context [new_file_finding ?f ?e ?i ?t] =>
      destruct (new_finding_kind p f e i t) as [-> ->]
  | |- context [modified_finding ?f ?o ?c ?i ?t] =>
      destruct (modified_finding_kind p f o c i t) as [-> ->]
  end.

Lemma check_extension_view p f events known w :
  view p (append_found events (_check_extension f known w).1.1)
         (_check_extension f known w).1.2 =
  let '(n, m, h) := view p events known in
  if String.eqb (path f) p then
    match h with
    | None =>
        if bool_decide (str_lower (suffix f) ∈ SUSPICIOUS_EXTENSIONS)
        then (S n, m, Some (default "unknown"%string (sha256 f)))
        else (n, m, None)
    | Some _ => (n, m, h)
    end
  else (n, m, h).
Proof.
  unfold _check_extension, view, generate_id. cbv zeta.
  destruct (decide (str_lower (suffix f) ∈ SUSPICIOUS_EXTENSIONS)) as [Hs|Hs].
  - rewrite (bool_decide_eq_true_2 _ Hs).
    destruct (String.eqb_spec (path f) p) as [<-|Hne].
    + destruct (known !! path f) as [old|] eqn:Hk; cbn [fst snd append_found];
        [by rewrite Hk|].
      rewrite count_new_snoc, count_modified_snoc, lookup_insert_eq.
      finding_kind (path f).
      rewrite String.eqb_refl. by rewrite ?Nat.add_0_r, ?Nat.add_1_r.
    + destruct (known !! path f) as [old|] eqn:Hk; cbn [fst snd append_found]; [done|].
      rewrite count_new_snoc, count_modified_snoc, lookup_insert_ne by done.
      finding_kind p.
      apply String.eqb_neq in Hne. rewrite Hne.
      by rewrite ?Nat.add_0_r, ?Nat.add_1_r.
  - rewrite (bool_decide_eq_false_2 _ Hs). cbn [fst snd append_found].
    destruct (String.eqb (path f) p); [|done]. by destruct (known !! p).
Qed.

Lemma check_file_change_view p f events known w :
  view p (append_found events (_check_file_change f known w).1.1)
         (_check_file_change f known w).1.2 =
  let '(n, m, h) := view p events known in
  if String.eqb (path f) p then
    match h, sha256 f with
    | Some old, Some cur =>
        if String.eqb cur old then (n, m, h) else (n, S m, Some cur)
    | _, _ => (n, m, h)
    end
  else (n, m, h).
Proof.
  unfold _check_file_change, view, generate_id. cbv zeta.
  destruct (String.eqb_spec (path f) p) as [<-|Hne].
  - destruct (known !! path f) as [old|] eqn:Hk; cbn [fst snd append_found]; [|by rewrite Hk].
    destruct (sha256 f) as [cur|]; cbn [fst snd append_found]; [|by rewrite Hk].
    destruct (String.eqb cur old); cbn [negb fst snd append_found]; [by rewrite Hk|].
    rewrite count_new_snoc, count_modified_snoc, lookup_insert_eq.
    finding_kind (path f).
    rewrite String.eqb_refl. by rewrite ?Nat.add_0_r, ?Nat.add_1_r.
  - destruct (known !! path f) as [old|] eqn:Hk; cbn [fst snd append_found]; [|done].
    destruct (sha256 f) as [cur|]; cbn [fst snd append_found]; [|done].
    destruct (String.eqb cur old); cbn [negb fst snd append_found]; [done|].
    rewrite count_new_snoc, count_modified_snoc, lookup_insert_ne by done.
    finding_kind p.
    apply String.eqb_neq in Hne. rewrite Hne.
    by rewrite ?Nat.add_0_r, ?Nat.add_1_r.
Qed.

Lemma scan_entries_view p entries events known w :
  view p (scan_entries entries events known w).1.1 (scan_entries entries events known w).1.2
  = fold_left (track1 p) entries (view p events known).
Proof.
  revert events known w.
  induction entries as [|f rest IH]; intros events known w; cbn [scan_entries fold_left];
    [done|].
  destruct (is_file f) eqn:Hfile; cbn [negb].
  - pose proof (check_extension_view p f events known w) as H1.
    destruct (_check_extension f known w) as [[e1 k1] w1]. cbn [fst snd] in H1.
    pose proof (check_file_change_view p f (append_found events e1) k1 w1) as H2.
    destruct (_check_file_change f k1 w1) as [[e2 k2] w2]. cbn [fst snd] in H2.
    rewrite IH. f_equal. rewrite H2, H1.
    unfold track1. destruct (view p events known) as [[n m] h]. rewrite Hfile. cbn [andb].
    destruct (String.eqb (path f) p); [|done].
    destruct h as [old|]; [done|].
    destruct (bool_decide _); [|done].
    destruct (sha256 f) as [cur|]; cbn [default from_option id]; [|done].
    by rewrite String.eqb_refl.
  - rewrite IH. f_equal. unfold track1.
    destruct (view p events known) as [[n m] h]. by rewrite Hfile.
Qed.

Lemma scan_paths_view p dirs events known w :
  view p (scan_paths dirs events known w).1.1 (scan_paths dirs events known w).1.2
  = fold_left (track1 p) (scanned dirs) (view p events known).
Proof.
  revert events known w.
  induction dirs as [|d rest IH]; intros events known w; [done|].
  cbn [scan_paths scanned flat_map]. rewrite fold_left_app. fold (scanned rest).
  destruct (exists_ d); cbn [negb]; [|apply IH].
  destruct (listing d) as [entries|]; cbn [default from_option id]; [|apply IH].
  pose proof (scan_entries_view p entries events known w) as H.
  destruct (scan_entries entries events known w) as [[e1 k1] w1]. cbn [fst snd] in H.
  by rewrite IH, H.
Qed.

Lemma track_quiet p es n m h :
  (∀ f, In f es → is_file f = true → path f = p →
        sha256 f = None ∨ sha256 f = Some h) →
  fold_left (track1 p) es (n, m, Some h) = (n, m, Some h).
Proof.
  induction es as [|f rest IH]; intros Hall; [done|]. cbn [fold_left].
  assert (track1 p (n, m, Some h) f = (n, m, Some h)) as ->.
  { unfold track1. destruct (is_file f) eqn:Hf; [|done]. cbn [andb].
    destruct (String.eqb_spec (path f) p) as [Hp|]; [|done].
    destruct (Hall f (or_introl eq_refl) Hf Hp) as [-> | ->]; [done|].
    by rewrite String.eqb_refl. }
  apply IH. intros f' Hin. apply Hall. by right.
Qed.

Lemma track_first p es d n m :
  (∃ f, In f es ∧ is_file f = true ∧ path f = p) →
  (∀ f, In f es → is_file f = true → path f = p →
        sha256 f = d ∧ str_lower (suffix f) ∈ SUSPICIOUS_EXTENSIONS) →
  fold_left (track1 p) es (n, m, None) = (S n, m, Some (default "unknown"%string d)).
Proof.
  induction es as [|f rest IH]; intros (f0 & Hin & Hf0 & Hp0) Hall; [done|].
  cbn [fold_left]. unfold track1 at 2.
  destruct (is_file f && String.eqb (path f) p) eqn:Hrel.
  - apply andb_true_iff in Hrel as [Hf Hp%String.eqb_eq].
    destruct (Hall f (or_introl eq_refl) Hf Hp) as [Hd Hs].
    rewrite (bool_decide_eq_true_2 _ Hs), Hd.
    assert (∀ x, (match d with
                  | Some cur => if String.eqb cur (default "unknown"%string d)
                                then x else (S n, S m, Some cur)
                  | None => x end) = x) as ->.
    { intros x. destruct d; cbn; [by rewrite String.eqb_refl | done]. }
    apply track_quiet. intros f' Hin' Hf' Hp'.
    destruct (Hall f' (or_intror Hin') Hf' Hp') as [-> _].
    destruct d; cbn; auto.
  - apply IH.
    + destruct Hin as [<- | Hin]; [|eauto].
      rewrite Hf0, Hp0, String.eqb_refl in Hrel. done.
    + intros f' Hin'. apply Hall. by right.
Qed.

Lemma track_changed p es cur old n m :
  (∃ f, In f es ∧ is_file f = true ∧ path f = p) →
  (∀ f, In f es → is_file f = true → path f = p → sha256 f = Some cur) →
  cur ≠ old →
  fold_left (track1 p) es (n, m, Some old) = (n, S m, Some cur).
Proof.
  intros Hex Hall Hne. revert Hex Hall.
  induction es as [|f rest IH]; intros (f0 & Hin & Hf0 & Hp0) Hall; [done|].
  cbn [fold_left]. unfold track1 at 2.
  destruct (is_file f && String.eqb (path f) p) eqn:Hrel.
  - apply andb_true_iff in Hrel as [Hf Hp%String.eqb_eq].
    rewrite (Hall f (or_introl eq_refl) Hf Hp).
    apply String.eqb_neq in Hne. rewrite Hne.
    apply track_quiet. intros f' Hin' Hf' Hp'.
    right. apply Hall; auto. by right.
  - apply IH.
    + destruct Hin as [<- | Hin]; [|eauto].
      rewrite Hf0, Hp0, String.eqb_refl in Hrel. done.
    + intros f' Hin'. apply Hall. by right.
Qed.

(** C7. A suspicious file first met in a poll gives exactly one "new
    suspicious file" finding (score 0.7) and no "modified" finding; a
    further poll with the same digest gives neither; a poll in which its
    digest differs from the stored one gives exactly one "modified"
    finding (score 0.5) and stores the new digest. *)
Theorem file_polls (p : string) (d : option string) (changed : string)
    (dirs1 dirs2 dirs3 : list watched) (known : gmap string string) (w1 w2 w3 : World) :
  known !! p = None →
  sees dirs1 p d →
  sees dirs2 p d →
  sees dirs3 p (Some changed) →
  changed ≠ default "unknown"%string d →
  let poll1 := collect dirs1 known w1 in
  let poll2 := collect dirs2 poll1.1.2 w2 in
  let poll3 := collect dirs3 poll2.1.2 w3 in
  count_new p poll1.1.1 = 1%nat ∧ count_modified p poll1.1.1 = 0%nat ∧
  poll1.1.2 !! p = Some (default "unknown"%string d) ∧
  count_new p poll2.1.1 = 0%nat ∧ count_modified p poll2.1.1 = 0%nat ∧
  count_new p poll3.1.1 = 0%nat ∧ count_modified p poll3.1.1 = 1%nat ∧
  poll3.1.2 !! p = Some changed.
Proof.
  intros Hk [Hex1 Hall1] [Hex2 Hall2] [Hex3 Hall3] Hne. cbv zeta. unfold collect.
  pose proof (scan_paths_view p dirs1 [] known w1) as V1.
  unfold view at 2 in V1. rewrite Hk in V1. cbn [count_new count_modified List.filter length] in V1.
  rewrite (track_first p _ d) in V1 by done.
  destruct (scan_paths dirs1 [] known w1) as [[ev1 k1] w1']. cbn [fst snd] in *.
  injection V1 as V1n V1m V1k.
  pose proof (scan_paths_view p dirs2 [] k1 w2) as V2.
  unfold view at 2 in V2. rewrite V1k in V2. cbn [count_new count_modified List.filter length] in V2.
  rewrite track_quiet in V2.
  2:{ intros f Hin Hf Hp. destruct (Hall2 f Hin Hf Hp) as [-> _]. destruct d; cbn; auto. }
  destruct (scan_paths dirs2 [] k1 w2) as [[ev2 k2] w2']. cbn [fst snd] in *.
  injection V2 as V2n V2m V2k.
  pose proof (scan_paths_view p dirs3 [] k2 w3) as V3.
  unfold view at 2 in V3. rewrite V2k in V3. cbn [count_new count_modified List.filter length] in V3.
  rewrite (track_changed p _ changed) in V3; [|done| |done].
  2:{ intros f Hin Hf Hp. by destruct (Hall3 f Hin Hf Hp). }
  destruct (scan_paths dirs3 [] k2 w3) as [[ev3 k3] w3']. cbn [fst snd] in *.
  injection V3 as V3n V3m V3k.
  repeat split; assumption.
Qed.

Lemma file_polls_witness :
  let p := "/home/u/Downloads/setup.exe"%string in
  let poll1 := collect (downloads (Some "aa"%string)) ∅ fresh_world in
  let poll2 := collect (downloads (Some "aa"%string)) poll1.1.2 fresh_world in
  let poll3 := collect (downloads (Some "bb"%string)) poll2.1.2 fresh_world in
  count_new p poll1.1.1 = 1%nat ∧ count_modified p poll1.1.1 = 0%nat ∧
  poll1.1.2 !! p = Some (default "unknown"%string (Some "aa"%string)) ∧
  count_new p poll2.1.1 = 0%nat ∧ count_modified p poll2.1.1 = 0%nat ∧
  count_new p poll3.1.1 = 0%nat ∧ count_modified p poll3.1.1 = 1%nat ∧
  poll3.1.2 !! p = Some "bb"%string.
Proof.
  apply (file_polls "/home/u/Downloads/setup.exe" (Some "aa"%string) "bb"
           (downloads (Some "aa"%string)) (downloads (Some "aa"%string))
           (downloads (Some "bb"%string)) ∅ fresh_world fresh_world fresh_world).
  - reflexivity.
  - split.
    + exists (setup_exe (Some "aa"%string)). vm_compute. auto.
    + intros f [<- | [<- | []]] Hf Hp; [discriminate Hp|].
      split; [reflexivity|]. apply (bool_decide_unpack _). vm_compute. exact I.
  - split.
    + exists (setup_exe (Some "aa"%string)). vm_compute. auto.
    + intros f [<- | [<- | []]] Hf Hp; [discriminate Hp|].
      split; [reflexivity|]. apply (bool_decide_unpack _). vm_compute. exact I.
  - split.
    + exists (setup_exe (Some "bb"%string)). vm_compute. auto.
    + intros f [<- | [<- | []]] Hf Hp; [discriminate Hp|].
      split; [reflexivity|]. apply (bool_decide_unpack _). vm_compute. exact I.
  - discriminate.
Defined.

End Files.

(** ** Engine *)

Section Engine.
Import SentinelEngine EngineFacts.

Lemma pending_all_set c t s e w :
  (pending_all (set_task c t s e w) + pending (tasks s c) = pending_all s + pending t)%nat.
Proof.
  unfold pending_all, set_task. cbn [tasks].
  destruct c; rewrite fn_lookup_insert, !fn_lookup_insert_ne by done; lia.
Qed.

Lemma set_task_other c c' t s e w : c' ≠ c → tasks (set_task c t s e w) c' = tasks s c'.
Proof. intros. unfold set_task. cbn. by rewrite fn_lookup_insert_ne. Qed.

Lemma set_task_same c t s e w : tasks (set_task c t s e w) c = t.
Proof. unfold set_task. cbn. by rewrite fn_lookup_insert. Qed.







Lemma cycle_finish c events e w :
  routed c events = true →
  cycle c (Ok events) e w
  = finish c (length events) (analyze_loop events [] w) (add_events (length events) e).
Proof.
  intros Hr. unfold cycle, analyze_batch, finish. rewrite Hr.
  destruct (analyze_loop events [] w) as [[alerts|x] w1]; [|done].
  by destruct alerts.
Qed.

Lemma resume_saving c collected s event score rest alerts n :
  tasks s c = Saving event score rest alerts n →
  resume c collected s =
  if PyFloat.ge score ALERT_THRESHOLD then
    Some (set_task c (Alerting (fst (_create_alert event (world s))) rest alerts n) s (eng s)
            (snd (_create_alert event (world s))))
  else Some (next_event c rest alerts n s).
Proof.
  intros Ht. unfold resume. rewrite Ht.
  destruct (PyFloat.ge score ALERT_THRESHOLD); [|done].
  by destruct (_create_alert event (world s)).
Qed.

Lemma drain c rest : ∀ alerts n s,
  ∃ k s', run (replicate k (Resume c (Ok []))) (next_event c rest alerts n s) = Some s' ∧
          tasks s' c = Idle ∧
          (eng s', world s') = finish c n (analyze_loop rest alerts (world s)) (eng s) ∧
          polls s' = polls s ∧ stop s' = stop s ∧
          (∀ c', c' ≠ c → tasks s' c' = tasks s c').
Proof.
  induction rest as [|ev rest IH]; intros alerts n s.
  - exists 0%nat. eexists. split; [reflexivity|]. cbn [next_event].
    rewrite set_task_same. split; [done|]. split; [by destruct alerts|].
    split; [done|]. split; [done|]. intros. by apply set_task_other.
  - cbn [next_event analyze_loop]. unfold analyze_event.
    destruct (calculate_threat_score ev) as [score|x].
    + set (ev' := scored ev score).
      set (w1 := _save_event ev' _).
      set (s1 := set_task c (Saving ev' score rest alerts n) s (eng s) w1).
      assert (tasks s1 c = Saving ev' score rest alerts n) as Ht1 by apply set_task_same.
      pose proof (resume_saving c (Ok []) s1 _ _ _ _ _ Ht1) as Hr1.
      destruct (PyFloat.ge score ALERT_THRESHOLD) eqn:Hge.
      * set (s2 := set_task c (Alerting (_create_alert ev' (world s1)).1 rest alerts n)
                     s1 (eng s1) (_create_alert ev' (world s1)).2) in Hr1.
        destruct (IH (alerts ++ [(_create_alert ev' (world s1)).1]) n s2)
          as (k & s' & Hrun & Hidle & Hfin & Hp & Hst & Hoth).
        exists (S (S k)), s'. split; [|split; [done|split; [|split; [done|split; [done|]]]]].
        -- cbn [replicate run exec]. rewrite Hr1.
           assert (resume c (Ok []) s2
                   = Some (next_event c rest (alerts ++ [(_create_alert ev' (world s1)).1]) n s2))
             as -> by (unfold resume; subst s2; by rewrite set_task_same).
           exact Hrun.
        -- rewrite Hfin. subst s2 s1. cbn [world eng set_task].
           by destruct (_create_alert ev' w1).
        -- intros c' Hc'. rewrite (Hoth c' Hc'). subst s2 s1.
           by rewrite !set_task_other.
      * destruct (IH alerts n s1) as (k & s' & Hrun & Hidle & Hfin & Hp & Hst & Hoth).
        exists (S k), s'. split; [|split; [done|split; [|split; [done|split; [done|]]]]].
        -- cbn [replicate run exec]. by rewrite Hr1.
        -- by rewrite Hfin.
        -- intros c' Hc'. rewrite (Hoth c' Hc'). subst s1. by rewrite set_task_other.
    + exists 0%nat. eexists. split; [reflexivity|].
      rewrite set_task_same. split; [done|]. split; [done|].
      split; [done|]. split; [done|]. intros. by apply set_task_other.
Qed.

(** Left alone, a task resumed at the loop head goes through one cycle as
    [cycle] describes it and is back at the loop head. *)
Lemma task_cycle c collected s :
  tasks s c = Idle →
  is_running (eng s) = true →
  ∃ k s', run (Resume c collected :: replicate k (Resume c (Ok []))) s = Some s' ∧
          tasks s' c = Idle ∧
          (eng s', world s') = cycle c collected (eng s) (world s) ∧
          polls s' = S (polls s).
Proof.
  intros Ht Hrun. cbn [run exec]. unfold resume. rewrite Ht, Hrun.
  destruct collected as [events|x].
  - destruct (routed c events) eqn:Hr.
    + set (s0 := set_task c Idle _ _ _).
      destruct (drain c events [] (length events) s0)
        as (k & s' & Hk & Hidle & Hfin & Hp & _).
      exists k, s'. split; [done|]. split; [done|]. split; [|done].
      by rewrite Hfin, cycle_finish.
    + exists 0%nat. eexists. split; [reflexivity|]. cbn. by rewrite Hr.
  - exists 0%nat. eexists. split; [reflexivity|]. by rewrite set_task_same.
Qed.

(** A schedule that runs is a sequence of steps. *)
Lemma run_steps schedule s s' : run schedule s = Some s' → rtc step s s'.
Proof.
  revert s. induction schedule as [|l rest IH]; intros s; cbn [run].
  - intros [= <-]. apply rtc_refl.
  - destruct (exec l s) as [s1|] eqn:He; [|done].
    intros Hrun. eapply rtc_l; [by exists l | by apply IH].
Qed.





(** C8, as the code has it.  A batch of the system collector (one
    record per poll) is never routed to the analyzer: the cycle leaves the
    engine and the world, the database included, as they were. *)
Theorem system_batch_bypasses
    (events : list pydict) (m : SystemCollector.metrics) (e : engine) (w : World) :
  length (fst (SystemCollector.collect m w)) = 1%nat ∧
  routed System events = false ∧
  cycle System (Ok events) e w = (e, w) ∧
  (∀ s s', tasks s System = Idle → resume System (Ok events) s = Some s' →
           world s' = world s ∧ eng s' = eng s ∧
           (tasks s' System = Idle ∨ tasks s' System = Exited)).
Proof.
  assert (routed System events = false) as Hr by (by destruct events).
  split; [reflexivity|]. split; [done|]. split.
  - unfold cycle. by rewrite Hr.
  - intros s s' Ht. unfold resume. rewrite Ht, Hr.
    destruct (is_running (eng s)); intros [= <-]; cbn.
    + auto.
    + rewrite fn_lookup_insert. auto.
Qed.

(** C8 as stated fails: after the cycle of a system batch nothing has
    been handed to the sink and no table has a row. *)
Lemma system_batch_not_persisted :
  let batch := fst (SystemCollector.collect idle_host fresh_world) in
  let w1 := snd (SystemCollector.collect idle_host fresh_world) in
  length batch = 1%nat ∧
  snd (cycle System (Ok batch) engine0 w1) = w1 ∧
  calls w1 = [] ∧ security_events (db w1) = [] ∧ alerts (db w1) = [].
Proof. vm_compute. repeat split. Qed.
End Engine.

(** ** Scorer and analyzer, further properties *)

Section ScorerExtra.

Lemma SFleb_trans (x y z : spec_float) :
  SFleb x y = true → SFleb y z = true → SFleb x z = true.
Proof.
  unfold SFleb, SFcompare.
  destruct x as [[]|[]| |[] m1 e1], y as [[]|[]| |[] m2 e2], z as [[]|[]| |[] m3 e3];
    try (intros; reflexivity); try (intros Hx; discriminate Hx);
    try (intros _ Hx; discriminate Hx).
  all: rewrite !Pos.compare_cont_spec.
  all: destruct (Z.compare_spec e1 e2), (Z.compare_spec e2 e3), (Z.compare_spec e1 e3);
    try (intros; reflexivity); try (intros Hx; discriminate Hx);
    try (intros _ Hx; discriminate Hx); try (exfalso; lia).
  all: destruct (Pos.compare_spec m1 m2), (Pos.compare_spec m2 m3), (Pos.compare_spec m1 m3);
    cbn; try (intros; reflexivity); try (intros Hx; discriminate Hx);
    try (intros _ Hx; discriminate Hx); try (exfalso; lia).
Qed.

Lemma ge_mono (c s1 s2 : float) :
  PyFloat.le s1 s2 = true → PyFloat.ge s1 c = true → PyFloat.ge s2 c = true.
Proof.
  unfold PyFloat.le, PyFloat.ge. rewrite !leb_spec. intros H1 H2.
  exact (SFleb_trans _ _ _ H2 H1).
Qed.

(** X1.  The severity is monotone in the score: a score that is at least
    as large (as floats compare) never gets a lower severity level. *)
Theorem severity_monotone (s1 s2 : float) :
  PyFloat.le s1 s2 = true →
  (Severity_rank (get_severity_from_score s1) ≤ Severity_rank (get_severity_from_score s2))%nat.
Proof.
  intros Hle. unfold get_severity_from_score.
  pose proof (ge_mono 0.7 s1 s2 Hle) as H7.
  pose proof (ge_mono 0.5 s1 s2 Hle) as H5.
  pose proof (ge_mono 0.3 s1 s2 Hle) as H3.
  destruct (bands_nested s2) as [N75 N53].
  destruct (PyFloat.ge s1 0.7); [rewrite H7 by done; done|].
  destruct (PyFloat.ge s1 0.5).
  { rewrite H5 by done. destruct (PyFloat.ge s2 0.7); cbn; lia. }
  destruct (PyFloat.ge s1 0.3).
  { rewrite H3 by done. destruct (PyFloat.ge s2 0.7), (PyFloat.ge s2 0.5); cbn; lia. }
  destruct (PyFloat.ge s2 0.7), (PyFloat.ge s2 0.5), (PyFloat.ge s2 0.3); cbn; lia.
Qed.

Lemma severity_monotone_witness :
  (Severity_rank (get_severity_from_score 0.3) ≤ Severity_rank (get_severity_from_score 0.69))%nat.
Proof. apply (severity_monotone 0.3 0.69). reflexivity. Defined.



Lemma dict_get_insert (d : pydict) (k : string) (v dflt : pyval) :
  dict_get (<[k := v]> d) k dflt = v.
Proof. unfold dict_get. by rewrite lookup_insert_eq. Qed.

Lemma dict_get_insert_ne (d : pydict) (k k' : string) (v dflt : pyval) :
  k ≠ k' → dict_get (<[k := v]> d) k' dflt = dict_get d k' dflt.
Proof. intros. unfold dict_get. by rewrite lookup_insert_ne. Qed.

Lemma dict_get_delete (d : pydict) (k : string) (dflt : pyval) :
  dict_get (delete k d) k dflt = dflt.
Proof. unfold dict_get. by rewrite lookup_delete_eq. Qed.

Lemma dict_get_delete_ne (d : pydict) (k k' : string) (dflt : pyval) :
  k ≠ k' → dict_get (delete k d) k' dflt = dict_get d k' dflt.
Proof. intros. unfold dict_get. by rewrite lookup_delete_ne. Qed.


(** X3.  A prior score that is not above zero and a connection count of
    at most 50 leave the result of the scorer as it is without them. *)
Theorem neutral_prior_and_count (event : pydict) (f : float) (d : gmap string atom) (z : Z) :
  PyFloat.gt f 0 = false →
  d !! "total_connections" = Some (AInt z) →
  z ≤ 50 →
  calculate_threat_score
    (<["threat_score" := Atom (AFloat f)]> (<["raw_data" := Dict d]> event))
  = calculate_threat_score (delete "threat_score" (delete "raw_data" event)).
Proof.
  intros Hf Hd Hz. unfold calculate_threat_score. cbv zeta.
  rewrite !dict_get_insert, !(dict_get_insert_ne _ "threat_score") by done.
  rewrite !dict_get_insert, !(dict_get_insert_ne _ "raw_data") by done.
  rewrite !dict_get_delete, !(dict_get_delete_ne _ "threat_score") by done.
  rewrite !dict_get_delete, !(dict_get_delete_ne _ "raw_data") by done.
  destruct (base_score _) as [b|]; [|done]. cbn [mbind result_bind average_existing].
  rewrite Hf. change (PyFloat.gt 0 0) with false. cbv iota.
  cbn [mbind result_bind].
  destruct (py_lower (dict_get event "title" _)) as [t|]; [|done].
  cbn [mbind result_bind].
  destruct (py_lower _) as [de|]; [|done]. cbn [mbind result_bind connection_bonus].
  rewrite Hd, lookup_empty. cbn [default from_option id over_50 mbind result_bind].
  destruct (Z.ltb_spec 50 z); [lia|]. reflexivity.
Qed.

Lemma neutral_prior_and_count_witness :
  calculate_threat_score
    (<["threat_score" := Atom (AFloat (-1))]>
       (<["raw_data" := Dict {[ "total_connections"%string := AInt 50 ]}]> mimikatz_example))
  = calculate_threat_score (delete "threat_score" (delete "raw_data" mimikatz_example)).
Proof.
  apply (neutral_prior_and_count mimikatz_example (-1)
           {[ "total_connections"%string := AInt 50 ]} 50).
  - reflexivity.
  - reflexivity.
  - lia.
Defined.

(** X4.  On an event the scorer scores, [analyze_event] returns an alert
    exactly when the severity of the score is high or critical; the alert
    carries that severity and score, the identifier and title of the
    event, and the status new. *)
Theorem alert_iff_high_or_critical (event : pydict) (w : World) (s : float) :
  calculate_threat_score event = Ok s →
  let r := fst (analyze_event event w) in
  ((∃ alert, r = Ok (Some alert)) ↔
     get_severity_from_score s = HIGH ∨ get_severity_from_score s = CRITICAL) ∧
  (∀ alert, r = Ok (Some alert) →
     alert !! "severity" = Some (Atom (AStr (Severity_value (get_severity_from_score s)))) ∧
     alert !! "threat_score" = Some (Atom (AFloat s)) ∧
     alert !! "event_id" = Some (dict_get event "id" (AStr "")) ∧
     alert !! "title" = Some (dict_get event "title" (AStr "Security Alert")) ∧
     alert !! "status" = Some (Atom (AStr "new"))).
Proof.
  intros Hs r. subst r.
  destruct (bands_nested s) as [N75 _].
  unfold analyze_event. rewrite Hs. change ALERT_THRESHOLD with 0.5%float.
  destruct (PyFloat.ge s 0.5) eqn:Hge.
  - destruct (_create_alert _ _) as [alert w1] eqn:Hca. cbn [fst].
    split.
    + split; [intros _|eauto].
      unfold get_severity_from_score. rewrite Hge.
      destruct (PyFloat.ge s 0.7); auto.
    + intros a [= <-].
      replace alert with (fst (_create_alert (scored event s)
        (_save_event (scored event s)
           (logger (LogEventAnalyzed (dict_get (scored event s) "title" (AStr "Unknown")) s
              (Severity_value (get_severity_from_score s))) w)))) by (by rewrite Hca).
      rewrite create_alert_fst. unfold scored.
      split; [|split; [|split; [|split]]].
      * change (alert_dict ?e ?i ?t !! "severity")
          with (Some (dict_get e "severity" (AStr "medium"))).
        by rewrite dict_get_insert.
      * change (alert_dict ?e ?i ?t !! "threat_score")
          with (Some (dict_get e "threat_score" (AFloat 0))).
        by rewrite dict_get_insert_ne, dict_get_insert by done.
      * change (alert_dict ?e ?i ?t !! "event_id") with (Some (dict_get e "id" (AStr ""))).
        by rewrite !dict_get_insert_ne by done.
      * change (alert_dict ?e ?i ?t !! "title")
          with (Some (dict_get e "title" (AStr "Security Alert"))).
        by rewrite !dict_get_insert_ne by done.
      * reflexivity.
  - cbn [fst]. split; [|intros a [=]].
    split; [intros [? [=]]|].
    unfold get_severity_from_score. rewrite Hge.
    destruct (PyFloat.ge s 0.7); [by specialize (N75 eq_refl)|].
    destruct (PyFloat.ge s 0.3); intros [?|?]; discriminate.
Qed.

Lemma alert_iff_high_or_critical_witness :
  let r := fst (analyze_event port_scan_example fresh_world) in
  ((∃ alert, r = Ok (Some alert)) ↔
     get_severity_from_score 0.7 = HIGH ∨ get_severity_from_score 0.7 = CRITICAL) ∧
  (∀ alert, r = Ok (Some alert) →
     alert !! "severity" = Some (Atom (AStr (Severity_value (get_severity_from_score 0.7)))) ∧
     alert !! "threat_score" = Some (Atom (AFloat 0.7)) ∧
     alert !! "event_id" = Some (dict_get port_scan_example "id" (AStr "")) ∧
     alert !! "title" = Some (dict_get port_scan_example "title" (AStr "Security Alert")) ∧
     alert !! "status" = Some (Atom (AStr "new"))).
Proof.
  apply (alert_iff_high_or_critical port_scan_example fresh_world 0.7).
  vm_compute. reflexivity.
Defined.

End ScorerExtra.

(** ** Batches *)

Section Batch.

Lemma analyze_loop_app l1 l2 alerts w :
  analyze_loop (l1 ++ l2) alerts w =
  match analyze_loop l1 alerts w with
  | (Ok a, w1) => analyze_loop l2 a w1
  | (Raise x, w1) => (Raise x, w1)
  end.
Proof.
  revert alerts w. induction l1 as [|ev l1 IH]; intros alerts w; cbn [app analyze_loop]; [done|].
  destruct (analyze_event ev w) as [[[a|]|x] w1]; by rewrite ?IH.
Qed.

(** One scorable observation: what [analyze_event] returns and what it
    adds to the trace of persistence calls. *)
Lemma analyze_event_scorable ev w :
  scorable ev = true →
  ∃ s, calculate_threat_score ev = Ok s ∧
       saves (snd (analyze_event ev w)) = S (saves w) ∧
       if alertable ev then
         (∃ alert, fst (analyze_event ev w) = Ok (Some alert) ∧
                   alert !! "event_id" = Some (dict_get ev "id" (AStr ""))) ∧
         alert_writes (snd (analyze_event ev w)) = S (alert_writes w)
       else fst (analyze_event ev w) = Ok None ∧
            alert_writes (snd (analyze_event ev w)) = alert_writes w.
Proof.
  intros [s Hs]%scorable_iff. exists s. split; [done|].
  unfold alertable, analyze_event, saves, alert_writes. rewrite Hs.
  destruct (PyFloat.ge s ALERT_THRESHOLD).
  - destruct (_create_alert _ _) as [alert w1] eqn:Hca. cbn [fst snd].
    assert (w1 = snd (_create_alert (scored ev s)
      (_save_event (scored ev s)
         (logger (LogEventAnalyzed (dict_get (scored ev s) "title" (AStr "Unknown")) s
            (Severity_value (get_severity_from_score s))) w)))) as Hw by (by rewrite Hca).
    assert (alert = fst (_create_alert (scored ev s)
      (_save_event (scored ev s)
         (logger (LogEventAnalyzed (dict_get (scored ev s) "title" (AStr "Unknown")) s
            (Severity_value (get_severity_from_score s))) w)))) as Ha by (by rewrite Hca).
    rewrite Hw, create_alert_calls, save_event_calls. cbn [calls logger].
    rewrite !List.filter_app, !length_app. cbn.
    split; [lia|]. split; [|lia].
    eexists. split; [done|]. rewrite Ha, create_alert_fst.
    change (alert_dict ?e ?i ?t !! "event_id") with (Some (dict_get e "id" (AStr ""))).
    unfold scored. by rewrite !dict_get_insert_ne by done.
  - cbn [fst snd]. rewrite save_event_calls. cbn [calls logger].
    rewrite !List.filter_app, !length_app. cbn. split; [lia|]. split; [done|lia].
Qed.

Lemma analyze_loop_scorable events : ∀ alerts w,
  Forall (λ ev, scorable ev = true) events →
  ∃ new, fst (analyze_loop events alerts w) = Ok (alerts ++ new) ∧
         length new = length (List.filter alertable events) ∧
         alert_event_ids new = event_ids (List.filter alertable events) ∧
         saves (snd (analyze_loop events alerts w)) = (saves w + length events)%nat ∧
         alert_writes (snd (analyze_loop events alerts w)) = (alert_writes w + length new)%nat.
Proof.
  induction events as [|ev rest IH]; intros alerts w Hall.
  - exists []. cbn. rewrite app_nil_r. repeat split; lia.
  - inversion Hall as [|? ? Hev Hrest]; subst. cbn [analyze_loop List.filter].
    destruct (analyze_event_scorable ev w Hev) as (s & Hs & Hsv & Hal).
    destruct (alertable ev).
    + destruct Hal as [(alert & Hr & Hid) Haw].
      destruct (analyze_event ev w) as [r w1]. cbn [fst snd] in *. subst r.
      destruct (IH (alerts ++ [alert]) w1 Hrest) as (new & H1 & H2 & H3 & H4 & H5).
      exists (alert :: new). rewrite H1, <- app_assoc. cbn [app length map alert_event_ids event_ids].
      split; [done|]. split; [by rewrite H2|]. split.
      * f_equal; [done|]. exact H3.
      * rewrite H4, H5, Hsv, Haw. cbn [length]. split; lia.
    + destruct Hal as [Hr Haw].
      destruct (analyze_event ev w) as [r w1]. cbn [fst snd] in *. subst r.
      destruct (IH alerts w1 Hrest) as (new & H1 & H2 & H3 & H4 & H5).
      exists new. rewrite H1, H4, H5, Hsv, Haw. cbn [length]. repeat split; try done; lia.
Qed.

(** X5.  On a batch of scorable events [analyze_batch] raises nothing; it
    returns one alert for each event at or above the threshold, in the
    order of the events and pointing to their identifiers, calls the save
    once per event and the alert write once per alert. *)
Theorem analyze_batch_counts (events : list pydict) (w : World) :
  Forall (λ ev, scorable ev = true) events →
  ∃ alerts,
    fst (analyze_batch events w) = Ok alerts ∧
    length alerts = length (List.filter alertable events) ∧
    alert_event_ids alerts = event_ids (List.filter alertable events) ∧
    saves (snd (analyze_batch events w)) = (saves w + length events)%nat ∧
    alert_writes (snd (analyze_batch events w)) = (alert_writes w + length alerts)%nat.
Proof.
  intros Hall. unfold analyze_batch.
  destruct (analyze_loop_scorable events [] w Hall) as (new & H1 & H2 & H3 & H4 & H5).
  destruct (analyze_loop events [] w) as [r w1]. cbn [fst snd app] in *. subst r.
  exists new. destruct new; cbn [fst snd]; repeat split; done.
Qed.

Lemma analyze_batch_counts_witness :
  ∃ alerts,
    fst (analyze_batch [port_scan_example; usb_example; mimikatz_example] fresh_world)
      = Ok alerts ∧
    length alerts
      = length (List.filter alertable [port_scan_example; usb_example; mimikatz_example]) ∧
    alert_event_ids alerts
      = event_ids (List.filter alertable [port_scan_example; usb_example; mimikatz_example]) ∧
    saves (snd (analyze_batch [port_scan_example; usb_example; mimikatz_example] fresh_world))
      = (saves fresh_world + 3)%nat ∧
    alert_writes
      (snd (analyze_batch [port_scan_example; usb_example; mimikatz_example] fresh_world))
      = (alert_writes fresh_world + length alerts)%nat.
Proof.
  apply (analyze_batch_counts [port_scan_example; usb_example; mimikatz_example] fresh_world).
  repeat (constructor; [vm_compute; reflexivity|]). constructor.
Defined.

(** X6.  An event the scorer raises on ends the batch: the exception
    propagates, the alerts of the events before it are lost to the caller,
    yet those events were saved and their alerts written; nothing is done
    for the failing event or the events after it. *)
Theorem analyze_batch_partial_failure
    (good rest : list pydict) (bad : pydict) (x : exn) (w : World) :
  Forall (λ ev, scorable ev = true) good →
  calculate_threat_score bad = Raise x →
  analyze_batch (good ++ bad :: rest) w = (Raise x, snd (analyze_loop good [] w)) ∧
  saves (snd (analyze_loop good [] w)) = (saves w + length good)%nat ∧
  alert_writes (snd (analyze_loop good [] w))
    = (alert_writes w + length (List.filter alertable good))%nat.
Proof.
  intros Hall Hbad.
  destruct (analyze_loop_scorable good [] w Hall) as (new & H1 & H2 & H3 & H4 & H5).
  split; [|split; [done|by rewrite H5, H2]].
  unfold analyze_batch. rewrite analyze_loop_app.
  destruct (analyze_loop good [] w) as [r w1]. cbn [fst snd app] in *. subst r.
  cbn [analyze_loop]. unfold analyze_event. by rewrite Hbad.
Qed.

Lemma analyze_batch_partial_failure_witness :
  analyze_batch ([port_scan_example] ++ untitled_example :: [mimikatz_example]) fresh_world
    = (Raise AttributeError, snd (analyze_loop [port_scan_example] [] fresh_world)) ∧
  saves (snd (analyze_loop [port_scan_example] [] fresh_world)) = (saves fresh_world + 1)%nat ∧
  alert_writes (snd (analyze_loop [port_scan_example] [] fresh_world))
    = (alert_writes fresh_world + length (List.filter alertable [port_scan_example]))%nat.
Proof.
  apply (analyze_batch_partial_failure [port_scan_example] [mimikatz_example]
           untitled_example AttributeError fresh_world).
  - constructor; [vm_compute; reflexivity | constructor].
  - vm_compute. reflexivity.
Defined.

Lemma create_alert_clock (event : pydict) (w : World) :
  clock (snd (_create_alert event w)) = clock w.
Proof.
  unfold _create_alert, get_session, add_commit. cbn.
  destruct (session_factory (db w)); cbn; [|done].
  destruct (commit_faults (db w)) as [|[] ?]; cbn; try done; by destruct (py_upper _).
Qed.

Lemma delete_id_alert_dict (event : pydict) (id1 id2 ts : string) :
  delete "id" (alert_dict event id1 ts) = delete "id" (alert_dict event id2 ts).
Proof. unfold alert_dict. cbn [list_to_map foldr fst snd curry]. by rewrite !delete_insert_eq. Qed.

Lemma analyze_event_sink_independent ev w1 w2 :
  clock w1 = clock w2 →
  clock (snd (analyze_event ev w1)) = clock (snd (analyze_event ev w2)) ∧
  match fst (analyze_event ev w1), fst (analyze_event ev w2) with
  | Ok (Some a1), Ok (Some a2) => delete "id" a1 = delete "id" a2
  | Ok None, Ok None => True
  | Raise x, Raise y => x = y
  | _, _ => False
  end.
Proof.
  intros Hc. unfold analyze_event.
  destruct (calculate_threat_score ev) as [s|x]; [|done].
  destruct (PyFloat.ge s ALERT_THRESHOLD).
  - set (l := LogEventAnalyzed _ _ _).
    pose proof (create_alert_fst (scored ev s) (_save_event (scored ev s) (logger l w1))) as F1.
    pose proof (create_alert_fst (scored ev s) (_save_event (scored ev s) (logger l w2))) as F2.
    pose proof (create_alert_clock (scored ev s) (_save_event (scored ev s) (logger l w1))) as C1.
    pose proof (create_alert_clock (scored ev s) (_save_event (scored ev s) (logger l w2))) as C2.
    destruct (_create_alert _ (_save_event _ (logger l w1))) as [a1 w1'].
    destruct (_create_alert _ (_save_event _ (logger l w2))) as [a2 w2'].
    cbn [fst snd] in *. subst a1 a2. rewrite C1, C2, !save_event_clock. cbn [clock logger].
    split; [done|]. unfold now_isoformat. rewrite !save_event_clock. cbn [clock logger].
    rewrite Hc. apply delete_id_alert_dict.
  - cbn [fst snd]. rewrite !save_event_clock. done.
Qed.

Lemma analyze_loop_sink_independent events : ∀ a1 a2 w1 w2,
  clock w1 = clock w2 →
  map (λ a : pydict, delete "id" a) a1 = map (λ a : pydict, delete "id" a) a2 →
  strip_ids (fst (analyze_loop events a1 w1)) = strip_ids (fst (analyze_loop events a2 w2)).
Proof.
  induction events as [|ev rest IH]; intros a1 a2 w1 w2 Hc Ha; cbn [analyze_loop].
  - cbn. by rewrite Ha.
  - destruct (analyze_event_sink_independent ev w1 w2 Hc) as [Hc' Hr].
    destruct (analyze_event ev w1) as [[[b1|]|x1] w1'],
             (analyze_event ev w2) as [[[b2|]|x2] w2']; cbn [fst snd] in *; try done.
    + apply IH; [done|]. rewrite !map_app. cbn. by rewrite Ha, Hr.
    + by apply IH.
    + by subst.
Qed.

(** X7.  What [analyze_batch] returns does not depend on the database:
    with the same clock, a healthy, a failing and an uninitialised manager
    give the same alerts up to their freshly drawn identifiers, and the
    same exception. *)
Theorem alerts_independent_of_sink (events : list pydict) (w1 w2 : World) :
  clock w1 = clock w2 →
  strip_ids (fst (analyze_batch events w1)) = strip_ids (fst (analyze_batch events w2)).
Proof.
  intros Hc. pose proof (analyze_loop_sink_independent events [] [] w1 w2 Hc eq_refl) as H.
  unfold analyze_batch.
  destruct (analyze_loop events [] w1) as [[a1|x1] w1'],
           (analyze_loop events [] w2) as [[a2|x2] w2']; cbn [fst] in *; try done.
  by destruct a1, a2.
Qed.

Lemma alerts_independent_of_sink_witness :
  strip_ids (fst (analyze_batch [port_scan_example; mimikatz_example] fresh_world))
  = strip_ids (fst (analyze_batch [port_scan_example; mimikatz_example] offline_world)).
Proof.
  apply (alerts_independent_of_sink [port_scan_example; mimikatz_example]
           fresh_world offline_world).
  reflexivity.
Defined.
End Batch.

(** ** Network collector, further properties *)

Section NetworkExtra.
Import NetworkCollector NetworkFacts NetworkCounts.

Lemma check_suspicious_port_some conn w :
  is_Some (fst (_check_suspicious_port conn w))
  ↔ remote_suspicious conn || local_suspicious conn = true.
Proof.
  unfold _check_suspicious_port, check_local, remote_suspicious, local_suspicious.
  destruct (raddr conn) as [r|]; [destruct (decide (port r ∈ SUSPICIOUS_PORTS)) as [Hr|Hr]|].
  - rewrite (bool_decide_eq_true_2 _ Hr). cbn. split; eauto.
  - rewrite (bool_decide_eq_false_2 _ Hr). cbn [orb].
    destruct (laddr conn) as [l|]; [destruct (decide (port l ∈ SUSPICIOUS_PORTS)) as [Hl|Hl]|].
    + rewrite (bool_decide_eq_true_2 _ Hl). cbn. split; eauto.
    + rewrite (bool_decide_eq_false_2 _ Hl). cbn. split; [intros [? [=]]|done].
    + cbn. split; [intros [? [=]]|done].
  - cbn [orb].
    destruct (laddr conn) as [l|]; [destruct (decide (port l ∈ SUSPICIOUS_PORTS)) as [Hl|Hl]|].
    + rewrite (bool_decide_eq_true_2 _ Hl). cbn. split; eauto.
    + rewrite (bool_decide_eq_false_2 _ Hl). cbn. split; [intros [? [=]]|done].
    + cbn. split; [intros [? [=]]|done].
Qed.

Lemma collect_loop_length connections : ∀ events ports w,
  length (collect_loop connections events ports w).1.1
  = (length events + length (List.filter flagged connections))%nat.
Proof.
  induction connections as [|conn rest IH]; intros events ports w;
    cbn [collect_loop List.filter]; [cbn; lia|].
  unfold flagged at 1. fold (established conn).
  destruct (established conn); cbn [negb andb]; [|apply IH].
  pose proof (check_suspicious_port_some conn w) as Hs.
  destruct (_check_suspicious_port conn w) as [[ev|] w1]; cbn [fst] in Hs.
  - rewrite IH, length_app. cbn [length].
    destruct (remote_suspicious conn || local_suspicious conn); cbn [length]; [lia|].
    destruct Hs as [Hs _]. by specialize (Hs (mk_is_Some _ _ eq_refl)).
  - rewrite IH.
    destruct (remote_suspicious conn || local_suspicious conn); cbn [length]; [|lia].
    destruct Hs as [_ Hs]. by destruct (Hs eq_refl).
Qed.

(** X8.  One poll of the network collector yields one finding for each
    established connection with a suspicious port at either end, plus one
    if the port-scan test fires; without access to the connections it
    yields none. *)
Theorem network_findings_count (connections : list sconn) (w : World) :
  length (fst (collect (Some connections) w))
  = (length (List.filter flagged connections) + if scan_fires connections then 1 else 0)%nat
  ∧ fst (collect None w) = [].
Proof.
  split; [|reflexivity]. unfold collect, scan_fires.
  pose proof (collect_loop_length connections [] [] w) as Hl.
  destruct (collect_loop_spec connections [] [] w) as (Hp & _ & _).
  destruct (collect_loop connections [] [] w) as [[events ports] w1].
  cbn [fst snd length app] in *. subst ports.
  pose proof (check_port_scan_found (remote_ports_of connections) w1) as Hf.
  destruct (_check_port_scan _ w1) as [found w2]. cbn [fst] in Hf. subst found.
  destruct (_ && _); cbn [fst]; rewrite ?length_app; cbn [length]; lia.
Qed.
End NetworkExtra.

(** ** What the analyzer makes of the findings *)

Section Findings.

(** The scorer on an event whose fields are known. *)
Lemma calculate_threat_score_fields (event : pydict) ty f t d rd :
  dict_get event "event_type" (AStr "") = Atom (AStr ty) →
  dict_get event "threat_score" (AFloat 0) = Atom (AFloat f) →
  dict_get event "title" (AStr "") = Atom (AStr t) →
  dict_get event "description" (AStr "") = Atom (AStr d) →
  dict_get event "raw_data" (Dict ∅) = Dict rd →
  calculate_threat_score event =
  connection_bonus
    (keyword_loop critical_keywords (str_lower t +:+ " " +:+ str_lower d)
       (if PyFloat.gt f 0 then ((default 0.3 (EVENT_BASE_SCORES !! ty) + f) / 2)%float
        else default 0.3%float (EVENT_BASE_SCORES !! ty)))
    (Dict rd) ≫= λ s, Ok (clamp_round s).
Proof.
  intros H1 H2 H3 H4 H5. unfold calculate_threat_score. cbv zeta.
  rewrite H1, H2, H3, H4, H5.
  cbn [base_score average_existing py_lower mbind result_bind].
  by destruct (PyFloat.gt f 0).
Qed.

Lemma alerts_on_intro (event : pydict) (s : float) :
  calculate_threat_score event = Ok s → PyFloat.ge s ALERT_THRESHOLD = true → alerts_on event.
Proof.
  intros Hs Hge. split; [apply scorable_iff; eauto|]. unfold alertable. by rewrite Hs.
Qed.

(** A finding whose evidence has no connection count: the score follows
    from the kind, the prior score and the presence of a keyword. *)
Ltac finding_alerts ev :=
  let H := fresh "H" in
  pose proof (calculate_threat_score_fields ev
    _ _ _ _ _ eq_refl eq_refl eq_refl eq_refl eq_refl) as H;
  revert H; rewrite keyword_loop_spec; destruct (existsb _ _); intros H;
  (eapply alerts_on_intro; [rewrite H; vm_compute; reflexivity | vm_compute; reflexivity]).

Lemma remote_finding_alerts conn r id ts :
  alerts_on (NetworkCollector.remote_finding conn r id ts).
Proof. finding_alerts (NetworkCollector.remote_finding conn r id ts). Qed.

Lemma local_finding_alerts conn l id ts :
  alerts_on (NetworkCollector.local_finding conn l id ts).
Proof. finding_alerts (NetworkCollector.local_finding conn l id ts). Qed.

Lemma new_file_finding_alerts f e id ts :
  alerts_on (FileCollector.new_file_finding f e id ts).
Proof. finding_alerts (FileCollector.new_file_finding f e id ts). Qed.

Lemma modified_finding_alerts f o c id ts :
  alerts_on (FileCollector.modified_finding f o c id ts).
Proof. finding_alerts (FileCollector.modified_finding f o c id ts). Qed.

Lemma scan_finding_alerts u t id ts :
  alerts_on (NetworkCollector.scan_finding u t id ts).
Proof.
  pose proof (calculate_threat_score_fields (NetworkCollector.scan_finding u t id ts)
    _ _ _ _ _ eq_refl eq_refl eq_refl eq_refl eq_refl) as H.
  revert H. rewrite keyword_loop_spec. unfold connection_bonus.
  match goal with |- context [default (AInt 0) ?l] =>
    change (default (AInt 0) l) with (AInt (Z.of_nat t)) end.
  cbn [over_50 mbind result_bind].
  destruct (existsb _ _), (50 <? Z.of_nat t); intros H;
    (eapply alerts_on_intro; [rewrite H; vm_compute; reflexivity | vm_compute; reflexivity]).
Qed.

Lemma network_collect_alerts (connections : option (list NetworkCollector.sconn)) (w : World) :
  Forall alerts_on (fst (NetworkCollector.collect connections w)).
Proof.
  destruct connections as [connections|]; [|constructor].
  unfold NetworkCollector.collect.
  assert (∀ events ports w0, Forall alerts_on events →
            Forall alerts_on (NetworkCollector.collect_loop connections events ports w0).1.1)
    as Hloop.
  { induction connections as [|conn rest IH]; intros events ports w0 Hev;
      cbn [NetworkCollector.collect_loop]; [done|].
    destruct (negb _); [by apply IH|].
    destruct (NetworkCollector._check_suspicious_port conn w0) as [found w1] eqn:Hc.
    apply IH. destruct found as [ev|]; [|done].
    apply Forall_app. split; [done|]. apply Forall_singleton.
    revert Hc. unfold NetworkCollector._check_suspicious_port, NetworkCollector.check_local.
    repeat case_match; intros [= <- <-]; try done;
      auto using remote_finding_alerts, local_finding_alerts. }
  specialize (Hloop [] [] w (Forall_nil _)).
  destruct (NetworkCollector.collect_loop connections [] [] w) as [[events ports] w1].
  cbn [fst] in Hloop.
  destruct (NetworkCollector._check_port_scan ports w1) as [found w2] eqn:Hs.
  destruct found as [ev|]; cbn [fst]; [|done].
  apply Forall_app. split; [done|]. apply Forall_singleton.
  revert Hs. unfold NetworkCollector._check_port_scan.
  repeat case_match; intros [= <- <-]. apply scan_finding_alerts.
Qed.

Lemma file_collect_alerts (dirs : list FileCollector.watched)
    (known : gmap string string) (w : World) :
  Forall alerts_on (FileCollector.collect dirs known w).1.1.
Proof.
  unfold FileCollector.collect.
  assert (∀ found k w0 f,
            (FileCollector._check_extension f k w0).1.1 = Some found → alerts_on found) as Hext.
  { intros found k w0 f. unfold FileCollector._check_extension.
    repeat case_match; cbn; intros [= <-]. apply new_file_finding_alerts. }
  assert (∀ found k w0 f,
            (FileCollector._check_file_change f k w0).1.1 = Some found → alerts_on found) as Hchg.
  { intros found k w0 f. unfold FileCollector._check_file_change.
    repeat case_match; cbn; intros [= <-]. apply modified_finding_alerts. }
  assert (∀ entries events k w0, Forall alerts_on events →
            Forall alerts_on (FileCollector.scan_entries entries events k w0).1.1) as Hentries.
  { induction entries as [|f rest IH]; intros events k w0 Hev;
      cbn [FileCollector.scan_entries]; [done|].
    destruct (negb _); [by apply IH|].
    pose proof (λ found, Hext found k w0 f) as Hext'.
    destruct (FileCollector._check_extension f k w0) as [[e1 k1] w1]. cbn [fst] in Hext'.
    pose proof (λ found, Hchg found k1 w1 f) as Hchg'.
    destruct (FileCollector._check_file_change f k1 w1) as [[e2 k2] w2]. cbn [fst] in Hchg'.
    apply IH.
    assert (Forall alerts_on (FileCollector.append_found events e1)) as H1.
    { destruct e1 as [ev|]; cbn; [|done]. apply Forall_app. split; [done|].
      apply Forall_singleton. by eapply Hext'. }
    destruct e2 as [ev|]; cbn; [|done]. apply Forall_app. split; [done|].
    apply Forall_singleton. by eapply Hchg'. }
  assert (∀ events k w0, Forall alerts_on events →
            Forall alerts_on (FileCollector.scan_paths dirs events k w0).1.1) as Hpaths.
  { induction dirs as [|d rest IH]; intros events k w0 Hev;
      cbn [FileCollector.scan_paths]; [done|].
    destruct (negb _); [by apply IH|].
    destruct (FileCollector.listing d) as [entries|]; [|by apply IH].
    specialize (Hentries entries events k w0 Hev).
    destruct (FileCollector.scan_entries entries events k w0) as [[e1 k1] w1].
    by apply IH. }
  by apply Hpaths.
Qed.

(** X9.  Every finding of the network and file collectors is scorable
    and scores at or above the threshold: analysing the findings of a poll
    raises nothing and returns one alert per finding. *)
Theorem every_finding_alerts
    (connections : option (list NetworkCollector.sconn)) (dirs : list FileCollector.watched)
    (known : gmap string string) (w1 w2 w : World) :
  let findings := fst (NetworkCollector.collect connections w1)
                  ++ (FileCollector.collect dirs known w2).1.1 in
  Forall (λ ev, scorable ev = true) findings ∧
  ∃ alerts, fst (analyze_batch findings w) = Ok alerts ∧ length alerts = length findings.
Proof.
  cbv zeta.
  assert (Forall alerts_on (fst (NetworkCollector.collect connections w1)
                            ++ (FileCollector.collect dirs known w2).1.1)) as Hall
    by (apply Forall_app; split; [apply network_collect_alerts | apply file_collect_alerts]).
  set (findings := _ ++ _) in *.
  assert (Forall (λ ev, scorable ev = true) findings) as Hsc
    by (eapply List.Forall_impl; [|exact Hall]; by intros ? [? ?]).
  split; [done|].
  destruct (analyze_loop_scorable findings [] w Hsc) as (alerts & Hr & Hlen & _).
  exists alerts. split.
  { unfold analyze_batch. destruct (analyze_loop findings [] w) as [res w']. cbn [fst app] in Hr.
    subst res. by destruct alerts. }
  rewrite Hlen. f_equal.
  clear -Hall. induction Hall as [|ev l [_ Ha] _ IH]; cbn; [done|]. by rewrite Ha, IH.
Qed.
End Findings.

(** ** File collector, further properties *)

Section FilesExtra.
Import FileCollector FileFacts FileTracking.

Lemma track1_settle p st f :
  at_path p f = true → track1 p st f = settle (sha256 f) (suspicious f) st.
Proof.
  unfold track1, settle, at_path, suspicious. destruct st as [[n m] h]. intros ->.
  destruct h as [old|]; [done|].
  destruct (bool_decide _); [|done].
  destruct (sha256 f) as [cur|]; cbn; [by rewrite String.eqb_refl | done].
Qed.

Lemma track1_skip p st f : at_path p f = false → track1 p st f = st.
Proof. unfold track1, at_path. destruct st as [[n m] h]. by intros ->. Qed.

Lemma settle_twice d b st : settle d b (settle d b st) = settle d b st.
Proof.
  destruct st as [[n m] [old|]]; cbn.
  - destruct d as [cur|]; [|done]. destruct (String.eqb cur old) eqn:E; cbn; [by rewrite E|].
    by rewrite String.eqb_refl.
  - destruct b; [|done]. destruct d as [cur|]; cbn; [by rewrite String.eqb_refl | done].
Qed.

Lemma settle_again d b st n m :
  settle d b (n, m, (settle d b st).2) = (n, m, (settle d b st).2).
Proof.
  destruct st as [[n0 m0] [old|]]; cbn.
  - destruct d as [cur|]; [|done]. destruct (String.eqb cur old) eqn:E; cbn; [by rewrite E|].
    by rewrite String.eqb_refl.
  - destruct b; [|done]. destruct d as [cur|]; cbn; [by rewrite String.eqb_refl | done].
Qed.

(** Under steady readings a poll leaves the view of [p] alone or settles it
    once. *)
Lemma track_steady p d b es :
  (∀ f, In f es → at_path p f = true → sha256 f = d ∧ suspicious f = b) →
  ∀ st, fold_left (track1 p) es st =
        if existsb (at_path p) es then settle d b st else st.
Proof.
  induction es as [|f rest IH]; intros Hall st; [done|]. cbn [fold_left existsb].
  assert (∀ f', In f' rest → at_path p f' = true → sha256 f' = d ∧ suspicious f' = b) as Hrest
    by (intros f' Hin; apply Hall; by right).
  rewrite (IH Hrest).
  destruct (at_path p f) eqn:Hf; cbn [orb].
  - destruct (Hall f (or_introl eq_refl) Hf) as [Hd Hb].
    rewrite track1_settle, Hd, Hb by done.
    destruct (existsb _ rest); [apply settle_twice | done].
  - by rewrite track1_skip.
Qed.

(** Every finding of a poll is a "new" or a "modified" finding about the
    path it names. *)
Lemma collect_events_kinds dirs known w :
  Forall (λ ev, ∃ p, is_new_finding p ev = true ∨ is_modified_finding p ev = true)
         (collect dirs known w).1.1.
Proof.
  unfold collect.
  set (P := λ ev : pydict, ∃ p, is_new_finding p ev = true ∨ is_modified_finding p ev = true).
  assert (∀ found k w0 f, (_check_extension f k w0).1.1 = Some found → P found) as Hext.
  { intros found k w0 f. unfold _check_extension.
    repeat case_match; cbn [fst snd]; intros [= <-]. exists (path f). left.
    match goal with |- context [new_file_finding ?f ?e ?i ?t] =>
      destruct (new_finding_kind (path f) f e i t) as [-> _] end.
    apply String.eqb_refl. }
  assert (∀ found k w0 f, (_check_file_change f k w0).1.1 = Some found → P found) as Hchg.
  { intros found k w0 f. unfold _check_file_change.
    repeat case_match; cbn [fst snd]; intros [= <-]. exists (path f). right.
    match goal with |- context [modified_finding ?f ?o ?c ?i ?t] =>
      destruct (modified_finding_kind (path f) f o c i t) as [-> _] end.
    apply String.eqb_refl. }
  assert (∀ entries events k w0, Forall P events →
            Forall P (scan_entries entries events k w0).1.1) as Hentries.
  { induction entries as [|f rest IH]; intros events k w0 Hev; cbn [scan_entries]; [done|].
    destruct (negb _); [by apply IH|].
    pose proof (λ found, Hext found k w0 f) as Hext'.
    destruct (_check_extension f k w0) as [[e1 k1] w1]. cbn [fst] in Hext'.
    pose proof (λ found, Hchg found k1 w1 f) as Hchg'.
    destruct (_check_file_change f k1 w1) as [[e2 k2] w2]. cbn [fst] in Hchg'.
    apply IH.
    assert (Forall P (append_found events e1)) as H1.
    { destruct e1 as [ev|]; cbn; [|done]. apply Forall_app. split; [done|].
      apply Forall_singleton. by eapply Hext'. }
    destruct e2 as [ev|]; cbn; [|done]. apply Forall_app. split; [done|].
    apply Forall_singleton. by eapply Hchg'. }
  assert (∀ events k w0, Forall P events → Forall P (scan_paths dirs events k w0).1.1)
    as Hpaths.
  { induction dirs as [|d rest IH]; intros events k w0 Hev; cbn [scan_paths]; [done|].
    destruct (negb _); [by apply IH|].
    destruct (listing d) as [entries|]; [|by apply IH].
    specialize (Hentries entries events k w0 Hev).
    destruct (scan_entries entries events k w0) as [[e1 k1] w1].
    by apply IH. }
  by apply Hpaths.
Qed.

Lemma filter_length_zero {A} (f : A → bool) (l : list A) (x : A) :
  length (List.filter f l) = 0%nat → In x l → f x = false.
Proof.
  induction l as [|y l IH]; [done|]. cbn. destruct (f y) eqn:E; [done|].
  intros Hl [<- | Hin]; auto.
Qed.

(** X10.  A second poll of the file collector over unchanged directory
    contents reports nothing and leaves the known files as the first poll
    left them. *)
Theorem repoll_quiet (dirs : list watched) (known : gmap string string) (w1 w2 : World) :
  (∀ p, steady dirs p) →
  let poll1 := collect dirs known w1 in
  let poll2 := collect dirs poll1.1.2 w2 in
  poll2.1.1 = [] ∧ poll2.1.2 = poll1.1.2.
Proof.
  intros Hsteady. cbv zeta.
  assert (∀ p, view p (collect dirs (collect dirs known w1).1.2 w2).1.1
                      (collect dirs (collect dirs known w1).1.2 w2).1.2
               = (0%nat, 0%nat, (collect dirs known w1).1.2 !! p)) as Hview.
  { intros p. destruct (Hsteady p) as (d & b & Hall). unfold collect.
    rewrite scan_paths_view, (track_steady p d b _ Hall).
    pose proof (scan_paths_view p dirs [] known w1) as V1.
    rewrite (track_steady p d b _ Hall) in V1.
    destruct (existsb (at_path p) (scanned dirs)); [|done].
    replace (view p [] (scan_paths dirs [] known w1).1.2)
      with (0%nat, 0%nat, (settle d b (view p [] known)).2).
    2:{ rewrite <- V1. reflexivity. }
    rewrite (settle_again d b (view p [] known) 0 0). by rewrite <- V1. }
  split.
  - pose proof (collect_events_kinds dirs (collect dirs known w1).1.2 w2) as Hk.
    destruct ((collect dirs (collect dirs known w1).1.2 w2).1.1) as [|ev evs] eqn:E; [done|].
    exfalso. rewrite <- E in Hk.
    assert (In ev (collect dirs (collect dirs known w1).1.2 w2).1.1) as Hin
      by (rewrite E; by left).
    rewrite List.Forall_forall in Hk. destruct (Hk ev Hin) as [p Hp].
    specialize (Hview p). unfold view in Hview. injection Hview as Hn Hm _.
    pose proof (filter_length_zero _ _ ev Hn (or_introl eq_refl)).
    pose proof (filter_length_zero _ _ ev Hm (or_introl eq_refl)).
    destruct Hp; congruence.
  - apply map_eq. intros p. specialize (Hview p). unfold view in Hview.
    by injection Hview.
Qed.

Lemma repoll_quiet_witness :
  let poll1 := collect (downloads (Some "ab"%string)) ∅ fresh_world in
  let poll2 := collect (downloads (Some "ab"%string)) poll1.1.2 fresh_world in
  poll2.1.1 = [] ∧ poll2.1.2 = poll1.1.2.
Proof.
  apply (repoll_quiet (downloads (Some "ab"%string)) ∅ fresh_world fresh_world).
  intros p. unfold steady.
  exists (if String.eqb (path notes_txt) p then Some "00"%string else Some "ab"%string),
         (negb (String.eqb (path notes_txt) p)).
  intros f [<-|[<-|[]]] Hat.
  - unfold at_path in Hat. cbn [is_file notes_txt andb] in Hat.
    rewrite Hat. split; reflexivity.
  - unfold at_path in Hat. cbn [is_file setup_exe andb path] in Hat.
    apply String.eqb_eq in Hat. subst p. split; reflexivity.
Defined.

(** X11.  The known files only grow: a path once known stays known, and
    a path becomes known in a poll only if the poll met it as a regular
    file with a suspicious extension. *)
Theorem known_files_growth (dirs : list watched) (known : gmap string string) (w : World)
    (p : string) :
  let known' := (collect dirs known w).1.2 in
  (is_Some (known !! p) → is_Some (known' !! p)) ∧
  (known !! p = None → is_Some (known' !! p) →
     ∃ f, In f (scanned dirs) ∧ at_path p f = true ∧ suspicious f = true).
Proof.
  cbv zeta. unfold collect.
  pose proof (scan_paths_view p dirs [] known w) as V.
  assert (∀ es st,
            (is_Some st.2 → is_Some (fold_left (track1 p) es st).2) ∧
            (st.2 = None → is_Some (fold_left (track1 p) es st).2 →
               ∃ f, In f es ∧ at_path p f = true ∧ suspicious f = true)) as Htrack.
  { induction es as [|f rest IH]; intros st; cbn [fold_left].
    - split; [done|]. intros Hn [x Hx]. rewrite Hn in Hx. discriminate Hx.
    - destruct (IH (track1 p st f)) as [IH1 IH2].
      destruct (at_path p f) eqn:Hf.
      + rewrite track1_settle in * by done. destruct st as [[n m] [old|]]; cbn in *.
        * split; [|done]. intros _. apply IH1. destruct (sha256 f); [|eauto].
          destruct (String.eqb _ _); eauto.
        * split; [intros [? [=]]|]. intros _ Hs.
          destruct (suspicious f) eqn:Hb; [exists f; split; [by left|auto]|].
          destruct (IH2 eq_refl Hs) as (f' & ? & ? & ?). exists f'. split; [by right|auto].
      + rewrite track1_skip in * by done. split; [done|].
        intros Hn Hs. destruct (IH2 Hn Hs) as (f' & ? & ? & ?). exists f'. split; [by right|auto]. }
  destruct (Htrack (scanned dirs) (view p [] known)) as [H1 H2].
  rewrite <- V in H1, H2. unfold view in H1, H2. cbn [snd] in H1, H2. auto.
Qed.
End FilesExtra.

(** ** Engine, invariants *)

Section EngineExtra.
Import SentinelEngine EngineFacts EngineMeasures.

Ltac sink w :=
  unfold _save_event, _create_alert, get_session, add_commit in *; cbn;
  destruct (session_factory (db w)); cbn;
  [destruct (commit_faults (db w)) as [|[] ?]; cbn; try (destruct (py_upper _); cbn)|].

Lemma saves_logger r w : saves (logger r w) = saves w.
Proof. reflexivity. Qed.

Lemma alert_writes_logger r w : alert_writes (logger r w) = alert_writes w.
Proof. reflexivity. Qed.

Lemma save_event_counts ev w :
  saves (_save_event ev w) = S (saves w) ∧ alert_writes (_save_event ev w) = alert_writes w.
Proof.
  unfold saves, alert_writes. rewrite save_event_calls, !List.filter_app, !length_app. cbn.
  split; lia.
Qed.

Lemma create_alert_counts ev w :
  saves (snd (_create_alert ev w)) = saves w ∧
  alert_writes (snd (_create_alert ev w)) = S (alert_writes w).
Proof.
  unfold saves, alert_writes. rewrite create_alert_calls, !List.filter_app, !length_app. cbn.
  split; lia.
Qed.

Lemma over_tasks_step measure c s s' :
  (∀ c', c' ≠ c → tasks s' c' = tasks s c') →
  (over_tasks measure s' + measure (tasks s c) = over_tasks measure s + measure (tasks s' c))%nat.
Proof.
  intros H. unfold over_tasks.
  destruct c;
    repeat match goal with
           | |- context [tasks s' ?c'] => rewrite (H c') by done
           end; lia.
Qed.

(** The counters across [next_event]. *)
Lemma next_event_counts c rest alerts n s :
  let s' := next_event c rest alerts n s in
  (∀ c', c' ≠ c → tasks s' c' = tasks s c') ∧
  total_events (eng s') = total_events (eng s) ∧
  alert_writes (world s') = alert_writes (world s) ∧
  (total_alerts (eng s') + held (tasks s' c) ≤ total_alerts (eng s) + length alerts)%nat ∧
  (unalerted (tasks s' c) + saves (world s) ≤ saves (world s'))%nat ∧
  (saves (world s') + unsaved (tasks s' c) ≤ saves (world s) + length rest)%nat.
Proof.
  cbv zeta. unfold next_event.
  destruct rest as [|event rest].
  - rewrite set_task_same. cbn [held unalerted unsaved length].
    split; [intros; by rewrite set_task_other|].
    cbn [eng world set_task add_alerts total_events total_alerts].
    destruct alerts; cbn [length]; rewrite ?saves_logger, ?alert_writes_logger;
      repeat split; lia.
  - destruct (calculate_threat_score event) as [score|x].
    + rewrite set_task_same. cbn [held unalerted unsaved length].
      split; [intros; by rewrite set_task_other|].
      cbn [eng world set_task].
      destruct (save_event_counts (scored event score)
        (logger (LogEventAnalyzed (dict_get (scored event score) "title" (AStr "Unknown"))
           score (Severity_value (get_severity_from_score score))) (world s))) as [-> ->].
      rewrite saves_logger, alert_writes_logger. repeat split; lia.
    + rewrite set_task_same. cbn [held unalerted unsaved length].
      split; [intros; by rewrite set_task_other|].
      cbn [eng world set_task]. rewrite saves_logger, alert_writes_logger.
      repeat split; lia.
Qed.

Lemma resume_counts c collected s s' :
  resume c collected s = Some s' →
  (∀ c', c' ≠ c → tasks s' c' = tasks s c') ∧
  (total_alerts (eng s') + held (tasks s' c) + alert_writes (world s)
     ≤ total_alerts (eng s) + held (tasks s c) + alert_writes (world s'))%nat ∧
  (alert_writes (world s') + unalerted (tasks s' c) + saves (world s)
     ≤ alert_writes (world s) + unalerted (tasks s c) + saves (world s'))%nat ∧
  (saves (world s') + unsaved (tasks s' c) + total_events (eng s)
     ≤ saves (world s) + unsaved (tasks s c) + total_events (eng s'))%nat.
Proof.
  unfold resume. intros Hr.
  destruct (tasks s c) as [|event score rest alerts n|alert rest alerts n|] eqn:Ht;
    [| | |done].
  - destruct (is_running (eng s)).
    + destruct collected as [events|x].
      * destruct (routed c events).
        -- injection Hr as <-.
           set (s0 := set_task c Idle _ _ _).
           destruct (next_event_counts c events [] (length events) s0)
             as (H1 & H2 & H3 & H4 & H5 & H6).
           split.
           { intros c' Hc'. rewrite (H1 c' Hc'). subst s0. by rewrite set_task_other. }
           rewrite H2, H3. subst s0. cbn [eng world set_task add_events total_events
             total_alerts held unalerted unsaved length] in *.
           repeat split; lia.
        -- injection Hr as <-. cbn [tasks eng world]. rewrite Ht. repeat split; lia.
      * injection Hr as <-. rewrite set_task_same.
        split; [intros; by rewrite set_task_other|].
        cbn [eng world set_task]. rewrite saves_logger, alert_writes_logger.
        repeat split; lia.
    + injection Hr as <-. rewrite set_task_same.
      split; [intros; by rewrite set_task_other|].
      cbn [eng world set_task held unalerted unsaved]. repeat split; lia.
  - destruct (PyFloat.ge score ALERT_THRESHOLD).
    + destruct (create_alert_counts event (world s)) as [Hs Ha].
      destruct (_create_alert event (world s)) as [alert w1]. cbn [snd] in Hs, Ha.
      injection Hr as <-. rewrite set_task_same.
      split; [intros; by rewrite set_task_other|].
      cbn [eng world set_task held unalerted unsaved]. rewrite Hs, Ha. repeat split; lia.
    + injection Hr as <-.
      destruct (next_event_counts c rest alerts n s) as (H1 & H2 & H3 & H4 & H5 & H6).
      split; [done|]. rewrite H2, H3. cbn [held unalerted unsaved]. repeat split; lia.
  - injection Hr as <-.
    destruct (next_event_counts c rest (alerts ++ [alert]) n s)
      as (H1 & H2 & H3 & H4 & H5 & H6).
    split; [done|]. rewrite H2, H3. rewrite length_app in H4. cbn [length] in H4.
    cbn [held unalerted unsaved]. repeat split; lia.
Qed.

Lemma exec_counts l s s' :
  exec l s = Some s' →
  (total_alerts (eng s') + over_tasks held s' + alert_writes (world s)
     ≤ total_alerts (eng s) + over_tasks held s + alert_writes (world s'))%nat ∧
  (alert_writes (world s') + over_tasks unalerted s' + saves (world s)
     ≤ alert_writes (world s) + over_tasks unalerted s + saves (world s'))%nat ∧
  (saves (world s') + over_tasks unsaved s' + total_events (eng s)
     ≤ saves (world s) + over_tasks unsaved s + total_events (eng s'))%nat.
Proof.
  intros He. destruct l as [c collected| |]; cbn [exec] in He.
  - destruct (resume_counts c collected s s' He) as (H1 & H2 & H3 & H4).
    pose proof (over_tasks_step held c s s' H1).
    pose proof (over_tasks_step unalerted c s s' H1).
    pose proof (over_tasks_step unsaved c s s' H1).
    repeat split; lia.
  - destruct (stop s); try done. injection He as <-.
    unfold over_tasks, saves, alert_writes. cbn. repeat split; lia.
  - destruct (stop s); try done. injection He as <-.
    unfold over_tasks, saves, alert_writes. cbn. repeat split; lia.
Qed.

Lemma run_counts schedule : ∀ s s',
  run schedule s = Some s' →
  (total_alerts (eng s') + over_tasks held s' + alert_writes (world s)
     ≤ total_alerts (eng s) + over_tasks held s + alert_writes (world s'))%nat ∧
  (alert_writes (world s') + over_tasks unalerted s' + saves (world s)
     ≤ alert_writes (world s) + over_tasks unalerted s + saves (world s'))%nat ∧
  (saves (world s') + over_tasks unsaved s' + total_events (eng s)
     ≤ saves (world s) + over_tasks unsaved s + total_events (eng s'))%nat.
Proof.
  induction schedule as [|l rest IH]; intros s s' Hrun; cbn [run] in Hrun.
  - injection Hrun as <-. repeat split; lia.
  - destruct (exec l s) as [s1|] eqn:He; [|done].
    destruct (exec_counts l s s1 He) as (A1 & A2 & A3).
    destruct (IH s1 s' Hrun) as (B1 & B2 & B3).
    repeat split; lia.
Qed.

(** X12.  Along every interleaving from [start()] on, the engine counts no
    more alerts than alert writes were issued, no more alert writes were
    issued than saves, and no more saves than events counted; so
    [total_alerts] never exceeds [total_events]. *)
Theorem engine_funnel (schedule : list label) (w : World) (s : state) :
  run schedule (started w) = Some s →
  (total_alerts (eng s) + alert_writes w ≤ alert_writes (world s))%nat ∧
  (alert_writes (world s) + saves w ≤ saves (world s) + alert_writes w)%nat ∧
  (saves (world s) ≤ saves w + total_events (eng s))%nat ∧
  (total_alerts (eng s) ≤ total_events (eng s))%nat.
Proof.
  intros Hrun. destruct (run_counts schedule (started w) s Hrun) as (H1 & H2 & H3).
  unfold over_tasks in *. cbn [started eng world tasks held unalerted unsaved
    total_alerts total_events] in *.
  repeat split; lia.
Qed.

Lemma engine_funnel_witness :
  let s := stopping_example in
  (total_alerts (eng s) + alert_writes fresh_world ≤ alert_writes (world s))%nat ∧
  (alert_writes (world s) + saves fresh_world ≤ saves (world s) + alert_writes fresh_world)%nat ∧
  (saves (world s) ≤ saves fresh_world + total_events (eng s))%nat ∧
  (total_alerts (eng s) ≤ total_events (eng s))%nat.
Proof.
  apply (engine_funnel [Resume Network (Ok [port_scan_example]); StopCall] fresh_world
           stopping_example).
  vm_compute. reflexivity.
Defined.

(** *** Append-only *)

#[local] Instance grows_refl : Reflexive grows.
Proof. intros w. by repeat split. Qed.

#[local] Instance grows_trans : Transitive grows.
Proof.
  intros w1 w2 w3 (A1 & A2 & A3 & A4) (B1 & B2 & B3 & B4).
  repeat split; by etrans.
Qed.

Lemma grows_logger r w : grows w (logger r w).
Proof. repeat split; try done. cbn. by apply prefix_app_r. Qed.

Lemma grows_save_event ev w : grows w (_save_event ev w).
Proof.
  unfold grows. sink w; repeat split; try done;
    try (by apply prefix_app_r); try (rewrite <- app_assoc; by apply prefix_app_r).
Qed.

Lemma grows_create_alert ev w : grows w (snd (_create_alert ev w)).
Proof.
  unfold grows. sink w; repeat split; try done;
    try (by apply prefix_app_r); try (rewrite <- app_assoc; by apply prefix_app_r).
Qed.

Lemma grows_next_event c rest alerts n s : grows (world s) (world (next_event c rest alerts n s)).
Proof.
  unfold next_event. destruct rest as [|event rest].
  - cbn [world set_task]. destruct alerts; [done|apply grows_logger].
  - destruct (calculate_threat_score event); cbn [world set_task].
    + etrans; [|apply grows_save_event]. apply grows_logger.
    + apply grows_logger.
Qed.

Lemma grows_exec l s s' : exec l s = Some s' → grows (world s) (world s').
Proof.
  destruct l as [c collected| |]; cbn [exec].
  - unfold resume.
    destruct (tasks s c) as [|event score rest alerts n|alert rest alerts n|]; [| | |done].
    + destruct (is_running (eng s)); [|by intros [= <-]].
      destruct collected as [events|x].
      * destruct (routed c events); intros [= <-]; [|done].
        etrans; [|apply grows_next_event]. done.
      * intros [= <-]. apply grows_logger.
    + destruct (PyFloat.ge score ALERT_THRESHOLD).
      * pose proof (grows_create_alert event (world s)) as G.
        destruct (_create_alert event (world s)). by intros [= <-].
      * intros [= <-]. apply grows_next_event.
    + intros [= <-]. apply grows_next_event.
  - destruct (stop s); try done. intros [= <-]. apply grows_logger.
  - destruct (stop s); try done. intros [= <-]. cbn [world].
    repeat split; try done. cbn. by apply prefix_app_r.
Qed.

(** X13.  Along every interleaving, also through [stop()] and the shutdown
    of the database, the rows of both tables, the persistence calls and
    the log are only appended to. *)
Theorem world_append_only (schedule : list label) (s s' : state) :
  run schedule s = Some s' → grows (world s) (world s').
Proof.
  revert s. induction schedule as [|l rest IH]; intros s; cbn [run].
  - by intros [= <-].
  - destruct (exec l s) as [s1|] eqn:He; [|done]. intros Hrun.
    etrans; [by eapply grows_exec | by apply IH].
Qed.

Lemma world_append_only_witness :
  grows (world (started fresh_world)) (world stopping_example).
Proof.
  apply (world_append_only [Resume Network (Ok [port_scan_example]); StopCall]
           (started fresh_world) stopping_example).
  vm_compute. reflexivity.
Defined.

End EngineExtra.

(** ** Ledger of the writes *)

Section Ledger.

Ltac sink w :=
  unfold _save_event, _create_alert, get_session, add_commit in *; cbn;
  destruct (session_factory (db w)); cbn;
  [destruct (commit_faults (db w)) as [|[] ?]; cbn|].

Lemma save_event_ledger ev w :
  settled_saves (_save_event ev w) = S (settled_saves w) ∧
  settled_alerts (_save_event ev w) = settled_alerts w.
Proof.
  unfold settled_saves, settled_alerts, failed_saves, failed_alerts.
  sink w; rewrite ?List.filter_app, ?length_app; cbn; split; lia.
Qed.

Lemma create_alert_ledger ev w :
  is_str (dict_get ev "severity" (AStr "medium")) = true →
  settled_alerts (snd (_create_alert ev w)) = S (settled_alerts w) ∧
  settled_saves (snd (_create_alert ev w)) = settled_saves w.
Proof.
  intros Hsev.
  unfold settled_saves, settled_alerts, failed_saves, failed_alerts.
  unfold _create_alert. cbn [generate_id].
  match goal with |- context [py_upper ?v] =>
    change v with (dict_get ev "severity" (AStr "medium")) end.
  destruct (dict_get ev "severity" (AStr "medium")) as [[]|]; try done.
  sink w; rewrite ?List.filter_app, ?length_app; cbn; split; lia.
Qed.

Lemma logger_ledger r w :
  is_failed_save r = false → is_failed_alert r = false →
  settled_saves (logger r w) = settled_saves w ∧
  settled_alerts (logger r w) = settled_alerts w.
Proof.
  intros H1 H2. unfold settled_saves, settled_alerts, failed_saves, failed_alerts. cbn.
  rewrite !List.filter_app, !length_app. cbn. rewrite H1, H2. cbn. split; lia.
Qed.

Lemma analyze_event_ledger ev w :
  (settled_saves (snd (analyze_event ev w)) + saves w
     = settled_saves w + saves (snd (analyze_event ev w)))%nat ∧
  (settled_alerts (snd (analyze_event ev w)) + alert_writes w
     = settled_alerts w + alert_writes (snd (analyze_event ev w)))%nat.
Proof.
  unfold analyze_event. destruct (calculate_threat_score ev) as [s|x]; [|cbn; lia].
  set (l := LogEventAnalyzed _ _ _).
  destruct (logger_ledger l w eq_refl eq_refl) as [L1 L2].
  destruct (save_event_ledger (scored ev s) (logger l w)) as [S1 S2].
  destruct (save_event_counts (scored ev s) (logger l w)) as [C1 C2].
  rewrite saves_logger in C1. rewrite alert_writes_logger in C2.
  destruct (PyFloat.ge s ALERT_THRESHOLD).
  - assert (is_str (dict_get (scored ev s) "severity" (AStr "medium")) = true) as Hsev
      by (unfold scored; by rewrite dict_get_insert).
    destruct (create_alert_ledger (scored ev s) (_save_event (scored ev s) (logger l w)) Hsev)
      as [A1 A2].
    destruct (create_alert_counts (scored ev s) (_save_event (scored ev s) (logger l w)))
      as [D1 D2].
    destruct (_create_alert _ _) as [alert w1]. cbn [snd] in *. lia.
  - cbn [snd]. lia.
Qed.

Lemma analyze_loop_ledger events : ∀ alerts w,
  (settled_saves (snd (analyze_loop events alerts w)) + saves w
     = settled_saves w + saves (snd (analyze_loop events alerts w)))%nat ∧
  (settled_alerts (snd (analyze_loop events alerts w)) + alert_writes w
     = settled_alerts w + alert_writes (snd (analyze_loop events alerts w)))%nat.
Proof.
  induction events as [|ev rest IH]; intros alerts w; cbn [analyze_loop]; [cbn; lia|].
  pose proof (analyze_event_ledger ev w) as E.
  destruct (analyze_event ev w) as [[[alert|]|x] w1]; cbn [snd] in *.
  - specialize (IH (alerts ++ [alert]) w1). lia.
  - specialize (IH alerts w1). lia.
  - lia.
Qed.

(** X14.  Every write [analyze_batch] issues is accounted for: each save
    adds one row to the event table or logs one failure, and so does each
    alert write for the alert table. *)
Theorem writes_accounted (events : list pydict) (w : World) :
  let w' := snd (analyze_batch events w) in
  (settled_saves w' + saves w = settled_saves w + saves w')%nat ∧
  (settled_alerts w' + alert_writes w = settled_alerts w + alert_writes w')%nat.
Proof.
  cbv zeta. unfold analyze_batch.
  pose proof (analyze_loop_ledger events [] w) as L.
  destruct (analyze_loop events [] w) as [[alerts|x] w1]; cbn [snd] in *; [|done].
  destruct alerts as [|a alerts]; cbn [snd]; [done|].
  destruct (logger_ledger (LogAlertsCreated (length (a :: alerts)) (length events)) w1
              eq_refl eq_refl) as [-> ->].
  by rewrite saves_logger, alert_writes_logger.
Qed.
End Ledger.

(** ** Process collector *)

Section Process.
Import ProcessCollector ProcessFacts.

Lemma first_match_some names text :
  is_Some (first_match names text) ↔ ∃ s, s ∈ names ∧ str_in s text = true.
Proof.
  induction names as [|n rest IH]; cbn.
  - split; [intros [? [=]]|]. intros (s & Hs & _). by apply elem_of_nil in Hs.
  - destruct (str_in n text) eqn:E.
    + split; [|eauto]. intros _. exists n. split; [left|done].
    + rewrite IH. split.
      * intros (s & Hs & Hin). exists s. split; [by right|done].
      * intros (s & Hs & Hin). apply elem_of_cons in Hs as [->|Hs]; [congruence|eauto].
Qed.

Lemma first_match_flagged iteration i :
  iterates iteration →
  is_Some (first_match iteration (str_lower (default ""%string (name i))))
  ↔ name_flagged i = true.
Proof.
  intros Hit. rewrite first_match_some. unfold name_flagged.
  rewrite bool_decide_eq_true. unfold set_Exists.
  split; intros (s & Hs & Hin); exists s; (split; [by apply Hit|done]).
Qed.

Lemma check_suspicious_name_some iteration i w :
  iterates iteration →
  is_Some (fst (_check_suspicious_name iteration i w)) ↔ name_flagged i = true.
Proof.
  intros Hit. rewrite <- (first_match_flagged iteration i Hit).
  unfold _check_suspicious_name. cbv zeta.
  destruct (first_match iteration _); cbn; [|done].
  split; intros _; eexists; reflexivity.
Qed.

Lemma process_collect_loop_length self iteration fs f1 procs :
  iterates iteration →
  ∀ events w,
  length (fst (collect_loop self iteration fs f1 procs events w))
  = (length events + sum_list_with (findings_of self) procs)%nat.
Proof.
  intros Hit. induction procs as [|i rest IH]; intros events w;
    cbn [collect_loop sum_list_with]; [cbn; lia|].
  pose proof (check_suspicious_name_some iteration i w Hit) as Hs.
  destruct (_check_suspicious_name iteration i w) as [e1 w1]. cbn [fst] in Hs.
  set (others := sum_list_with (findings_of self) rest) in *.
  unfold _check_high_cpu, _check_high_memory, findings_of, cpu_high, memory_high.
  cbv zeta.
  destruct (PyFloat.gt (or_zero (cpu_percent i)) (cpu_threshold self));
  destruct (PyFloat.gt (or_zero (memory_percent i)) (memory_threshold self));
  cbn [generate_id fst snd]; rewrite IH;
  destruct (name_flagged i);
  destruct e1 as [ev|]; cbn [append_found]; rewrite ?length_app; cbn [length];
  try lia.
  all: try (destruct Hs as [_ Hs]; by destruct (Hs eq_refl)).
  all: try (destruct Hs as [Hs _]; by specialize (Hs (mk_is_Some _ _ eq_refl))).
Qed.

(** X15.  One poll of the process collector yields, for each process, one
    finding if its lower-cased name contains a suspicious name, one if its
    CPU reading is above the threshold and one if its memory reading is. *)
Theorem process_findings_count
    (self : collector) (iteration : list string) (float_str float_1f : float → string)
    (procs : list info) (w : World) :
  iterates iteration →
  length (fst (collect self iteration float_str float_1f procs w))
  = sum_list_with (findings_of self) procs.
Proof.
  intros Hit. unfold collect. by rewrite process_collect_loop_length.
Qed.

Lemma source_order_iterates : iterates source_order.
Proof. intros s. symmetry. apply elem_of_list_to_set. Qed.

Lemma process_findings_count_witness :
  length (fst (collect default_collector source_order (λ _, "97.5"%string)
                 (λ _, "12.2"%string) [mimikatz_proc; idle_proc] fresh_world))
  = sum_list_with (findings_of default_collector) [mimikatz_proc; idle_proc].
Proof.
  apply (process_findings_count default_collector source_order (λ _, "97.5"%string)
           (λ _, "12.2"%string) [mimikatz_proc; idle_proc] fresh_world).
  exact source_order_iterates.
Defined.


(** Whatever holds of the three kinds of findings holds of every finding
    of a poll. *)
Lemma collect_Forall (P : pydict → Prop) self iteration fs f1 procs w :
  (∀ i s id ts, P (suspicious_finding i s id ts)) →
  (∀ i t id ts, P (cpu_finding i t id ts)) →
  (∀ i t id ts, P (memory_finding i t id ts)) →
  Forall P (fst (collect self iteration fs f1 procs w)).
Proof.
  intros H1 H2 H3. unfold collect.
  assert (∀ events w0, Forall P events →
            Forall P (fst (collect_loop self iteration fs f1 procs events w0))) as Hloop.
  { induction procs as [|i rest IH]; intros events w0 Hev; cbn [collect_loop]; [done|].
    unfold _check_suspicious_name, _check_high_cpu, _check_high_memory. cbv zeta.
    destruct (first_match iteration _);
    destruct (PyFloat.gt (or_zero (cpu_percent i)) (cpu_threshold self));
    destruct (PyFloat.gt (or_zero (memory_percent i)) (memory_threshold self));
    cbn [generate_id fst snd append_found]; apply IH;
    repeat (apply Forall_app; split; [|apply Forall_singleton; auto]); done. }
  by apply Hloop.
Qed.

Lemma process_finding_verdict (ev : pydict) ty f t d rd (s1 s2 : float) :
  dict_get ev "event_type" (AStr "") = Atom (AStr ty) →
  dict_get ev "threat_score" (AFloat 0) = Atom (AFloat f) →
  dict_get ev "title" (AStr "") = Atom (AStr t) →
  dict_get ev "description" (AStr "") = Atom (AStr d) →
  dict_get ev "raw_data" (Dict ∅) = Dict rd →
  rd !! "total_connections" = None →
  PyFloat.gt f 0 = true →
  clamp_round ((default 0.3 (EVENT_BASE_SCORES !! ty) + f) / 2)%float = s1 →
  clamp_round (PyFloat.min ((default 0.3 (EVENT_BASE_SCORES !! ty) + f) / 2 + 0.15) 1)%float
    = s2 →
  calculate_threat_score ev = Ok (if has_critical_keyword (text_of ev) then s2 else s1).
Proof.
  intros H1 H2 H3 H4 H5 H6 H7 <- <-.
  rewrite (calculate_threat_score_fields ev ty f t d rd H1 H2 H3 H4 H5).
  unfold text_of, has_critical_keyword. rewrite H3, H4, keyword_loop_spec, H7.
  unfold connection_bonus. rewrite H6. cbn [default from_option id over_50 mbind result_bind].
  change (50 <? 0) with false. cbv iota.
  by destruct (existsb _ _).
Qed.

Lemma suspicious_finding_score i s id ts :
  calculate_threat_score (suspicious_finding i s id ts)
  = Ok (if has_critical_keyword (text_of (suspicious_finding i s id ts)) then 1 else 0.85)%float.
Proof.
  eapply (process_finding_verdict _ _ _ _ _ _ 0.85 1); try reflexivity.
Qed.

Lemma cpu_finding_score i t id ts :
  calculate_threat_score (cpu_finding i t id ts)
  = Ok (if has_critical_keyword (text_of (cpu_finding i t id ts)) then 0.5 else 0.35)%float.
Proof.
  eapply (process_finding_verdict _ _ _ _ _ _ 0.35 0.5); try reflexivity.
Qed.

Lemma memory_finding_score i t id ts :
  calculate_threat_score (memory_finding i t id ts)
  = Ok (if has_critical_keyword (text_of (memory_finding i t id ts)) then 0.45 else 0.3)%float.
Proof.
  eapply (process_finding_verdict _ _ _ _ _ _ 0.3 0.45); try reflexivity.
Qed.

(** X17.  Every finding of the process collector is scorable.  A
    suspicious-name finding is scored critical and alerts; a high-memory
    finding is scored medium and never alerts; a high-CPU finding is scored
    medium and does not alert, unless its text contains a critical
    keyword: then it is scored high and alerts. *)
Theorem process_findings_verdict
    (self : collector) (iteration : list string) (float_str float_1f : float → string)
    (procs : list info) (w : World) :
  Forall (λ ev, scorable ev = true ∧
                severity_of ev = Some (expected_severity ev) ∧
                alertable ev = expected_alert ev)
         (fst (collect self iteration float_str float_1f procs w)).
Proof.
  apply collect_Forall.
  - intros i s id ts. pose proof (suspicious_finding_score i s id ts) as H.
    split; [apply scorable_iff; eauto|].
    unfold severity_of, alertable, expected_severity, expected_alert. rewrite H.
    change (event_type_is SUSPICIOUS_PROCESS (suspicious_finding i s id ts)) with true.
    cbv iota. cbn [orb]. by destruct (has_critical_keyword _).
  - intros i t id ts. pose proof (cpu_finding_score i t id ts) as H.
    split; [apply scorable_iff; eauto|].
    unfold severity_of, alertable, expected_severity, expected_alert. rewrite H.
    change (event_type_is SUSPICIOUS_PROCESS (cpu_finding i t id ts)) with false.
    change (FileFacts.score_is 0.4 (cpu_finding i t id ts)) with true.
    cbv iota. cbn [orb andb]. by destruct (has_critical_keyword _).
  - intros i t id ts. pose proof (memory_finding_score i t id ts) as H.
    split; [apply scorable_iff; eauto|].
    unfold severity_of, alertable, expected_severity, expected_alert. rewrite H.
    change (event_type_is SUSPICIOUS_PROCESS (memory_finding i t id ts)) with false.
    change (FileFacts.score_is 0.4 (memory_finding i t id ts)) with false.
    cbv iota. cbn [orb andb]. by destruct (has_critical_keyword _).
Qed.

Lemma delete_description_suspicious i s1 s2 id ts :
  delete "description" (suspicious_finding i s1 id ts)
  = delete "description" (suspicious_finding i s2 id ts).
Proof.
  unfold suspicious_finding. cbn [list_to_map foldr fst snd curry uncurry].
  rewrite !(delete_insert_ne _ "description") by done.
  by rewrite !delete_insert_eq.
Qed.

Lemma check_suspicious_name_order it1 it2 i w :
  iterates it1 → iterates it2 →
  option_map (delete "description") (fst (_check_suspicious_name it1 i w))
  = option_map (delete "description") (fst (_check_suspicious_name it2 i w)) ∧
  snd (_check_suspicious_name it1 i w) = snd (_check_suspicious_name it2 i w).
Proof.
  intros H1 H2.
  pose proof (first_match_flagged it1 i H1) as F1.
  pose proof (first_match_flagged it2 i H2) as F2.
  unfold _check_suspicious_name. cbv zeta.
  destruct (first_match it1 _) as [s1|], (first_match it2 _) as [s2|];
    cbn [generate_id fst snd option_map].
  - split; [|done]. by rewrite (delete_description_suspicious i s1 s2).
  - exfalso. assert (name_flagged i = true) as Hf by (apply F1; by eexists).
    destruct (proj2 F2 Hf) as [? [=]].
  - exfalso. assert (name_flagged i = true) as Hf by (apply F2; by eexists).
    destruct (proj2 F1 Hf) as [? [=]].
  - done.
Qed.

Lemma collect_loop_order self it1 it2 fs f1 procs :
  iterates it1 → iterates it2 →
  ∀ e1 e2 w,
  map (delete "description") e1 = map (delete "description") e2 →
  map (delete "description") (fst (collect_loop self it1 fs f1 procs e1 w))
  = map (delete "description") (fst (collect_loop self it2 fs f1 procs e2 w)) ∧
  snd (collect_loop self it1 fs f1 procs e1 w) = snd (collect_loop self it2 fs f1 procs e2 w).
Proof.
  intros H1 H2. induction procs as [|i rest IH]; intros e1 e2 w He; cbn [collect_loop]; [done|].
  destruct (check_suspicious_name_order it1 it2 i w H1 H2) as [Hf Hw].
  destruct (_check_suspicious_name it1 i w) as [f1' w1],
           (_check_suspicious_name it2 i w) as [f2' w2]. cbn [fst snd] in Hf, Hw. subst w2.
  destruct (_check_high_cpu self fs i w1) as [c w3].
  destruct (_check_high_memory self f1 i w3) as [m w4].
  apply IH.
  assert (map (delete "description") (append_found e1 f1')
          = map (delete "description") (append_found e2 f2')) as Ha.
  { destruct f1' as [a|], f2' as [b|]; cbn in Hf; try done.
    cbn [append_found]. rewrite !map_app. cbn. injection Hf as Hf. by rewrite He, Hf. }
  destruct c, m; cbn [append_found]; rewrite ?map_app; by rewrite ?Ha.
Qed.

(** X16.  The order in which the set of suspicious names is iterated shows
    in the description of a finding only: all other fields of the
    findings, their number and order, and the log are the same for any two
    orders. *)
Theorem iteration_order_only_in_description
    (self : collector) (it1 it2 : list string) (float_str float_1f : float → string)
    (procs : list info) (w : World) :
  iterates it1 → iterates it2 →
  map (delete "description") (fst (collect self it1 float_str float_1f procs w))
  = map (delete "description") (fst (collect self it2 float_str float_1f procs w)) ∧
  snd (collect self it1 float_str float_1f procs w)
  = snd (collect self it2 float_str float_1f procs w).
Proof. intros H1 H2. unfold collect. by apply collect_loop_order. Qed.

Lemma reverse_order_iterates : iterates reverse_order.
Proof.
  intros s. rewrite <- (source_order_iterates s). unfold reverse_order, source_order.
  rewrite !elem_of_cons, !elem_of_nil. tauto.
Qed.

Lemma iteration_order_only_in_description_witness :
  map (delete "description")
    (fst (collect default_collector source_order (λ _, "97.5"%string) (λ _, "12.2"%string)
            [mimikatz_proc; idle_proc] fresh_world))
  = map (delete "description")
      (fst (collect default_collector reverse_order (λ _, "97.5"%string)
              (λ _, "12.2"%string) [mimikatz_proc; idle_proc] fresh_world)) ∧
  snd (collect default_collector source_order (λ _, "97.5"%string) (λ _, "12.2"%string)
         [mimikatz_proc; idle_proc] fresh_world)
  = snd (collect default_collector reverse_order (λ _, "97.5"%string) (λ _, "12.2"%string)
           [mimikatz_proc; idle_proc] fresh_world).
Proof.
  apply (iteration_order_only_in_description default_collector source_order reverse_order
           (λ _, "97.5"%string) (λ _, "12.2"%string) [mimikatz_proc; idle_proc] fresh_world).
  - exact source_order_iterates.
  - exact reverse_order_iterates.
Defined.

End Process.

(** ** Manual scan *)

Section Scans.
Import ManualScan.

#[local] Instance untouched_refl : Reflexive untouched.
Proof. by intros w. Qed.

#[local] Instance untouched_trans : Transitive untouched.
Proof. intros w1 w2 w3 [A1 A2] [B1 B2]. split; congruence. Qed.

Lemma untouched_logger r w : untouched w (logger r w).
Proof. done. Qed.

Lemma untouched_generate_id w : untouched w (snd (generate_id w)).
Proof. done. Qed.

Lemma untouched_process self iteration fs f1 procs w :
  untouched w (snd (ProcessCollector.collect self iteration fs f1 procs w)).
Proof.
  unfold ProcessCollector.collect. generalize (@nil pydict) as events. revert w.
  induction procs as [|i rest IH]; intros w events; cbn [ProcessCollector.collect_loop]; [done|].
  unfold ProcessCollector._check_suspicious_name, ProcessCollector._check_high_cpu,
    ProcessCollector._check_high_memory. cbv zeta.
  destruct (ProcessCollector.first_match iteration _);
  destruct (PyFloat.gt _ (ProcessCollector.cpu_threshold self));
  destruct (PyFloat.gt _ (ProcessCollector.memory_threshold self));
  cbn [generate_id fst snd]; (etrans; [|apply IH]); done.
Qed.

Lemma untouched_check_port conn w :
  untouched w (snd (NetworkCollector._check_suspicious_port conn w)).
Proof.
  unfold NetworkCollector._check_suspicious_port, NetworkCollector.check_local.
  destruct (NetworkCollector.raddr conn) as [r|];
    [destruct (decide (NetworkCollector.port r ∈ SUSPICIOUS_PORTS)); [done|]|];
    (destruct (NetworkCollector.laddr conn) as [l|];
       [destruct (decide (NetworkCollector.port l ∈ SUSPICIOUS_PORTS))|]); done.
Qed.

Lemma untouched_port_scan ports w :
  untouched w (snd (NetworkCollector._check_port_scan ports w)).
Proof.
  unfold NetworkCollector._check_port_scan.
  destruct (_ <? _)%nat; [done|]. cbv zeta. by destruct (_ <=? _)%nat.
Qed.

Lemma untouched_network connections w :
  untouched w (snd (NetworkCollector.collect connections w)).
Proof.
  destruct connections as [connections|]; [|done]. unfold NetworkCollector.collect.
  assert (∀ events ports w0,
            untouched w0 (NetworkCollector.collect_loop connections events ports w0).2) as Hloop.
  { induction connections as [|conn rest IH]; intros events ports w0;
      cbn [NetworkCollector.collect_loop]; [done|].
    destruct (negb _); [apply IH|].
    pose proof (untouched_check_port conn w0) as Hc.
    destruct (NetworkCollector._check_suspicious_port conn w0) as [found w1].
    cbn [snd] in Hc. etrans; [exact Hc|apply IH]. }
  specialize (Hloop [] [] w).
  destruct (NetworkCollector.collect_loop connections [] [] w) as [[events ports] w1].
  cbn [snd] in Hloop.
  pose proof (untouched_port_scan ports w1) as Hs.
  destruct (NetworkCollector._check_port_scan ports w1) as [[ev|] w2]; cbn [snd] in *;
    by etrans.
Qed.

Lemma untouched_check_extension f k w :
  untouched w (FileCollector._check_extension f k w).2.
Proof.
  unfold FileCollector._check_extension. cbv zeta.
  destruct (decide _); [|done]. by destruct (k !! _).
Qed.

Lemma untouched_check_file_change f k w :
  untouched w (FileCollector._check_file_change f k w).2.
Proof.
  unfold FileCollector._check_file_change. cbv zeta.
  destruct (k !! _); [|done]. destruct (FileCollector.sha256 f); [|done].
  by destruct (negb _).
Qed.

Lemma untouched_file dirs known w :
  untouched w (FileCollector.collect dirs known w).2.
Proof.
  unfold FileCollector.collect.
  assert (∀ entries events k w0,
            untouched w0 (FileCollector.scan_entries entries events k w0).2) as Hentries.
  { induction entries as [|f rest IH]; intros events k w0;
      cbn [FileCollector.scan_entries]; [done|].
    destruct (negb _); [apply IH|].
    pose proof (untouched_check_extension f k w0) as H1.
    destruct (FileCollector._check_extension f k w0) as [[e1 k1] w1]. cbn [snd] in H1.
    pose proof (untouched_check_file_change f k1 w1) as H2.
    destruct (FileCollector._check_file_change f k1 w1) as [[e2 k2] w2]. cbn [snd] in H2.
    etrans; [exact H1|]. etrans; [exact H2|apply IH]. }
  generalize (@nil pydict) as events. revert known w.
  induction dirs as [|d rest IH]; intros known w events; cbn [FileCollector.scan_paths]; [done|].
  destruct (negb _); [apply IH|].
  destruct (FileCollector.listing d) as [entries|].
  - specialize (Hentries entries events known w).
    destruct (FileCollector.scan_entries entries events known w) as [[e1 k1] w1].
    etrans; [exact Hentries|apply IH].
  - etrans; [|apply IH]. done.
Qed.

Lemma untouched_system m w : untouched w (snd (SystemCollector.collect m w)).
Proof. done. Qed.

(** X18.  No collector writes to the database or issues a persistence
    call: a poll only draws identifiers, reads the clock and logs. *)
Theorem collectors_leave_store_alone
    (self : ProcessCollector.collector) (iteration : list string)
    (float_str float_1f : float → string) (procs : list ProcessCollector.info)
    (connections : option (list NetworkCollector.sconn))
    (dirs : list FileCollector.watched) (known : gmap string string)
    (m : SystemCollector.metrics) (w : World) :
  untouched w (snd (ProcessCollector.collect self iteration float_str float_1f procs w)) ∧
  untouched w (snd (NetworkCollector.collect connections w)) ∧
  untouched w (FileCollector.collect dirs known w).2 ∧
  untouched w (snd (SystemCollector.collect m w)).
Proof.
  split; [apply untouched_process|]. split; [apply untouched_network|].
  split; [apply untouched_file | apply untouched_system].
Qed.





End Scans.

(** ** Engine, counters of a cycle *)

Section EngineCycle.
Import SentinelEngine EngineFacts.

Lemma cycle_scorable c events e w :
  routed c events = true →
  Forall (λ ev, scorable ev = true) events →
  let out := cycle c (Ok events) e w in
  total_events out.1 = (total_events e + length events)%nat ∧
  total_alerts out.1 = (total_alerts e + length (List.filter alertable events))%nat ∧
  is_running out.1 = is_running e ∧
  saves out.2 = (saves w + length events)%nat ∧
  alert_writes out.2 = (alert_writes w + length (List.filter alertable events))%nat.
Proof.
  intros Hr Hsc. cbv zeta. unfold cycle, analyze_batch. rewrite Hr.
  destruct (analyze_loop_scorable events [] w Hsc) as (new & H1 & H2 & _ & H4 & H5).
  destruct (analyze_loop events [] w) as [res w1]. cbn [fst snd app] in *. subst res.
  rewrite <- H2.
  destruct new; cbn [fst snd add_alerts add_events total_events total_alerts is_running length];
    repeat split; try done; lia.
Qed.

(** X20.  Left alone, a task at the loop head that collects a routed batch
    of scorable events is back at the loop head after finitely many
    resumptions, with [total_events] raised by the size of the batch,
    [total_alerts] by the number of events at or above the threshold, one
    save issued per event and one alert write per such event. *)
Theorem cycle_counts (c : collector) (events : list pydict) (s : state) :
  tasks s c = Idle →
  is_running (eng s) = true →
  routed c events = true →
  Forall (λ ev, scorable ev = true) events →
  ∃ k s',
    run (Resume c (Ok events) :: replicate k (Resume c (Ok []))) s = Some s' ∧
    tasks s' c = Idle ∧
    is_running (eng s') = true ∧
    total_events (eng s') = (total_events (eng s) + length events)%nat ∧
    total_alerts (eng s')
      = (total_alerts (eng s) + length (List.filter alertable events))%nat ∧
    saves (world s') = (saves (world s) + length events)%nat ∧
    alert_writes (world s')
      = (alert_writes (world s) + length (List.filter alertable events))%nat.
Proof.
  intros Ht Hrun Hr Hsc.
  destruct (task_cycle c (Ok events) s Ht Hrun) as (k & s' & Hk & Hidle & Hcyc & _).
  destruct (cycle_scorable c events (eng s) (world s) Hr Hsc) as (C1 & C2 & C3 & C4 & C5).
  rewrite <- Hcyc in C1, C2, C3, C4, C5. cbn [fst snd] in *.
  exists k, s'. repeat split; try done. congruence.
Qed.

Lemma cycle_counts_witness :
  ∃ k s',
    run (Resume Network (Ok [port_scan_example; usb_example])
           :: replicate k (Resume Network (Ok []))) (started fresh_world) = Some s' ∧
    tasks s' Network = Idle ∧
    is_running (eng s') = true ∧
    total_events (eng s') = (total_events (eng (started fresh_world)) + 2)%nat ∧
    total_alerts (eng s')
      = (total_alerts (eng (started fresh_world))
         + length (List.filter alertable [port_scan_example; usb_example]))%nat ∧
    saves (world s') = (saves (world (started fresh_world)) + 2)%nat ∧
    alert_writes (world s')
      = (alert_writes (world (started fresh_world))
         + length (List.filter alertable [port_scan_example; usb_example]))%nat.
Proof.
  apply (cycle_counts Network [port_scan_example; usb_example] (started fresh_world)).
  - reflexivity.
  - reflexivity.
  - reflexivity.
  - repeat (constructor; [vm_compute; reflexivity|]). constructor.
Defined.
End EngineCycle.
